(** * SpaceTranslatorRelayPlugin: a shallow embedding and its properties

    The plugin reads an HLS stream through ffmpeg, accumulates raw PCM,
    flushes it periodically through STT -> translation -> TTS, queues the
    synthesized audio and streams it to Janus in 10 ms frames.

    The embedding follows src/plugins/SpaceTranslatorRelayPlugin.ts:
    - every [async] function is a computation in the monad [Js], which
      records the side effects in program order and either returns a value,
      throws (a rejected promise is a throw at the [await]) or ends the
      process (an exception raised where no caller can catch it);
    - what the outside world answers (HTTP responses, ffmpeg exit codes,
      file system results, the clock) is an explicit argument;
    - [Int16Array] objects that the frame pacer allocates live in a store,
      so that two references to one array can be told from two arrays with
      equal contents. *)

From Stdlib Require Import ZArith Lia List String Ascii.
From Stdlib Require Import Strings.Byte.
From stdpp Require Import base list strings pretty.
Import ListNotations.

Local Open Scope string_scope.
Local Open Scope list_scope.

(** ** JavaScript values *)

(** A Node.js [Buffer]: a sequence of bytes. *)
Abbreviation Buffer := (list byte).

(** The samples of an [Int16Array]: signed 16-bit integers. *)
Abbreviation Int16Array := (list Z).

(** A JavaScript string used as a condition: [undefined] and the empty string
    are falsy. *)
Definition truthy (s : option string) : bool :=
  match s with
  | Some EmptyString | None => false
  | Some _ => true
  end.

(** [a || d] on an optional string. *)
Definition or_else (a : option string) (d : string) : string :=
  if truthy a then default d a else d.

(** [s.includes(sub)] *)
Definition includes (s sub : string) : bool :=
  match String.index 0 sub s with
  | Some _ => true
  | None => false
  end.

(** [buf.readInt16LE(off)]: little endian, two's complement. *)
Definition readInt16LE (buf : Buffer) (off : nat) : Z :=
  let lo := Z.of_N (Byte.to_N (default x00 (buf !! off))) in
  let hi := Z.of_N (Byte.to_N (default x00 (buf !! S off))) in
  let u := (lo + 256 * hi)%Z in
  if (u <? 32768)%Z then u else (u - 65536)%Z.

(** What the language runtime computes and the model does not: floating
    point and Unicode. [js_tone_sample amplitude freq sampleRate i] is the
    16-bit integer stored by
    [beep[i] = amplitude * Math.sin(2 * Math.PI * freq * (i / sampleRate))],
    [js_trim] is [String.prototype.trim]. *)
Class JsRuntime := {
  js_tone_sample : Z -> Z -> Z -> nat -> Z;
  js_trim : string -> string
}.

(** ** Effects *)

Inductive Level := Debug | Info | Warn | Error | Plain.

(** A value in a JSON request body: a string, or an object of number
    literals (the only nesting the requests of this program have). *)
Inductive JsonVal :=
  | JStr (s : string)
  | JNums (fields : list (string * string)).

Inductive FormPart :=
  | TextPart (value : string)
  | FilePart (content : list byte) (type filename : string).

Inductive Body :=
  | FormData (parts : list (string * FormPart))
  | JsonBody (fields : list (string * JsonVal)).

Record Request := {
  req_method : string;
  req_headers : list (string * string);
  req_body : Body
}.

(** A location in the store of [Int16Array] objects. *)
Abbreviation loc := nat.

Inductive Effect :=
  | Console (lvl : Level) (msg : string)
  | Logger (lvl : Level) (msg : string)
  | Fetch (url : string) (req : Request)
  | ReadFile (path : string)
  | Unlink (path : string)
  | Spawn (cmd : string) (args : list string) (stdin : Buffer)
  | PushLocalAudio (frame : loc) (sampleRate channels : Z)
  | SetTimeout (ms : Z)
  | Exit (err : string).

(** How an evaluation ends. [Throw] is an exception that unwinds to the
    nearest [catch] of the caller. [Uncaught] is an exception raised outside
    every call of the program, by an event emitter that has no listener for
    its "error" event: no [catch] sees it and the Node process exits. *)
Inductive Result (A : Type) :=
  | Ok (a : A)
  | Throw (err : string)
  | Uncaught (err : string).
Arguments Ok {A} a.
Arguments Throw {A} err.
Arguments Uncaught {A} err.

(** A computation: the effects it performed, in order, and how it ended. *)
Definition Js (A : Type) : Type := list Effect * Result A.

Definition ret {A} (a : A) : Js A := ([], Ok a).

Definition bind {A B} (m : Js A) (k : A -> Js B) : Js B :=
  match m with
  | (t, Ok a) => let (t', r) := k a in (t ++ t', r)
  | (t, Throw e) => (t, Throw e)
  | (t, Uncaught e) => (t, Uncaught e)
  end.

Definition throw {A} (e : string) : Js A := ([], Throw e).

(** The exception of an "error" event that has no listener. *)
Definition uncaught {A} (e : string) : Js A := ([], Uncaught e).

Definition perform (e : Effect) : Js unit := ([e], Ok tt).

(** [await p] where the promise [p] settles as [r]. *)
Definition settle {A} (r : Result A) : Js A := ([], r).

(** [try { m } catch (err) { h err }] *)
Definition try_catch {A} (m : Js A) (h : string -> Js A) : Js A :=
  match m with
  | (t, Ok a) => (t, Ok a)
  | (t, Throw e) => let (t', r) := h e in (t ++ t', r)
  | (t, Uncaught e) => (t, Uncaught e)
  end.

Declare Scope js_scope.
Delimit Scope js_scope with js.
Notation "x <- m ;; k" := (bind m (fun x => k))
  (at level 100, m at next level, right associativity) : js_scope.
Notation "m ;;; k" := (bind m (fun _ => k))
  (at level 100, right associativity) : js_scope.
Local Open Scope js_scope.

Definition effects {A} (m : Js A) : list Effect := fst m.
Definition outcome {A} (m : Js A) : Result A := snd m.

Definition is_fetch (e : Effect) : bool :=
  match e with Fetch _ _ => true | _ => false end.

Definition is_warning (e : Effect) : bool :=
  match e with
  | Console Warn _ | Logger Warn _ => true
  | _ => false
  end.

Definition is_delay (e : Effect) : bool :=
  match e with SetTimeout _ => true | _ => false end.

Definition is_push (e : Effect) : bool :=
  match e with PushLocalAudio _ _ _ => true | _ => false end.

(** Number of network calls a computation made. *)
Definition fetch_count {A} (m : Js A) : nat :=
  length (List.filter is_fetch (effects m)).

(** ** The outside world *)

(** An HTTP response: [resp.ok], and what [await resp.text()],
    [await resp.json()] followed by the read of the one field the caller
    uses, and [await resp.arrayBuffer()] give. Each of them can throw. *)
Record Response := {
  resp_ok : bool;
  resp_text : Result string;
  resp_json : Result string;
  resp_arrayBuffer : Result Buffer
}.

(** How a spawned ffmpeg that is fed through its standard input ends: the
    "close" event with its exit code ([null] when killed by a signal), the
    "error" event of the child process, or the "error" event of [ff.stdin]
    when the write of the input fails (the child has gone before it read
    all of it: EPIPE). The first two have listeners; [ff.stdin] has none. *)
Inductive ProcEnd :=
  | Closed (code : option Z)
  | ProcError (err : string)
  | StdinError (err : string).

(** [process.env] as read once at module load. *)
Record Environ := {
  env_OPENAI_API_KEY : option string;
  env_ELEVENLABS_API_KEY : option string;
  env_LIBRETRANSLATE_URL : option string;
  env_LIBRETRANSLATE_API_KEY : option string
}.

(** [await fetch(url, req)] when the network answers [r]. *)
Definition fetch (r : Result Response) (url : string) (req : Request)
  : Js Response :=
  perform (Fetch url req) ;;; settle r.

Definition show_code (code : option Z) : string :=
  match code with
  | Some c => pretty c
  | None => "null"
  end.

(** [for (let i = 0; i < n; i++) body], as a state transformer. *)
Definition for_range {S : Type} (n : nat) (body : nat -> S -> S) (s : S) : S :=
  fold_left (fun s i => body i s) (seq 0 n) s.

(** [path.basename(p)]: what follows the last slash. *)
Fixpoint basename_go (acc p : string) : string :=
  match p with
  | EmptyString => acc
  | String c rest =>
      if Ascii.eqb c "/" then basename_go EmptyString rest
      else basename_go (acc +:+ String c EmptyString) rest
  end.

Definition basename (p : string) : string := basename_go EmptyString p.

Definition nonempty (s : string) : bool :=
  match s with EmptyString => false | _ => true end.

(** ** The three capabilities (module-level functions) *)

Section Capabilities.
Context {rt : JsRuntime} (genv : Environ).

Definition OPENAI_KEY : option string := env_OPENAI_API_KEY genv.
Definition ELEVENLABS_KEY : option string := env_ELEVENLABS_API_KEY genv.
Definition LIBRETRANSLATE_URL_DEFAULT : string :=
  or_else (env_LIBRETRANSLATE_URL genv) "http://localhost:5000/translate".
Definition LIBRETRANSLATE_API_KEY_ENV : string :=
  or_else (env_LIBRETRANSLATE_API_KEY genv) "".

(** [openAiStt(wavFile, language = "en")]. [file] is what
    [fs.readFileSync(wavFile)] gives, [answer] what the network does with
    the request. *)
Definition openAiStt (file : Result Buffer) (answer : Result Response)
    (wavFile : string) (language : option string) : Js string :=
  let language := default "en" language in
  if negb (truthy OPENAI_KEY) then
    perform (Console Warn
      "[openAiStt] Missing OPENAI_API_KEY; returning empty.") ;;;
    ret ""
  else
    fileBuffer <- (perform (ReadFile wavFile) ;;; settle file) ;;
    let formData :=
      [("file", FilePart fileBuffer "audio/wav" (basename wavFile));
       ("model", TextPart "whisper-1");
       ("language", TextPart language)] in
    resp <- fetch answer "https://api.openai.com/v1/audio/transcriptions"
      {| req_method := "POST";
         req_headers :=
           [("Authorization", "Bearer " +:+ default "" OPENAI_KEY)];
         req_body := FormData formData |} ;;
    if negb (resp_ok resp) then
      errText <- settle (resp_text resp) ;;
      perform (Console Error ("[openAiStt] Error => " +:+ errText)) ;;;
      ret ""
    else
      text <- settle (resp_json resp) ;;
      ret (js_trim text).

(** [libreTranslate(text, targetLang, translateUrl, translateApiKey?)] *)
Definition libreTranslate (answer : Result Response)
    (text targetLang translateUrl : string)
    (translateApiKey : option string) : Js string :=
  if negb (nonempty text) then ret ""
  else
    let body :=
      [("q", JStr text); ("source", JStr "auto");
       ("target", JStr targetLang); ("format", JStr "text")] in
    let isLocalhost := includes translateUrl "localhost" in
    let effectiveApiKey := or_else translateApiKey LIBRETRANSLATE_API_KEY_ENV in
    (if negb isLocalhost && negb (nonempty effectiveApiKey) then
       perform (Console Warn
         "[libreTranslate] WARNING: Using a non-localhost endpoint but no API key found.")
     else ret tt) ;;;
    let body :=
      if nonempty effectiveApiKey
      then body ++ [("api_key", JStr effectiveApiKey)]
      else body in
    resp <- fetch answer translateUrl
      {| req_method := "POST";
         req_headers := [("Content-Type", "application/json")];
         req_body := JsonBody body |} ;;
    if negb (resp_ok resp) then
      errText <- settle (resp_text resp) ;;
      perform (Console Error ("[libreTranslate] Error => " +:+ errText)) ;;;
      ret text
    else
      settle (resp_json resp).

(** [syntheticBeepPcm()] *)
Definition syntheticBeepPcm : Int16Array :=
  let sampleRate := 48000%Z in
  let durationMs := 500%Z in
  let totalSamples := Z.to_nat (sampleRate * durationMs / 1000) in
  let beep : Int16Array := replicate totalSamples 0%Z in
  let freq := 440%Z in
  let amplitude := 8000%Z in
  for_range (length beep)
    (fun i beep => <[i := js_tone_sample amplitude freq sampleRate i]> beep)
    beep.

(** [convertMp3ToPcm(mp3Buffer, outRate, outChannels = 1)]. [ending] is
    how ffmpeg ends and [rawData] what it wrote to its standard output.
    [ff.stdin.write(mp3Buffer)] has no "error" listener. *)
Definition convertMp3ToPcm (ending : ProcEnd) (rawData : Buffer)
    (mp3Buffer : Buffer) (outRate : Z) (outChannels : option Z)
    : Js Int16Array :=
  let outChannels := default 1%Z outChannels in
  perform (Spawn "ffmpeg"
    ["-i"; "pipe:0"; "-f"; "s16le"; "-ar"; pretty outRate;
     "-ac"; pretty outChannels; "pipe:1"] mp3Buffer) ;;;
  match ending with
  | ProcError err => throw err
  | StdinError err => uncaught err
  | Closed (Some 0%Z) =>
      let arr : Int16Array := replicate (length rawData / 2) 0%Z in
      ret (for_range (length arr)
             (fun i arr => <[i := readInt16LE rawData (i * 2)]> arr) arr)
  | Closed code =>
      throw ("ffmpeg mp3->pcm returned code=" +:+ show_code code)
  end.

(** [elevenLabsTts(text, voiceId = "21m00Tcm4TlvDq8ikWAM")] *)
Definition elevenLabsTts (answer : Result Response) (ending : ProcEnd)
    (rawData : Buffer) (text : string) (voiceId : option string)
    : Js Int16Array :=
  let voiceId := default "21m00Tcm4TlvDq8ikWAM" voiceId in
  if negb (truthy ELEVENLABS_KEY) then
    perform (Console Warn
      "[elevenLabsTts] Missing ELEVENLABS_API_KEY; returning beep fallback.") ;;;
    ret syntheticBeepPcm
  else
    perform (Console Plain ("[elevenLabsTts] Request => " +:+ text)) ;;;
    resp <- fetch answer
      ("https://api.elevenlabs.io/v1/text-to-speech/" +:+ voiceId)
      {| req_method := "POST";
         req_headers :=
           [("Content-Type", "application/json");
            ("xi-api-key", default "" ELEVENLABS_KEY)];
         req_body := JsonBody
           [("text", JStr text);
            ("model_id", JStr "eleven_monolingual_v1");
            ("voice_settings",
             JNums [("stability", "0.4"); ("similarity_boost", "0.8")])] |} ;;
    if negb (resp_ok resp) then
      errText <- settle (resp_text resp) ;;
      perform (Console Error ("[elevenLabsTts] Error => " +:+ errText)) ;;;
      ret syntheticBeepPcm
    else
      mp3Buffer <- settle (resp_arrayBuffer resp) ;;
      convertMp3ToPcm ending rawData mp3Buffer 48000 None.
End Capabilities.

(** ** The plugin object *)

Record SpaceTranslatorRelayConfig := {
  cfg_hlsUrl : string;
  cfg_debug : option bool;
  cfg_sampleRate : option Z;
  cfg_channels : option Z;
  cfg_chunkFlushMs : option Z;
  cfg_sttLanguage : option string;
  cfg_targetLanguage : option string;
  cfg_ttsVoiceId : option string;
  cfg_translateUrl : option string;
  cfg_translateApiKey : option string
}.

(** The Janus client is a collaborator of which the plugin only keeps a
    reference. *)
Inductive JanusClient := Janus (id : nat).

(** The fields of [class SpaceTranslatorRelayPlugin]. [ffmpegProcess] holds
    the [killed] flag of the child process, [flushTimer] tells whether the
    interval is set. *)
Record Plugin := {
  debug : bool;
  janus : option JanusClient;
  hlsUrl : string;
  sampleRate : Z;
  channels : Z;
  chunkFlushMs : Z;
  sttLanguage : string;
  targetLanguage : string;
  ttsVoiceId : string;
  translateUrl : string;
  translateApiKey : option string;
  ffmpegProcess : option bool;
  isStreaming : bool;
  pcmBuffer : Buffer;
  flushTimer : bool;
  ttsQueue : list Int16Array;
  ttsProcessing : bool
}.

(** Field assignments [this.f = v]. *)
Definition set_janus (v : option JanusClient) (p : Plugin) : Plugin :=
  {| debug := debug p; janus := v; hlsUrl := hlsUrl p;
     sampleRate := sampleRate p; channels := channels p;
     chunkFlushMs := chunkFlushMs p; sttLanguage := sttLanguage p;
     targetLanguage := targetLanguage p; ttsVoiceId := ttsVoiceId p;
     translateUrl := translateUrl p; translateApiKey := translateApiKey p;
     ffmpegProcess := ffmpegProcess p; isStreaming := isStreaming p;
     pcmBuffer := pcmBuffer p; flushTimer := flushTimer p;
     ttsQueue := ttsQueue p; ttsProcessing := ttsProcessing p |}.

Definition set_ffmpegProcess (v : option bool) (p : Plugin) : Plugin :=
  {| debug := debug p; janus := janus p; hlsUrl := hlsUrl p;
     sampleRate := sampleRate p; channels := channels p;
     chunkFlushMs := chunkFlushMs p; sttLanguage := sttLanguage p;
     targetLanguage := targetLanguage p; ttsVoiceId := ttsVoiceId p;
     translateUrl := translateUrl p; translateApiKey := translateApiKey p;
     ffmpegProcess := v; isStreaming := isStreaming p;
     pcmBuffer := pcmBuffer p; flushTimer := flushTimer p;
     ttsQueue := ttsQueue p; ttsProcessing := ttsProcessing p |}.

Definition set_isStreaming (v : bool) (p : Plugin) : Plugin :=
  {| debug := debug p; janus := janus p; hlsUrl := hlsUrl p;
     sampleRate := sampleRate p; channels := channels p;
     chunkFlushMs := chunkFlushMs p; sttLanguage := sttLanguage p;
     targetLanguage := targetLanguage p; ttsVoiceId := ttsVoiceId p;
     translateUrl := translateUrl p; translateApiKey := translateApiKey p;
     ffmpegProcess := ffmpegProcess p; isStreaming := v;
     pcmBuffer := pcmBuffer p; flushTimer := flushTimer p;
     ttsQueue := ttsQueue p; ttsProcessing := ttsProcessing p |}.

Definition set_pcmBuffer (v : Buffer) (p : Plugin) : Plugin :=
  {| debug := debug p; janus := janus p; hlsUrl := hlsUrl p;
     sampleRate := sampleRate p; channels := channels p;
     chunkFlushMs := chunkFlushMs p; sttLanguage := sttLanguage p;
     targetLanguage := targetLanguage p; ttsVoiceId := ttsVoiceId p;
     translateUrl := translateUrl p; translateApiKey := translateApiKey p;
     ffmpegProcess := ffmpegProcess p; isStreaming := isStreaming p;
     pcmBuffer := v; flushTimer := flushTimer p;
     ttsQueue := ttsQueue p; ttsProcessing := ttsProcessing p |}.

Definition set_flushTimer (v : bool) (p : Plugin) : Plugin :=
  {| debug := debug p; janus := janus p; hlsUrl := hlsUrl p;
     sampleRate := sampleRate p; channels := channels p;
     chunkFlushMs := chunkFlushMs p; sttLanguage := sttLanguage p;
     targetLanguage := targetLanguage p; ttsVoiceId := ttsVoiceId p;
     translateUrl := translateUrl p; translateApiKey := translateApiKey p;
     ffmpegProcess := ffmpegProcess p; isStreaming := isStreaming p;
     pcmBuffer := pcmBuffer p; flushTimer := v;
     ttsQueue := ttsQueue p; ttsProcessing := ttsProcessing p |}.

Definition set_ttsQueue (v : list Int16Array) (p : Plugin) : Plugin :=
  {| debug := debug p; janus := janus p; hlsUrl := hlsUrl p;
     sampleRate := sampleRate p; channels := channels p;
     chunkFlushMs := chunkFlushMs p; sttLanguage := sttLanguage p;
     targetLanguage := targetLanguage p; ttsVoiceId := ttsVoiceId p;
     translateUrl := translateUrl p; translateApiKey := translateApiKey p;
     ffmpegProcess := ffmpegProcess p; isStreaming := isStreaming p;
     pcmBuffer := pcmBuffer p; flushTimer := flushTimer p;
     ttsQueue := v; ttsProcessing := ttsProcessing p |}.

Definition set_ttsProcessing (v : bool) (p : Plugin) : Plugin :=
  {| debug := debug p; janus := janus p; hlsUrl := hlsUrl p;
     sampleRate := sampleRate p; channels := channels p;
     chunkFlushMs := chunkFlushMs p; sttLanguage := sttLanguage p;
     targetLanguage := targetLanguage p; ttsVoiceId := ttsVoiceId p;
     translateUrl := translateUrl p; translateApiKey := translateApiKey p;
     ffmpegProcess := ffmpegProcess p; isStreaming := isStreaming p;
     pcmBuffer := pcmBuffer p; flushTimer := flushTimer p;
     ttsQueue := ttsQueue p; ttsProcessing := v |}.

(** What one run of the transform pipeline meets outside: the clock, the
    ffmpeg that writes the WAV file, the file system and the three
    services. *)
Record PipelineEnv := {
  now : Z;
  wavEnding : ProcEnd;
  wavFile : Result Buffer;
  sttAnswer : Result Response;
  translateAnswer : Result Response;
  ttsAnswer : Result Response;
  mp3Ending : ProcEnd;
  mp3RawData : Buffer;
  unlinkResult : Result unit
}.

(** ** The store of typed arrays used by the frame pacer *)

Abbreviation Heap := (list (list Z)).

(** [new Int16Array(n)]: a fresh zero-filled array; a negative length is a
    [RangeError] whose message names the length. *)
Definition new_Int16Array (n : Z) (h : Heap) : Result (Heap * loc) :=
  if (n <? 0)%Z
  then Throw ("RangeError: Invalid typed array length: " +:+ pretty n)
  else Ok (h ++ [replicate (Z.to_nat n) 0%Z], length h).

(** [a[i]] used as a number to store in an [Int16Array]: outside the array
    the read gives [undefined], which is stored as 0. *)
Definition array_get (h : Heap) (a : loc) (i : nat) : Z :=
  default 0%Z (h !! a ≫= (fun arr => arr !! i)).

(** [a[i] = v]; outside the array the write is ignored. *)
Definition array_set (h : Heap) (a : loc) (i : nat) (v : Z) : Heap :=
  alter (fun arr => <[i := v]> arr) a h.

Definition array_length (h : Heap) (a : loc) : Z :=
  Z.of_nat (length (default [] (h !! a))).

(** How a call that loops ends: it returns, throws, or is still looping when
    the fuel is spent. *)
Inductive Run (A : Type) :=
  | Returned (a : A)
  | Raised (err : string)
  | Diverged.
Arguments Returned {A} a.
Arguments Raised {A} err.
Arguments Diverged {A}.

(** The store and what was handed to Janus and to the timer so far. *)
Record PacerState := {
  heap : Heap;
  out : list Effect
}.

(** ** Methods *)

Section Methods.
Context {rt : JsRuntime} (genv : Environ).

(** [constructor(config)] *)
Definition new_plugin (config : SpaceTranslatorRelayConfig) : Plugin :=
  {| debug := default false (cfg_debug config);
     janus := None;
     hlsUrl := cfg_hlsUrl config;
     sampleRate := default 48000%Z (cfg_sampleRate config);
     channels := default 1%Z (cfg_channels config);
     chunkFlushMs := default 4000%Z (cfg_chunkFlushMs config);
     sttLanguage := default "en" (cfg_sttLanguage config);
     targetLanguage := default "en" (cfg_targetLanguage config);
     ttsVoiceId := default "21m00Tcm4TlvDq8ikWAM" (cfg_ttsVoiceId config);
     translateUrl :=
       or_else (cfg_translateUrl config) (LIBRETRANSLATE_URL_DEFAULT genv);
     translateApiKey := cfg_translateApiKey config;
     ffmpegProcess := None;
     isStreaming := false;
     pcmBuffer := [];
     flushTimer := false;
     ttsQueue := [];
     ttsProcessing := false |}.

(** [startHlsReading()], up to the registration of the listeners. *)
Definition startHlsReading (p : Plugin) : Plugin * list Effect :=
  if isStreaming p then (p, [])
  else
    match janus p with
    | None =>
        (p, [Logger Error
               "[HlsTranslationPlugin] No Janus client; cannot start HLS"])
    | Some _ =>
        let p := set_isStreaming true p in
        let args :=
          ["-i"; hlsUrl p; "-f"; "s16le"; "-ar"; pretty (sampleRate p);
           "-ac"; pretty (channels p); "pipe:1"] in
        (set_ffmpegProcess (Some false) p,
         [Logger Info
            ("[HlsTranslationPlugin] Spawning ffmpeg with HLS=" +:+ hlsUrl p);
          Spawn "ffmpeg" args []])
    end.

(** [onJanusReady(janus)] *)
Definition onJanusReady (j : JanusClient) (p : Plugin)
  : Plugin * list Effect :=
  let p := set_janus (Some j) p in
  let '(p, t) := startHlsReading p in
  (set_flushTimer true p,
   Logger Info "[HlsTranslationPlugin] onJanusReady => Janus is set" :: t).

(** The accumulation buffer: the listener of ffmpeg's standard output,
    [this.pcmBuffer = Buffer.concat([this.pcmBuffer, chunk])]. *)
Definition append (chunk : Buffer) (p : Plugin) : Plugin :=
  set_pcmBuffer (pcmBuffer p ++ chunk) p.

(** A sequence of "data" events, in order. *)
Definition appends (chunks : list Buffer) (p : Plugin) : Plugin :=
  fold_left (fun p chunk => append chunk p) chunks p.

(** The accumulation buffer: the first statements of
    [flushChunkForTranslation]. An empty buffer is left alone and nothing
    is handed on; otherwise the buffer is swapped for an empty one. *)
Definition drain (p : Plugin) : Plugin * Buffer :=
  if (length (pcmBuffer p) =? 0)%nat then (p, [])
  else
    let chunkBuf := pcmBuffer p in
    (set_pcmBuffer [] p, chunkBuf).

(** [convertPcmToWav(chunkBuf)]. The promise is settled by the "close" and
    "error" events of the child process; [ff.stdin.write(chunkBuf)] has no
    "error" listener, so a failed write is an exception that nobody
    catches. *)
Definition convertPcmToWav (clock : Z) (ending : ProcEnd) (p : Plugin)
    (chunkBuf : Buffer) : Js string :=
  let tmpPath := "/tmp/" +:+ "hls_chunk_" +:+ pretty clock +:+ ".wav" in
  perform (Spawn "ffmpeg"
    ["-f"; "s16le"; "-ar"; pretty (sampleRate p); "-ac";
     pretty (channels p); "-i"; "pipe:0"; "-y"; tmpPath] chunkBuf) ;;;
  match ending with
  | Closed (Some 0%Z) => ret tmpPath
  | Closed code => throw ("ffmpeg pcm->wav code=" +:+ show_code code)
  | ProcError err => throw err
  | StdinError err => uncaught err
  end.

(** [flushChunkForTranslation], the body of [try] up to [fs.unlinkSync]:
    the stages of the pipeline for one drained chunk. None of them reads a
    field of the plugin that changes after construction. *)
Definition pipeline (w : PipelineEnv) (p : Plugin) (chunkBuf : Buffer)
  : Js Int16Array :=
  wavPath <- convertPcmToWav (now w) (wavEnding w) p chunkBuf ;;
  perform (Logger Info
    ("[HlsTranslationPlugin] flush => created WAV at " +:+ wavPath)) ;;;
  recognizedText <-
    openAiStt genv (wavFile w) (sttAnswer w) wavPath (Some (sttLanguage p)) ;;
  translatedText <-
    libreTranslate genv (translateAnswer w) recognizedText
      (targetLanguage p) (translateUrl p) (translateApiKey p) ;;
  ttsPcm <-
    elevenLabsTts genv (ttsAnswer w) (mp3Ending w) (mp3RawData w)
      translatedText (Some (ttsVoiceId p)) ;;
  (perform (Unlink wavPath) ;;; settle (unlinkResult w)) ;;;
  ret ttsPcm.

(** [this.ttsQueue.push(ttsPcm)] *)
Definition ttsQueue_push (ttsPcm : Int16Array) (p : Plugin) : Plugin :=
  set_ttsQueue (ttsQueue p ++ [ttsPcm]) p.

(** The loop of [processTtsQueue], from its test to the next suspension:
    either the queue is empty, the flag is cleared and the call ends
    ([None]), or the head is removed and the loop waits in
    [await this.sendTtsPcmToJanus(nextPcm)] ([Some nextPcm]). The head of
    a queue that is not empty is an array, an object, so the branch
    [if (!nextPcm) continue] is never taken. *)
Definition consumer_loop (p : Plugin) : Plugin * option Int16Array :=
  match ttsQueue p with
  | [] => (set_ttsProcessing false p, None)
  | nextPcm :: rest => (set_ttsQueue rest p, Some nextPcm)
  end.

(** [processTtsQueue()], up to its first suspension. *)
Definition processTtsQueue (p : Plugin) : Plugin * option Int16Array :=
  if ttsProcessing p then (p, None)
  else consumer_loop (set_ttsProcessing true p).

(** [flushChunkForTranslation], from the end of the stages on: a result is
    pushed on the queue and the consumer is started; an exception is caught
    and logged. The plugin is the one the call finds when the stages are
    done. An exception that nobody catches never reaches the [catch]: Node
    reports it and the process exits ([Exit]), with the plugin as it was. *)
Definition flush_settle (r : Js Int16Array) (p : Plugin)
  : Plugin * option Int16Array * list Effect :=
  match r with
  | (t, Ok ttsPcm) =>
      let '(p, sending) := processTtsQueue (ttsQueue_push ttsPcm p) in
      (p, sending, t)
  | (t, Throw err) =>
      (p, None,
       t ++ [Logger Error
               ("[HlsTranslationPlugin] flushChunkForTranslation => " +:+ err)])
  | (t, Uncaught err) => (p, None, t ++ [Exit err])
  end.

(** [frameSizeSamples = Math.floor(this.sampleRate * 0.01) * this.channels]
    for an integral sample rate. *)
Definition frameSizeSamples (p : Plugin) : Z :=
  (sampleRate p / 100 * channels p)%Z.

(** [frame[i] = rawPcm[offset + i]] for [i] below [n]. *)
Definition copy_samples (n : nat) (frame rawPcm : loc) (offset : nat)
    (h : Heap) : Heap :=
  for_range n
    (fun i h => array_set h frame i (array_get h rawPcm (offset + i))) h.

(** The first loop of [sendTtsPcmToJanus]: full frames. Returns the
    offset it stopped at. *)
Fixpoint send_full_frames (fuel : nat) (p : Plugin) (rawPcm : loc)
    (frameSize offset : Z) (st : PacerState) : Run (Z * PacerState) :=
  match fuel with
  | O => Diverged
  | S fuel =>
      if (offset + frameSize <=? array_length (heap st) rawPcm)%Z then
        match new_Int16Array frameSize (heap st) with
        | Throw err | Uncaught err => Raised err
        | Ok (h, frame) =>
            let h :=
              copy_samples (Z.to_nat frameSize) frame rawPcm
                (Z.to_nat offset) h in
            let offset := (offset + frameSize)%Z in
            send_full_frames fuel p rawPcm frameSize offset
              {| heap := h;
                 out := out st ++
                   [PushLocalAudio frame (sampleRate p) (channels p);
                    SetTimeout 10] |}
        end
      else Returned (offset, st)
  end.

(** [sendTtsPcmToJanus(rawPcm)] *)
Definition sendTtsPcmToJanus (fuel : nat) (p : Plugin) (h : Heap)
    (rawPcm : loc) : Run PacerState :=
  match janus p with
  | None =>
      Returned
        {| heap := h;
           out := [Logger Warn
             "[HlsTranslationPlugin] sendTtsPcmToJanus => no Janus client"] |}
  | Some _ =>
      let frameSize := frameSizeSamples p in
      match send_full_frames fuel p rawPcm frameSize 0
              {| heap := h; out := [] |} with
      | Raised err => Raised err
      | Diverged => Diverged
      | Returned (offset, st) =>
          let leftover := (array_length (heap st) rawPcm - offset)%Z in
          if ((0 <? leftover) && (leftover <? frameSize))%Z then
            match new_Int16Array frameSize (heap st) with
            | Throw err | Uncaught err => Raised err
            | Ok (h, padFrame) =>
                let h :=
                  copy_samples (Z.to_nat leftover) padFrame rawPcm
                    (Z.to_nat offset) h in
                Returned
                  {| heap := h;
                     out := out st ++
                       [PushLocalAudio padFrame (sampleRate p) (channels p);
                        SetTimeout 10] |}
            end
          else Returned st
      end
  end.

(** [cleanup()] *)
Definition cleanup (p : Plugin) : Plugin * list Effect :=
  let p :=
    match ffmpegProcess p with
    | Some false => set_ffmpegProcess (Some true) p
    | _ => p
    end in
  let p := if flushTimer p then set_flushTimer false p else p in
  let p := set_isStreaming false p in
  let p := set_pcmBuffer [] p in
  let p := set_ttsQueue [] p in
  let p := set_ttsProcessing false p in
  (p, [Logger Info "[HlsTranslationPlugin] cleanup => stopping ffmpeg/timer"]).
End Methods.

(** ** The relay as a transition system

    JavaScript runs one callback at a time, from one suspension to the next.
    A state of the relay is the plugin object together with the calls that
    are suspended: the pipeline runs in flight (each holds the chunk it
    drained) and the consumer loops waiting in
    [await this.sendTtsPcmToJanus(nextPcm)] (each holds its [nextPcm]). *)

Record Sys := {
  plugin : Plugin;
  inflight : list Buffer;
  sending : list Int16Array;
  trace : list Effect
}.

Inductive Event :=
  | JanusReady (j : JanusClient)
  | Data (chunk : Buffer)
  | Tick
  | PipelineSettles (i : nat) (w : PipelineEnv)
  | SendReturns (k : nat)
  | SendThrows (k : nat) (err : string)
  | FfmpegCloses (code : option Z)
  | FfmpegErrors (err : string)
  | Cleanup.

Definition is_cleanup (e : Event) : bool :=
  match e with Cleanup => true | _ => false end.

Definition option_list {A} (o : option A) : list A :=
  match o with Some a => [a] | None => [] end.

Section Relay.
Context {rt : JsRuntime} (genv : Environ).

Definition init (config : SpaceTranslatorRelayConfig) : Sys :=
  {| plugin := new_plugin genv config;
     inflight := []; sending := []; trace := [] |}.

(** One callback. An event that cannot happen in a state (data from a
    process that was never spawned, a tick without a timer, the end of a
    call that is not suspended) leaves the state as it is. The end of the
    Node process is recorded as the effect [Exit] in the trace: a state
    whose trace holds it stands for no state of a running process. *)
Definition step (e : Event) (s : Sys) : Sys :=
  let p := plugin s in
  match e with
  | JanusReady j =>
      let '(p, t) := onJanusReady j p in
      {| plugin := p; inflight := inflight s; sending := sending s;
         trace := trace s ++ t |}
  | Data chunk =>
      match ffmpegProcess p with
      | None => s
      | Some _ =>
          {| plugin := append chunk p; inflight := inflight s;
             sending := sending s; trace := trace s |}
      end
  | Tick =>
      if flushTimer p then
        if (length (pcmBuffer p) =? 0)%nat then
          {| plugin := p; inflight := inflight s; sending := sending s;
             trace := trace s ++
               [Logger Debug "[HlsTranslationPlugin] flush => buffer empty"] |}
        else
          let '(p, chunkBuf) := drain p in
          {| plugin := p; inflight := inflight s ++ [chunkBuf];
             sending := sending s; trace := trace s |}
      else s
  | PipelineSettles i w =>
      match inflight s !! i with
      | None => s
      | Some chunkBuf =>
          let '(p, started, t) :=
            flush_settle (pipeline genv w p chunkBuf) p in
          {| plugin := p; inflight := delete i (inflight s);
             sending := sending s ++ option_list started;
             trace := trace s ++ t |}
      end
  | SendReturns k =>
      match sending s !! k with
      | None => s
      | Some _ =>
          let '(p, next) := consumer_loop p in
          {| plugin := p; inflight := inflight s;
             sending := delete k (sending s) ++ option_list next;
             trace := trace s |}
      end
  | SendThrows k err =>
      match sending s !! k with
      | None => s
      | Some _ =>
          {| plugin := p; inflight := inflight s;
             sending := delete k (sending s);
             trace := trace s ++
               [Logger Error
                  ("[HlsTranslationPlugin] processTtsQueue => error " +:+ err)] |}
      end
  | FfmpegCloses code =>
      match ffmpegProcess p with
      | None => s
      | Some _ =>
          {| plugin := set_isStreaming false p; inflight := inflight s;
             sending := sending s;
             trace := trace s ++
               [Logger Info
                  ("[HlsTranslationPlugin] ffmpeg exited, code= " +:+
                   show_code code)] |}
      end
  | FfmpegErrors err =>
      match ffmpegProcess p with
      | None => s
      | Some _ =>
          {| plugin := set_isStreaming false p; inflight := inflight s;
             sending := sending s;
             trace := trace s ++
               [Logger Error
                  ("[HlsTranslationPlugin] ffmpeg error => " +:+ err)] |}
      end
  | Cleanup =>
      let '(p, t) := cleanup p in
      {| plugin := p; inflight := inflight s; sending := sending s;
         trace := trace s ++ t |}
  end.

Definition run (evs : list Event) (s : Sys) : Sys :=
  fold_left (fun s e => step e s) evs s.

(** The audio that waits to be played, oldest first: what a consumer loop
    is sending, then the queue. *)
Definition backlog (s : Sys) : list Int16Array :=
  sending s ++ ttsQueue (plugin s).
End Relay.

(** ** A runtime to run the model on examples

    [String.prototype.trim] on ASCII white space, and the tone sample
    computed in exact integer arithmetic: the angle is reduced to a quarter
    turn on the integers, the sine is a Taylor polynomial in fixed point and
    the product is truncated toward zero as the store into an [Int16Array]
    does. *)

Definition is_white (c : ascii) : bool :=
  let n := nat_of_ascii c in
  ((n =? 32) || (n =? 9) || (n =? 10) || (n =? 11) || (n =? 12) || (n =? 13))%nat.

Fixpoint trim_start (s : string) : string :=
  match s with
  | String c rest => if is_white c then trim_start rest else s
  | EmptyString => s
  end.

Fixpoint trim_end (s : string) : string :=
  match s with
  | String c rest =>
      match trim_end rest with
      | EmptyString => if is_white c then EmptyString else String c EmptyString
      | rest' => String c rest'
      end
  | EmptyString => s
  end.

Definition ascii_trim (s : string) : string := trim_end (trim_start s).

Definition fx_one : Z := (10 ^ 30)%Z.
Definition fx_half_pi : Z := 1570796326794896619231321691640%Z.

(** [sin x] for [x] in fixed point between 0 and a quarter turn. *)
Definition fx_sin_quarter (x : Z) : Z :=
  let x2 := (x * x / fx_one)%Z in
  let term (acc : Z * Z) (k : nat) : Z * Z :=
    let '(sum, t) := acc in
    let d := (Z.of_nat (2 * k) * Z.of_nat (2 * k + 1))%Z in
    let t' := (- (t * x2 / fx_one) / d)%Z in
    ((sum + t')%Z, t') in
  fst (fold_left term (seq 1 20) (x, x)).

(** [sin (2 * pi * num / den)] in fixed point, for a positive [den]. *)
Definition fx_sin_turns (num den : Z) : Z :=
  let r := (num mod den)%Z in
  let quadrant := (4 * r / den)%Z in
  let rem := (4 * r - quadrant * den)%Z in
  let up := (fx_half_pi * rem / den)%Z in
  let down := (fx_half_pi * (den - rem) / den)%Z in
  if (quadrant =? 0)%Z then fx_sin_quarter up
  else if (quadrant =? 1)%Z then fx_sin_quarter down
  else if (quadrant =? 2)%Z then (- fx_sin_quarter up)%Z
  else (- fx_sin_quarter down)%Z.

Definition exact_tone_sample (amplitude freq sampleRate : Z) (i : nat) : Z :=
  Z.quot (amplitude * fx_sin_turns (freq * Z.of_nat i) sampleRate) fx_one.

Definition reference_runtime : JsRuntime :=
  {| js_tone_sample := exact_tone_sample; js_trim := ascii_trim |}.


(** ** Ways a capability call ends *)

Definition is_ok {A} (r : Result A) : bool :=
  match r with Ok _ => true | Throw _ | Uncaught _ => false end.

(** The request is rejected: [await fetch(...)] throws (a network error). *)
Definition rejected (answer : Result Response) : bool :=
  match answer with Throw _ => true | Ok _ | Uncaught _ => false end.

(** The service answers with a status that is not OK. *)
Definition not_ok (answer : Result Response) : bool :=
  match answer with
  | Ok r => negb (resp_ok r)
  | Throw _ | Uncaught _ => false
  end.

(** The service answers with a status that is not OK and the text of the
    answer can be read. *)
Definition answered_not_ok (answer : Result Response) : bool :=
  match answer with
  | Ok r => negb (resp_ok r) && is_ok (resp_text r)
  | Throw _ | Uncaught _ => false
  end.

(** A request that fails: it is rejected, or the answer is not OK. *)
Definition request_fails (answer : Result Response) : bool :=
  rejected answer || not_ok answer.

(** A capability call that fails: the credential is missing or the request
    fails. *)
Definition call_fails (key : option string) (answer : Result Response) : bool :=
  negb (truthy key) || request_fails answer.

(** The failures the capabilities handle themselves: a missing credential or
    a readable answer that is not OK. For speech recognition the WAV file
    must have been read before the request is sent. *)
Definition recognize_degrades (genv : Environ) (w : PipelineEnv) : bool :=
  negb (truthy (OPENAI_KEY genv)) ||
  (is_ok (wavFile w) && answered_not_ok (sttAnswer w)).

Definition synthesize_degrades (genv : Environ) (answer : Result Response)
  : bool :=
  negb (truthy (ELEVENLABS_KEY genv)) || answered_not_ok answer.

(** The condition under which [libreTranslate] is meant to warn: the
    endpoint is not a local one and no API key is configured, neither in the
    plugin configuration nor in the environment. *)
Definition remote_without_key (genv : Environ) (translateUrl : string)
    (translateApiKey : option string) : bool :=
  negb (includes translateUrl "localhost") &&
  negb (truthy translateApiKey) &&
  negb (truthy (env_LIBRETRANSLATE_API_KEY genv)).

(** Number of frames of [frameSize] samples needed for [len] samples,
    [ceil(len / frameSize)]. *)
Definition frame_count (len frameSize : Z) : Z :=
  ((len + frameSize - 1) / frameSize)%Z.

(** Sample [i] of frame [k] of the samples [pcm] cut in frames of
    [frameSize]: the sample of [pcm] at that place, 0 beyond its end. *)
Definition frame_of (frameSize : nat) (pcm : Int16Array) (k : nat)
  : Int16Array :=
  map (fun i => default 0%Z (pcm !! (k * frameSize + i)%nat)) (seq 0 frameSize).

Definition no_cleanup (evs : list Event) : bool :=
  forallb (fun e => negb (is_cleanup e)) evs.

(** ** Example inputs *)

Definition no_keys : Environ :=
  {| env_OPENAI_API_KEY := None; env_ELEVENLABS_API_KEY := None;
     env_LIBRETRANSLATE_URL := None; env_LIBRETRANSLATE_API_KEY := None |}.

Definition all_keys : Environ :=
  {| env_OPENAI_API_KEY := Some "sk-test";
     env_ELEVENLABS_API_KEY := Some "el-test";
     env_LIBRETRANSLATE_URL := None; env_LIBRETRANSLATE_API_KEY := None |}.

Definition demo_config : SpaceTranslatorRelayConfig :=
  {| cfg_hlsUrl := "https://example.com/space.m3u8";
     cfg_debug := None; cfg_sampleRate := Some 48000%Z;
     cfg_channels := Some 1%Z; cfg_chunkFlushMs := Some 5000%Z;
     cfg_sttLanguage := Some "en"; cfg_targetLanguage := Some "fr";
     cfg_ttsVoiceId := None; cfg_translateUrl := None;
     cfg_translateApiKey := None |}.

Definition config_16k : SpaceTranslatorRelayConfig :=
  {| cfg_hlsUrl := "https://example.com/space.m3u8";
     cfg_debug := None; cfg_sampleRate := Some 16000%Z;
     cfg_channels := Some 1%Z; cfg_chunkFlushMs := None;
     cfg_sttLanguage := None; cfg_targetLanguage := None;
     cfg_ttsVoiceId := None; cfg_translateUrl := None;
     cfg_translateApiKey := None |}.

Definition answer_json (field : string) : Result Response :=
  Ok {| resp_ok := true; resp_text := Ok field; resp_json := Ok field;
        resp_arrayBuffer := Ok [] |}.

Definition answer_mp3 (data : Buffer) : Result Response :=
  Ok {| resp_ok := true; resp_text := Ok ""; resp_json := Throw "SyntaxError";
        resp_arrayBuffer := Ok data |}.

Definition answer_error (text : string) : Result Response :=
  Ok {| resp_ok := false; resp_text := Ok text; resp_json := Ok text;
        resp_arrayBuffer := Ok [] |}.

Definition network_error : Result Response := Throw "TypeError: fetch failed".

(** A world in which every service answers: "hello" is recognized,
    translated to "bonjour" and synthesized as the two samples 1 and -2. *)
Definition fair_world : PipelineEnv :=
  {| now := 1700000000000%Z;
     wavEnding := Closed (Some 0%Z);
     wavFile := Ok [x52; x49; x46; x46];
     sttAnswer := answer_json "hello";
     translateAnswer := answer_json "bonjour";
     ttsAnswer := answer_mp3 [xff; xfb];
     mp3Ending := Closed (Some 0%Z);
     mp3RawData := [x01; x00; xfe; xff];
     unlinkResult := Ok tt |}.

(** A world in which every request is rejected by the network. *)
Definition offline_world : PipelineEnv :=
  {| now := 1700000000000%Z;
     wavEnding := Closed (Some 0%Z);
     wavFile := Ok [x52; x49; x46; x46];
     sttAnswer := network_error;
     translateAnswer := network_error;
     ttsAnswer := network_error;
     mp3Ending := Closed (Some 0%Z);
     mp3RawData := [];
     unlinkResult := Ok tt |}.

(** A world in which every service answers with an error status. *)
Definition refusing_world : PipelineEnv :=
  {| now := 1700000000000%Z;
     wavEnding := Closed (Some 0%Z);
     wavFile := Ok [x52; x49; x46; x46];
     sttAnswer := answer_error "401 Unauthorized";
     translateAnswer := answer_error "403 Forbidden";
     ttsAnswer := answer_error "401 Unauthorized";
     mp3Ending := Closed (Some 0%Z);
     mp3RawData := [];
     unlinkResult := Ok tt |}.

(** Recognition works but the translation request is rejected. *)
Definition translation_down : PipelineEnv :=
  {| now := 1700000000000%Z;
     wavEnding := Closed (Some 0%Z);
     wavFile := Ok [x52; x49; x46; x46];
     sttAnswer := answer_json "hello";
     translateAnswer := network_error;
     ttsAnswer := answer_mp3 [xff; xfb];
     mp3Ending := Closed (Some 0%Z);
     mp3RawData := [x01; x00; xfe; xff];
     unlinkResult := Ok tt |}.


(** As [fair_world], with other audio: the single sample 3. *)
Definition late_world : PipelineEnv :=
  {| now := 1700000004000%Z;
     wavEnding := Closed (Some 0%Z);
     wavFile := Ok [x52; x49; x46; x46];
     sttAnswer := answer_json "world";
     translateAnswer := answer_json "monde";
     ttsAnswer := answer_mp3 [xff; xfb];
     mp3Ending := Closed (Some 0%Z);
     mp3RawData := [x03; x00];
     unlinkResult := Ok tt |}.

(** Two chunks drained by two ticks, their runs in flight. *)
Definition two_ticks : list Event :=
  [JanusReady (Janus 1); Data [x01; x02]; Tick; Data [x03; x04]; Tick].

(** A plugin with the default settings and a Janus client attached. *)
Definition attached_plugin : Plugin :=
  set_janus (Some (Janus 1)) (new_plugin all_keys demo_config).

(** 2000 samples: 1, 2, ..., 2000. *)
Definition ramp : Int16Array := map Z.of_nat (seq 1 2000).

(** ** Predicates on states of the relay *)

(** At most one consumer loop is alive, and only while the in-progress flag
    is set. *)
Definition one_consumer (s : Sys) : Prop :=
  (length (sending s) <= if ttsProcessing (plugin s) then 1 else 0)%nat.

(** Two plugin objects agree on the fields the pipeline reads. *)
Definition same_settings (p q : Plugin) : Prop :=
  sampleRate p = sampleRate q /\ channels p = channels q /\
  sttLanguage p = sttLanguage q /\ targetLanguage p = targetLanguage q /\
  ttsVoiceId p = ttsVoiceId q /\ translateUrl p = translateUrl q /\
  translateApiKey p = translateApiKey q.

(** ** What the frame pacer is expected to hand to Janus *)

(** [n] frames pushed one after the other, each followed by its 10 ms wait;
    frame [i] is the array at location [base + i]. *)
Definition paced (p : Plugin) (base first n : nat) : list Effect :=
  flat_map
    (fun i => [PushLocalAudio (base + i)%nat (sampleRate p) (channels p);
               SetTimeout 10])
    (seq first n).

(** Number of samples in the arrays that were pushed. *)
Definition samples_pushed (h : Heap) (t : list Effect) : nat :=
  fold_right
    (fun e acc =>
       match e with
       | PushLocalAudio frame _ _ => (length (default [] (h !! frame)) + acc)%nat
       | _ => acc
       end)
    0%nat t.

(** ** Observations on traces and runs *)

Definition is_unlink (e : Effect) : bool :=
  match e with Unlink _ => true | _ => false end.

Definition is_spawn (e : Effect) : bool :=
  match e with Spawn _ _ _ => true | _ => false end.

(** The URLs requested, in the order of the requests. *)
Definition fetched_urls (t : list Effect) : list string :=
  flat_map (fun e => match e with Fetch url _ => [url] | _ => [] end) t.

Definition stt_url : string := "https://api.openai.com/v1/audio/transcriptions".

Definition tts_url (voiceId : string) : string :=
  "https://api.elevenlabs.io/v1/text-to-speech/" +:+ voiceId.

(** The three endpoints a run of the pipeline talks to, in stage order. *)
Definition service_urls (p : Plugin) : list string :=
  [stt_url; translateUrl p; tts_url (ttsVoiceId p)].

(** The property [name] of the JSON object sent as the body of a request. *)
Definition json_field (name : string) (req : Request) : option JsonVal :=
  match req_body req with
  | JsonBody fields =>
      snd <$> List.find (fun kv => String.eqb (fst kv) name) fields
  | FormData _ => None
  end.

(** What a stage may do: request the URLs [urls], in order and each at most
    once, and remove no file. *)
Definition stage_bound (urls : list string) (t : list Effect) : Prop :=
  fetched_urls t `sublist_of` urls /\ existsb is_unlink t = false.

(** The path [convertPcmToWav] writes to at time [clock]. *)
Definition wav_path (clock : Z) : string :=
  "/tmp/" +:+ "hls_chunk_" +:+ pretty clock +:+ ".wav".

(** The arrays handed to Janus, in order, as the store holds them. *)
Definition pushed_frames (h : Heap) (t : list Effect) : list Int16Array :=
  flat_map
    (fun e => match e with
              | PushLocalAudio frame _ _ => option_list (h !! frame)
              | _ => []
              end) t.

(** Raw little-endian bytes read as 16-bit samples, a trailing odd byte left
    out: what the loop of [convertMp3ToPcm] computes. *)
Definition pcm_of_bytes (rawData : Buffer) : Int16Array :=
  map (fun i => readInt16LE rawData (i * 2)) (seq 0 (length rawData / 2)).

(** The bytes ffmpeg delivered during a sequence of events. *)
Definition received (evs : list Event) : Buffer :=
  flat_map (fun e => match e with Data chunk => chunk | _ => [] end) evs.

(** Only audio arriving and the timer firing. *)
Definition feed_only (evs : list Event) : bool :=
  forallb (fun e => match e with Data _ | Tick => true | _ => false end) evs.



Section Observations.
Context {rt : JsRuntime} (genv : Environ).

(** The audio whose sending to Janus completed during the events, in
    order of completion. *)
Fixpoint played (evs : list Event) (s : Sys) : list Int16Array :=
  match evs with
  | [] => []
  | e :: evs =>
      match e with
      | SendReturns k => option_list (sending s !! k)
      | _ => []
      end ++ played evs (step genv e s)
  end.

(** The audio the pipeline runs pushed on the queue during the events, in
    order. *)
Fixpoint enqueued (evs : list Event) (s : Sys) : list Int16Array :=
  match evs with
  | [] => []
  | e :: evs =>
      match e with
      | PipelineSettles i w =>
          match inflight s !! i with
          | Some chunkBuf =>
              match outcome (pipeline genv w (plugin s) chunkBuf) with
              | Ok ttsPcm => [ttsPcm]
              | Throw _ | Uncaught _ => []
              end
          | None => []
          end
      | _ => []
      end ++ enqueued evs (step genv e s)
  end.
End Observations.

(** ** Answers of the services *)

(** ffmpeg ended with the "close" event and exit code 0. *)
Definition exited_cleanly (ending : ProcEnd) : bool :=
  match ending with Closed (Some 0%Z) => true | _ => false end.

Definition has {A} (o : option A) : bool :=
  match o with Some _ => true | None => false end.

(** The field read from the JSON body of an answer that is OK. *)
Definition answered_json (answer : Result Response) : option string :=
  match answer with
  | Ok r =>
      if resp_ok r
      then match resp_json r with Ok s => Some s | _ => None end
      else None
  | Throw _ | Uncaught _ => None
  end.

(** The body of an answer that is OK, as bytes. *)
Definition answered_bytes (answer : Result Response) : option Buffer :=
  match answer with
  | Ok r =>
      if resp_ok r
      then match resp_arrayBuffer r with Ok b => Some b | _ => None end
      else None
  | Throw _ | Uncaught _ => None
  end.

(** Both keys are set, both ffmpeg processes exit cleanly, the WAV file can
    be read and removed, and the three services answer OK with a body that
    can be read. *)
Definition services_answer (genv : Environ) (w : PipelineEnv) : bool :=
  truthy (OPENAI_KEY genv) && truthy (ELEVENLABS_KEY genv) &&
  exited_cleanly (wavEnding w) && is_ok (wavFile w) &&
  has (answered_json (sttAnswer w)) &&
  has (answered_json (translateAnswer w)) &&
  has (answered_bytes (ttsAnswer w)) &&
  exited_cleanly (mp3Ending w) && is_ok (unlinkResult w).

(** The API key [libreTranslate] uses: the one of the plugin configuration
    when it is set and not empty, else the one of the environment when it is
    set and not empty, else none. *)
Definition effective_key (genv : Environ) (translateApiKey : option string)
  : option string :=
  if truthy translateApiKey then translateApiKey
  else if truthy (env_LIBRETRANSLATE_API_KEY genv)
       then env_LIBRETRANSLATE_API_KEY genv
       else None.

(** ** More example inputs *)

(** A sample rate below 100 Hz: the frame size is 0. *)
Definition config_low_rate : SpaceTranslatorRelayConfig :=
  {| cfg_hlsUrl := "https://example.com/space.m3u8";
     cfg_debug := None; cfg_sampleRate := Some 50%Z;
     cfg_channels := Some 1%Z; cfg_chunkFlushMs := None;
     cfg_sttLanguage := None; cfg_targetLanguage := None;
     cfg_ttsVoiceId := None; cfg_translateUrl := None;
     cfg_translateApiKey := None |}.

(** A negative channel count: the frame size is negative. *)
Definition config_negative_channels : SpaceTranslatorRelayConfig :=
  {| cfg_hlsUrl := "https://example.com/space.m3u8";
     cfg_debug := None; cfg_sampleRate := Some 48000%Z;
     cfg_channels := Some (-1)%Z; cfg_chunkFlushMs := None;
     cfg_sttLanguage := None; cfg_targetLanguage := None;
     cfg_ttsVoiceId := None; cfg_translateUrl := None;
     cfg_translateApiKey := None |}.

(** Two chunks drained, the audio of the first being sent. *)
Definition first_audio_sending : list Event :=
  two_ticks ++ [PipelineSettles 0 fair_world].

(** ** Stages that return

    A stage returns, instead of throwing, when the service answers with a
    body that can be read, and also when it fails in one of the two ways
    the capability handles itself: the credential is missing, or the
    answer is not OK and its text can be read. *)

(** The request is answered and the capability can read what it needs:
    the text of an answer that is not OK, the JSON body of one that is. *)
Definition handled (answer : Result Response) : bool :=
  answered_not_ok answer || has (answered_json answer).

(** [openAiStt] returns: the key is missing, or the WAV file can be read
    and the request is handled. *)
Definition recognize_returns (genv : Environ) (w : PipelineEnv) : bool :=
  negb (truthy (OPENAI_KEY genv)) ||
  (is_ok (wavFile w) && handled (sttAnswer w)).

(** [elevenLabsTts] returns: it degrades to the tone, or the answer is OK,
    its body can be read and ffmpeg decodes it. *)
Definition synthesize_returns (genv : Environ) (w : PipelineEnv) : bool :=
  synthesize_degrades genv (ttsAnswer w) ||
  (has (answered_bytes (ttsAnswer w)) && exited_cleanly (mp3Ending w)).

(** What [elevenLabsTts] returns when it returns. *)
Definition synthesized `{rt : JsRuntime} (genv : Environ) (w : PipelineEnv)
  : Int16Array :=
  if synthesize_degrades genv (ttsAnswer w) then syntheticBeepPcm
  else pcm_of_bytes (mp3RawData w).

Section StageResults.
Context {rt : JsRuntime} (genv : Environ).

(** What [openAiStt] returns when it returns: the trimmed transcription,
    or the empty text when it degrades. *)
Definition recognized (w : PipelineEnv) : string :=
  if truthy (OPENAI_KEY genv)
  then match answered_json (sttAnswer w) with
       | Some heard => js_trim heard
       | None => ""
       end
  else "".

(** [libreTranslate] returns on the recognized text: the text is empty
    (no request is made), or the request is handled. *)
Definition translate_returns (w : PipelineEnv) : bool :=
  negb (nonempty (recognized w)) || handled (translateAnswer w).

(** What [libreTranslate] returns when it returns: the translation, or the
    recognized text itself when the answer is not OK. *)
Definition translated (w : PipelineEnv) : string :=
  if nonempty (recognized w)
  then default (recognized w) (answered_json (translateAnswer w))
  else "".

(** Every cleanup of the run happens while no consumer loop is suspended in
    [await this.sendTtsPcmToJanus(nextPcm)]. *)
Fixpoint cleanup_only_when_idle (evs : list Event) (s : Sys) : bool :=
  match evs with
  | [] => true
  | e :: evs =>
      (negb (is_cleanup e) || (length (sending s) =? 0)%nat) &&
      cleanup_only_when_idle evs (step genv e s)
  end.
End StageResults.

(** The Node process is running: no exception went uncaught. *)
Definition is_exit (e : Effect) : bool :=
  match e with Exit _ => true | _ => false end.

Definition running (s : Sys) : bool := negb (existsb is_exit (trace s)).

(** ** Further example inputs *)

(** Recognition answers; translation and synthesis are refused. *)
Definition refused_after_recognition : PipelineEnv :=
  {| now := 1700000000000%Z;
     wavEnding := Closed (Some 0%Z);
     wavFile := Ok [x52; x49; x46; x46];
     sttAnswer := answer_json "hello";
     translateAnswer := answer_error "403 Forbidden";
     ttsAnswer := answer_error "401 Unauthorized";
     mp3Ending := Closed (Some 0%Z);
     mp3RawData := [];
     unlinkResult := Ok tt |}.

(** ffmpeg is gone before it has read the chunk: the write to its standard
    input fails. *)
Definition broken_pipe : PipelineEnv :=
  {| now := 1700000000000%Z;
     wavEnding := StdinError "Error: write EPIPE";
     wavFile := Throw "ENOENT";
     sttAnswer := network_error;
     translateAnswer := network_error;
     ttsAnswer := network_error;
     mp3Ending := Closed (Some 0%Z);
     mp3RawData := [];
     unlinkResult := Ok tt |}.

(** CD quality: 44100 Hz, two channels. The frame size is 441 * 2. *)
Definition config_cd : SpaceTranslatorRelayConfig :=
  {| cfg_hlsUrl := "https://example.com/space.m3u8";
     cfg_debug := None; cfg_sampleRate := Some 44100%Z;
     cfg_channels := Some 2%Z; cfg_chunkFlushMs := None;
     cfg_sttLanguage := None; cfg_targetLanguage := None;
     cfg_ttsVoiceId := None; cfg_translateUrl := None;
     cfg_translateApiKey := None |}.

(** A plugin configured for CD quality, with a Janus client attached. *)
Definition cd_plugin : Plugin :=
  set_janus (Some (Janus 1)) (new_plugin all_keys config_cd).
(** * Properties *)

(** ** The accumulation buffer *)

Section BufferFacts.
Context {rt : JsRuntime} (genv : Environ).

Lemma pcmBuffer_appends chunks p :
  pcmBuffer (appends chunks p) = pcmBuffer p ++ concat chunks.
Proof.
  revert p. induction chunks as [|c chunks IH]; intros p.
  - simpl. symmetry. apply app_nil_r.
  - change (appends (c :: chunks) p) with (appends chunks (append c p)).
    rewrite IH. simpl. symmetry. apply app_assoc.
Qed.

Lemma drain_returns_buffer p : snd (drain p) = pcmBuffer p.
Proof.
  unfold drain. destruct (pcmBuffer p) as [|b bs] eqn:E; simpl; reflexivity.
Qed.

Lemma drain_empties p : pcmBuffer (fst (drain p)) = [].
Proof.
  unfold drain. destruct (pcmBuffer p) as [|b bs] eqn:E; simpl; auto.
Qed.

Lemma drain_empty p : pcmBuffer p = [] -> drain p = (p, []).
Proof. intros E. unfold drain. rewrite E. reflexivity. Qed.

Lemma tick_on_empty_buffer (s : Sys) :
  pcmBuffer (plugin s) = [] ->
  plugin (step genv Tick s) = plugin s /\
  inflight (step genv Tick s) = inflight s /\
  sending (step genv Tick s) = sending s.
Proof.
  intros E. unfold step. destruct (flushTimer (plugin s)); [|auto].
  rewrite E. simpl. auto.
Qed.

Lemma tick_empties_buffer (s : Sys) :
  flushTimer (plugin s) = true ->
  pcmBuffer (plugin (step genv Tick s)) = [].
Proof.
  intros T. unfold step, drain. rewrite T.
  destruct (pcmBuffer (plugin s)) as [|b bs] eqn:E; simpl; auto.
Qed.

(** C4. Appends followed by one drain give back the appended bytes,
    concatenated in call order (after whatever the buffer held before, which
    is nothing for a new plugin); the drain leaves the buffer empty, a second
    drain returns the empty buffer and changes nothing, and a scheduler tick
    that finds the buffer empty starts no pipeline run and touches neither
    the plugin nor the playback queue. *)
Theorem append_drain_concat (config : SpaceTranslatorRelayConfig)
    (p0 : Plugin) (chunks : list Buffer) (s : Sys) :
  snd (drain (appends chunks p0)) = pcmBuffer p0 ++ concat chunks /\
  snd (drain (appends chunks (new_plugin genv config))) = concat chunks /\
  (let p1 := fst (drain (appends chunks p0)) in
   pcmBuffer p1 = [] /\ drain p1 = (p1, [])) /\
  (let s1 := step genv Tick s in
   plugin (step genv Tick s1) = plugin s1 /\
   inflight (step genv Tick s1) = inflight s1 /\
   sending (step genv Tick s1) = sending s1).
Proof.
  split; [|split; [|split]].
  - rewrite drain_returns_buffer. apply pcmBuffer_appends.
  - rewrite drain_returns_buffer, pcmBuffer_appends. reflexivity.
  - cbv zeta. split; [apply drain_empties|].
    apply drain_empty, drain_empties.
  - cbv zeta. destruct (flushTimer (plugin s)) eqn:T.
    + apply tick_on_empty_buffer, tick_empties_buffer, T.
    + assert (step genv Tick s = s) as ->.
      { unfold step. rewrite T. reflexivity. }
      unfold step. rewrite T. auto.
Qed.
End BufferFacts.

(** ** The monad *)

Lemma outcome_bind_ok {A B} (m : Js A) (k : A -> Js B) (a : A) :
  outcome m = Ok a -> outcome (bind m k) = outcome (k a).
Proof.
  destruct m as [t r]. simpl. intros ->. simpl. destruct (k a). reflexivity.
Qed.

Lemma outcome_bind_throw {A B} (m : Js A) (k : A -> Js B) (e : string) :
  outcome m = Throw e -> outcome (bind m k) = Throw e.
Proof. destruct m as [t r]. simpl. intros ->. reflexivity. Qed.

Lemma effects_bind_ok {A B} (m : Js A) (k : A -> Js B) (a : A) :
  outcome m = Ok a -> effects (bind m k) = effects m ++ effects (k a).
Proof.
  destruct m as [t r]. simpl. intros ->. simpl. destruct (k a). reflexivity.
Qed.

Lemma effects_bind_throw {A B} (m : Js A) (k : A -> Js B) (e : string) :
  outcome m = Throw e -> effects (bind m k) = effects m.
Proof. destruct m as [t r]. simpl. intros ->. reflexivity. Qed.

Lemma Ok_inj {A} (a b : A) : Ok a = Ok b -> a = b.
Proof. intros H. injection H. auto. Qed.

Lemma js_eta {A} (m : Js A) : m = (effects m, outcome m).
Proof. destruct m. reflexivity. Qed.

(** ** Loops that fill an array *)

Lemma lookup_map {A B} (f : A -> B) (l : list A) (i : nat) :
  map f l !! i = f <$> (l !! i).
Proof. exact (list_lookup_fmap f l i). Qed.

Lemma for_range_S {S : Type} (n : nat) (body : nat -> S -> S) (s : S) :
  for_range (Datatypes.S n) body s = body n (for_range n body s).
Proof.
  unfold for_range. rewrite seq_S, fold_left_app. reflexivity.
Qed.

Lemma for_range_fill (f : nat -> Z) (n : nat) (l : list Z) :
  (n <= length l)%nat ->
  for_range n (fun i l => <[i := f i]> l) l = map f (seq 0 n) ++ drop n l.
Proof.
  induction n as [|n IH]; intros Hn.
  - reflexivity.
  - rewrite for_range_S, IH by lia.
    rewrite seq_S, map_app. simpl.
    destruct (drop n l) as [|x rest] eqn:E.
    + apply (f_equal length) in E. rewrite length_drop in E. simpl in E. lia.
    + assert (drop (Datatypes.S n) l = rest) as ->.
      { replace (Datatypes.S n) with (n + 1)%nat by lia.
        rewrite <- drop_drop, E. reflexivity. }
      rewrite insert_app_r_alt by (rewrite length_map, length_seq; lia).
      rewrite length_map, length_seq, Nat.sub_diag. simpl.
      rewrite <- app_assoc. reflexivity.
Qed.

Lemma for_range_fill_all (f : nat -> Z) (n : nat) :
  for_range (length (replicate n 0%Z)) (fun i l => <[i := f i]> l)
    (replicate n 0%Z) = map f (seq 0 n).
Proof.
  rewrite for_range_fill by reflexivity.
  rewrite length_replicate, drop_ge by (rewrite length_replicate; lia).
  apply app_nil_r.
Qed.

Section CapabilityFacts.
Context {rt : JsRuntime} (genv : Environ).

(** *** The fallback tone *)

Lemma syntheticBeepPcm_samples :
  syntheticBeepPcm =
  map (js_tone_sample 8000 440 48000) (seq 0 (Z.to_nat 24000)).
Proof. unfold syntheticBeepPcm. cbv zeta. apply for_range_fill_all. Qed.

Lemma syntheticBeepPcm_length :
  Z.of_nat (length syntheticBeepPcm) = 24000%Z.
Proof.
  rewrite syntheticBeepPcm_samples, length_map, length_seq.
  apply Z2Nat.id. lia.
Qed.

Lemma syntheticBeepPcm_lookup (i : nat) :
  (Z.of_nat i < 24000)%Z ->
  syntheticBeepPcm !! i = Some (js_tone_sample 8000 440 48000 i).
Proof.
  intros Hi. rewrite syntheticBeepPcm_samples, lookup_map.
  rewrite lookup_seq_lt by lia. reflexivity.
Qed.

Lemma elevenLabsTts_degrades answer ending rawData text voiceId :
  synthesize_degrades genv answer = true ->
  outcome (elevenLabsTts genv answer ending rawData text voiceId)
  = Ok syntheticBeepPcm.
Proof.
  unfold synthesize_degrades, elevenLabsTts. cbv zeta.
  destruct (truthy (ELEVENLABS_KEY genv)); simpl; [|reflexivity].
  destruct answer as [r|e|e]; simpl; [|discriminate|discriminate].
  destruct (resp_ok r); simpl; [discriminate|].
  destruct (resp_text r); simpl; [reflexivity|discriminate|discriminate].
Qed.

(** C6 (amended). When the ElevenLabs key is missing or the request is
    answered with a status that is not OK (and the text of the answer can
    be read), [elevenLabsTts] returns the fallback tone, which is always the
    same: 24000 samples, that is 500 ms at the fixed rate of 48000 Hz,
    sample [i] being the 440 Hz sine of amplitude 8000 at [i / 48000]
    seconds. The configured sample rate plays no part. *)
Theorem fallback_tone_fixed_rate answer ending rawData text voiceId :
  synthesize_degrades genv answer = true ->
  outcome (elevenLabsTts genv answer ending rawData text voiceId)
  = Ok syntheticBeepPcm /\
  Z.of_nat (length syntheticBeepPcm) = (48000 * 500 / 1000)%Z /\
  forall i : nat, (Z.of_nat i < 48000 * 500 / 1000)%Z ->
    syntheticBeepPcm !! i = Some (js_tone_sample 8000 440 48000 i).
Proof.
  intros H. split; [|split].
  - apply elevenLabsTts_degrades, H.
  - apply syntheticBeepPcm_length.
  - apply syntheticBeepPcm_lookup.
Qed.

(** *** Translation *)

Lemma effective_key_nonempty (translateApiKey : option string) :
  nonempty (or_else translateApiKey (LIBRETRANSLATE_API_KEY_ENV genv))
  = truthy translateApiKey || truthy (env_LIBRETRANSLATE_API_KEY genv).
Proof.
  unfold LIBRETRANSLATE_API_KEY_ENV.
  destruct translateApiKey as [[|c s]|];
    destruct (env_LIBRETRANSLATE_API_KEY genv) as [[|c' s']|]; reflexivity.
Qed.

Lemma warn_condition (translateUrl : string) (translateApiKey : option string) :
  negb (includes translateUrl "localhost") &&
  negb (nonempty (or_else translateApiKey (LIBRETRANSLATE_API_KEY_ENV genv)))
  = remote_without_key genv translateUrl translateApiKey.
Proof.
  rewrite effective_key_nonempty, negb_orb, andb_assoc. reflexivity.
Qed.

Lemma libreTranslate_empty answer targetLang translateUrl translateApiKey :
  libreTranslate genv answer "" targetLang translateUrl translateApiKey
  = ([], Ok "").
Proof. reflexivity. Qed.

Lemma libreTranslate_not_ok answer text targetLang translateUrl translateApiKey :
  answered_not_ok answer = true ->
  outcome (libreTranslate genv answer text targetLang translateUrl
             translateApiKey) = Ok text.
Proof.
  intros H. destruct text as [|c text]; [reflexivity|].
  unfold libreTranslate. cbv zeta.
  destruct answer as [r|e|e]; [|discriminate|discriminate]. simpl in H.
  destruct (resp_ok r) eqn:Hok; [discriminate|].
  destruct (resp_text r) as [t|e|e] eqn:Ht; [|discriminate|discriminate].
  simpl.
  destruct (negb (includes translateUrl "localhost") && _);
    simpl; rewrite Hok, Ht; reflexivity.
Qed.

Lemma libreTranslate_rejected e text targetLang translateUrl translateApiKey :
  text <> "" ->
  outcome (libreTranslate genv (Throw e) text targetLang translateUrl
             translateApiKey) = Throw e.
Proof.
  intros H. destruct text as [|c text]; [contradiction|].
  unfold libreTranslate. cbv zeta. simpl.
  destruct (negb (includes translateUrl "localhost") && _); reflexivity.
Qed.

(** C7 (amended). On empty input [libreTranslate] returns the empty string
    and performs nothing, so no request is sent, whatever the network would
    have answered; when the request is answered with a status that is not OK
    (and the text of the answer can be read) it returns the original text
    unchanged, after at most one request. *)
Theorem translate_empty_or_not_ok (unused answer : Result Response)
    (text targetLang translateUrl : string)
    (translateApiKey : option string) :
  answered_not_ok answer = true ->
  libreTranslate genv unused "" targetLang translateUrl translateApiKey
  = ([], Ok "") /\
  fetch_count
    (libreTranslate genv unused "" targetLang translateUrl translateApiKey)
  = 0%nat /\
  outcome (libreTranslate genv answer text targetLang translateUrl
             translateApiKey) = Ok text /\
  (fetch_count (libreTranslate genv answer text targetLang translateUrl
                  translateApiKey) <= 1)%nat.
Proof.
  intros H. split; [reflexivity|]. split; [reflexivity|].
  split; [apply libreTranslate_not_ok, H|].
  destruct text as [|c text]; [unfold fetch_count; simpl; lia|].
  unfold libreTranslate, fetch_count. cbv zeta.
  destruct answer as [r|e|e]; [|discriminate|discriminate]. simpl in H.
  destruct (resp_ok r) eqn:Hok; [discriminate|].
  destruct (resp_text r) as [t|e|e] eqn:Ht; [|discriminate|discriminate].
  simpl.
  destruct (negb (includes translateUrl "localhost") && _);
    simpl; rewrite Hok, Ht; simpl; lia.
Qed.

(** C9 (amended). In a call of [libreTranslate] on a text that is not
    empty, a warning is logged exactly when the URL does not contain
    "localhost" and no API key is configured, neither in the plugin
    configuration nor in the environment; warned or not, and whatever the
    network then answers, exactly one request is sent, to the configured
    URL. *)
Theorem translate_warns_iff_remote_without_key (answer : Result Response)
    (text targetLang translateUrl : string)
    (translateApiKey : option string) :
  text <> "" ->
  let call :=
    libreTranslate genv answer text targetLang translateUrl translateApiKey in
  existsb is_warning (effects call)
  = remote_without_key genv translateUrl translateApiKey /\
  fetch_count call = 1%nat /\
  exists req, In (Fetch translateUrl req) (effects call).
Proof.
  intros H. destruct text as [|c text]; [contradiction|].
  cbv zeta. rewrite <- warn_condition.
  unfold libreTranslate, fetch_count. cbv zeta. simpl.
  destruct (negb (includes translateUrl "localhost") && _);
    destruct answer as [r|e|e]; simpl;
    try destruct (resp_ok r); simpl;
    try destruct (resp_text r); simpl;
    try destruct (resp_json r); simpl;
    (split; [reflexivity|split; [reflexivity|eexists; eauto]]).
Qed.
End CapabilityFacts.

(** ** One pipeline run *)

Section PipelineFacts.
Context {rt : JsRuntime} (genv : Environ).

Lemma openAiStt_degrades (w : PipelineEnv) wavPath language :
  recognize_degrades genv w = true ->
  outcome (openAiStt genv (wavFile w) (sttAnswer w) wavPath language) = Ok "".
Proof.
  unfold recognize_degrades, openAiStt. cbv zeta.
  destruct (truthy (OPENAI_KEY genv)); simpl; [|reflexivity].
  destruct (wavFile w) as [buf|e|e]; simpl; [|discriminate|discriminate].
  destruct (sttAnswer w) as [r|e|e]; simpl; [|discriminate|discriminate].
  destruct (resp_ok r); simpl; [discriminate|].
  destruct (resp_text r); simpl; [reflexivity|discriminate|discriminate].
Qed.

Lemma openAiStt_returns (w : PipelineEnv) wavPath language :
  recognize_returns genv w = true ->
  outcome (openAiStt genv (wavFile w) (sttAnswer w) wavPath language)
  = Ok (recognized genv w).
Proof.
  unfold recognize_returns, handled, recognized, openAiStt. cbv zeta.
  destruct (truthy (OPENAI_KEY genv)); simpl; [|reflexivity].
  destruct (wavFile w) as [buf|e|e]; simpl; [|discriminate|discriminate].
  destruct (sttAnswer w) as [r|e|e]; simpl; [|discriminate|discriminate].
  destruct (resp_ok r); simpl.
  - destruct (resp_json r); simpl; [reflexivity|discriminate|discriminate].
  - rewrite orb_false_r.
    destruct (resp_text r); simpl; [reflexivity|discriminate|discriminate].
Qed.

Lemma libreTranslate_returns (w : PipelineEnv) targetLang translateUrl
    translateApiKey :
  translate_returns genv w = true ->
  outcome (libreTranslate genv (translateAnswer w) (recognized genv w)
             targetLang translateUrl translateApiKey)
  = Ok (translated genv w).
Proof.
  unfold translate_returns, translated, handled.
  destruct (recognized genv w) as [|c text]; [reflexivity|].
  intros H. unfold libreTranslate. cbv zeta.
  destruct (translateAnswer w) as [r|e|e]; [|discriminate|discriminate].
  simpl in H. simpl nonempty. cbv iota.
  destruct (resp_ok r) eqn:Hok.
  - destruct (resp_json r) as [s|e|e] eqn:Hj; [|discriminate|discriminate].
    simpl.
    destruct (negb (includes translateUrl "localhost") && _);
      simpl; rewrite Hok, Hj; reflexivity.
  - destruct (resp_text r) as [s|e|e] eqn:Ht; [|discriminate|discriminate].
    simpl.
    destruct (negb (includes translateUrl "localhost") && _);
      simpl; rewrite Hok, Ht; reflexivity.
Qed.

Lemma convertMp3ToPcm_decodes rawData mp3Buffer outRate outChannels :
  outcome (convertMp3ToPcm (Closed (Some 0%Z)) rawData mp3Buffer outRate
             outChannels)
  = Ok (map (fun i => readInt16LE rawData (i * 2))
          (seq 0 (length rawData / 2))).
Proof.
  unfold convertMp3ToPcm. cbv zeta. simpl.
  rewrite for_range_fill_all. reflexivity.
Qed.

Lemma elevenLabsTts_returns (w : PipelineEnv) text voiceId :
  synthesize_returns genv w = true ->
  outcome (elevenLabsTts genv (ttsAnswer w) (mp3Ending w) (mp3RawData w)
             text voiceId)
  = Ok (synthesized genv w).
Proof.
  unfold synthesize_returns, synthesized.
  destruct (synthesize_degrades genv (ttsAnswer w)) eqn:Hd.
  - intros _. apply elevenLabsTts_degrades, Hd.
  - simpl. intros H. apply andb_prop in H as [Ha He].
    unfold synthesize_degrades in Hd. apply orb_false_elim in Hd as [Hk Hd].
    apply negb_false_iff in Hk.
    unfold elevenLabsTts. cbv zeta. rewrite Hk.
    destruct (ttsAnswer w) as [r|e|e]; [|discriminate|discriminate].
    simpl in Ha.
    destruct (resp_ok r) eqn:Hok; [|discriminate].
    destruct (resp_arrayBuffer r) as [b|e|e] eqn:Hb;
      [|discriminate|discriminate].
    destruct (mp3Ending w) as [[[|c|c]|]|e|e]; try discriminate.
    simpl. rewrite Hok, Hb. simpl.
    rewrite for_range_fill_all. reflexivity.
Qed.

Lemma convertPcmToWav_ok clock p chunkBuf :
  outcome (convertPcmToWav clock (Closed (Some 0%Z)) p chunkBuf)
  = Ok ("/tmp/" +:+ "hls_chunk_" +:+ pretty clock +:+ ".wav").
Proof. reflexivity. Qed.

Lemma convertPcmToWav_exit_code clock code p chunkBuf :
  code <> Some 0%Z ->
  outcome (convertPcmToWav clock (Closed code) p chunkBuf)
  = Throw ("ffmpeg pcm->wav code=" +:+ show_code code).
Proof.
  intros H. unfold convertPcmToWav. cbv zeta.
  destruct code as [[|c|c]|]; simpl; try reflexivity. contradiction.
Qed.

Lemma convertPcmToWav_process_error clock err p chunkBuf :
  outcome (convertPcmToWav clock (ProcError err) p chunkBuf) = Throw err.
Proof. reflexivity. Qed.

Lemma convertPcmToWav_stdin_error clock err p chunkBuf :
  convertPcmToWav clock (StdinError err) p chunkBuf
  = ([Spawn "ffmpeg"
        ["-f"; "s16le"; "-ar"; pretty (sampleRate p); "-ac";
         pretty (channels p); "-i"; "pipe:0"; "-y";
         "/tmp/" +:+ "hls_chunk_" +:+ pretty clock +:+ ".wav"] chunkBuf],
     Uncaught err).
Proof. reflexivity. Qed.

Lemma pipeline_degrades (w : PipelineEnv) (p : Plugin) (chunkBuf : Buffer) :
  wavEnding w = Closed (Some 0%Z) ->
  unlinkResult w = Ok tt ->
  recognize_degrades genv w = true ->
  synthesize_degrades genv (ttsAnswer w) = true ->
  outcome (pipeline genv w p chunkBuf) = Ok syntheticBeepPcm.
Proof.
  intros Hwav Hunlink Hstt Htts. unfold pipeline. rewrite Hwav.
  rewrite (outcome_bind_ok _ _ _ (convertPcmToWav_ok _ _ _)).
  rewrite (outcome_bind_ok _ _ tt) by reflexivity.
  rewrite (outcome_bind_ok _ _ _ (openAiStt_degrades w _ _ Hstt)).
  rewrite (outcome_bind_ok _ _ _
             (f_equal outcome (libreTranslate_empty genv _ _ _ _))).
  rewrite (outcome_bind_ok _ _ _ (elevenLabsTts_degrades genv _ _ _ _ _ Htts)).
  rewrite Hunlink. reflexivity.
Qed.

Lemma pipeline_returns (w : PipelineEnv) (p : Plugin) (chunkBuf : Buffer) :
  wavEnding w = Closed (Some 0%Z) ->
  unlinkResult w = Ok tt ->
  recognize_returns genv w = true ->
  translate_returns genv w = true ->
  synthesize_returns genv w = true ->
  outcome (pipeline genv w p chunkBuf) = Ok (synthesized genv w).
Proof.
  intros Hwav Hunlink Hstt Htr Htts. unfold pipeline. rewrite Hwav.
  rewrite (outcome_bind_ok _ _ _ (convertPcmToWav_ok _ _ _)).
  rewrite (outcome_bind_ok _ _ tt) by reflexivity.
  rewrite (outcome_bind_ok _ _ _ (openAiStt_returns w _ _ Hstt)).
  rewrite (outcome_bind_ok _ _ _ (libreTranslate_returns w _ _ _ Htr)).
  rewrite (outcome_bind_ok _ _ _ (elevenLabsTts_returns w _ _ Htts)).
  rewrite Hunlink. reflexivity.
Qed.

(** The two ways WAV conversion rejects its promise: ffmpeg closes with an
    exit code other than 0 (or is killed), or the process emits "error". *)
Lemma pipeline_wav_failure (w : PipelineEnv) (p : Plugin) (chunkBuf : Buffer)
    (code : option Z) :
  wavEnding w = Closed code -> code <> Some 0%Z ->
  outcome (pipeline genv w p chunkBuf)
  = Throw ("ffmpeg pcm->wav code=" +:+ show_code code).
Proof.
  intros Hw H. unfold pipeline. rewrite Hw.
  apply outcome_bind_throw, convertPcmToWav_exit_code, H.
Qed.

Lemma pipeline_wav_process_error (w : PipelineEnv) (p : Plugin)
    (chunkBuf : Buffer) (err : string) :
  wavEnding w = ProcError err ->
  outcome (pipeline genv w p chunkBuf) = Throw err.
Proof.
  intros Hw. unfold pipeline. rewrite Hw.
  apply outcome_bind_throw. reflexivity.
Qed.

(** A failed write of the chunk to ffmpeg's standard input is no rejection
    of the promise: after the spawn the run performs nothing more and ends
    as an exception that nobody catches. *)
Lemma pipeline_wav_stdin_error (w : PipelineEnv) (p : Plugin)
    (chunkBuf : Buffer) (err : string) :
  wavEnding w = StdinError err ->
  pipeline genv w p chunkBuf
  = ([Spawn "ffmpeg"
        ["-f"; "s16le"; "-ar"; pretty (sampleRate p); "-ac";
         pretty (channels p); "-i"; "pipe:0"; "-y";
         "/tmp/" +:+ "hls_chunk_" +:+ pretty (now w) +:+ ".wav"] chunkBuf],
     Uncaught err).
Proof.
  intros Hw. unfold pipeline. rewrite Hw, convertPcmToWav_stdin_error.
  reflexivity.
Qed.

Lemma pipeline_stt_rejected (w : PipelineEnv) (p : Plugin) (chunkBuf : Buffer)
    (err : string) :
  wavEnding w = Closed (Some 0%Z) ->
  truthy (OPENAI_KEY genv) = true ->
  is_ok (wavFile w) = true ->
  sttAnswer w = Throw err ->
  outcome (pipeline genv w p chunkBuf) = Throw err.
Proof.
  intros Hwav Hkey Hfile Hstt. unfold pipeline. rewrite Hwav.
  rewrite (outcome_bind_ok _ _ _ (convertPcmToWav_ok _ _ _)).
  rewrite (outcome_bind_ok _ _ tt) by reflexivity.
  apply outcome_bind_throw.
  unfold openAiStt. cbv zeta. rewrite Hkey, Hstt.
  destruct (wavFile w); [reflexivity|discriminate|discriminate].
Qed.

Lemma pipeline_same_settings (w : PipelineEnv) (p q : Plugin)
    (chunkBuf : Buffer) :
  same_settings p q -> pipeline genv w p chunkBuf = pipeline genv w q chunkBuf.
Proof.
  intros (Hsr & Hch & Hstt & Htl & Hv & Hu & Hk).
  unfold pipeline, convertPcmToWav.
  rewrite Hsr, Hch, Hstt, Htl, Hv, Hu, Hk. reflexivity.
Qed.


(** *** The end of a run *)

Lemma processTtsQueue_push_backlog (p : Plugin) (pcm : Int16Array)
    (waiting : list Int16Array) :
  let '(p', started) := processTtsQueue (ttsQueue_push pcm p) in
  waiting ++ option_list started ++ ttsQueue p'
  = waiting ++ ttsQueue p ++ [pcm].
Proof.
  unfold processTtsQueue, ttsQueue_push, consumer_loop.
  destruct (ttsProcessing p) eqn:E; simpl; rewrite ?E; simpl.
  - reflexivity.
  - destruct (ttsQueue p) as [|x rest]; reflexivity.
Qed.

Lemma settle_ok (s : Sys) (i : nat) (w : PipelineEnv) (chunkBuf : Buffer)
    (pcm : Int16Array) :
  inflight s !! i = Some chunkBuf ->
  outcome (pipeline genv w (plugin s) chunkBuf) = Ok pcm ->
  let s' := step genv (PipelineSettles i w) s in
  backlog s' = backlog s ++ [pcm] /\
  inflight s' = delete i (inflight s) /\
  pcmBuffer (plugin s') = pcmBuffer (plugin s) /\
  flushTimer (plugin s') = flushTimer (plugin s).
Proof.
  intros Hi Hr. cbv zeta. unfold step, backlog. rewrite Hi.
  rewrite (js_eta (pipeline genv w (plugin s) chunkBuf)), Hr.
  unfold flush_settle, processTtsQueue, ttsQueue_push, consumer_loop.
  destruct (ttsProcessing (plugin s)) eqn:E; simpl; rewrite ?E; simpl.
  - rewrite app_nil_r, app_assoc. auto.
  - destruct (ttsQueue (plugin s)) as [|x rest]; simpl;
      rewrite ?app_nil_r, <- ?app_assoc; auto.
Qed.

Lemma settle_throw (s : Sys) (i : nat) (w : PipelineEnv) (chunkBuf : Buffer)
    (err : string) :
  inflight s !! i = Some chunkBuf ->
  outcome (pipeline genv w (plugin s) chunkBuf) = Throw err ->
  step genv (PipelineSettles i w) s =
  {| plugin := plugin s;
     inflight := delete i (inflight s);
     sending := sending s;
     trace := trace s ++ effects (pipeline genv w (plugin s) chunkBuf) ++
       [Logger Error
          ("[HlsTranslationPlugin] flushChunkForTranslation => " +:+ err)] |}.
Proof.
  intros Hi Hr. unfold step. rewrite Hi.
  rewrite (js_eta (pipeline genv w (plugin s) chunkBuf)), Hr.
  simpl. rewrite app_nil_r. reflexivity.
Qed.
End PipelineFacts.

Section ProcessExit.
Context {rt : JsRuntime} (genv : Environ).

(** When the write of the chunk to ffmpeg's standard input fails, the
    [catch] of [flushChunkForTranslation] is never reached: nothing is
    logged, nothing is enqueued, and the process exits. *)
Lemma settle_uncaught (s : Sys) (i : nat) (w : PipelineEnv) (chunkBuf : Buffer)
    (err : string) :
  inflight s !! i = Some chunkBuf ->
  outcome (pipeline genv w (plugin s) chunkBuf) = Uncaught err ->
  step genv (PipelineSettles i w) s =
  {| plugin := plugin s;
     inflight := delete i (inflight s);
     sending := sending s;
     trace := trace s ++ effects (pipeline genv w (plugin s) chunkBuf) ++
       [Exit err] |}.
Proof.
  intros Hi Hr. unfold step. rewrite Hi.
  rewrite (js_eta (pipeline genv w (plugin s) chunkBuf)), Hr.
  simpl. rewrite app_nil_r. reflexivity.
Qed.

Lemma stdin_error_ends_the_process (s : Sys) (i : nat) (w : PipelineEnv)
    (chunkBuf : Buffer) (err : string) :
  inflight s !! i = Some chunkBuf ->
  wavEnding w = StdinError err ->
  let s' := step genv (PipelineSettles i w) s in
  running s' = false /\
  last (trace s') = Some (Exit err) /\
  backlog s' = backlog s /\
  forall msg, In (Logger Error msg) (trace s') -> In (Logger Error msg) (trace s).
Proof.
  intros Hi Hw. cbv zeta.
  rewrite (settle_uncaught s i w chunkBuf err Hi)
    by (rewrite (pipeline_wav_stdin_error genv w _ _ err Hw); reflexivity).
  rewrite (pipeline_wav_stdin_error genv w _ _ err Hw).
  cbn [effects fst trace plugin sending]. unfold running, backlog.
  cbn [trace plugin sending].
  split; [|split; [|split]].
  - rewrite !existsb_app. simpl. rewrite !orb_true_r. reflexivity.
  - rewrite app_assoc. apply last_snoc.
  - reflexivity.
  - intros msg Hin. apply in_app_or in Hin as [Hin|Hin]; [exact Hin|].
    simpl in Hin. destruct Hin as [Hin|[Hin|[]]]; discriminate.
Qed.
End ProcessExit.

(** ** The relay *)

Section RelayFacts.
Context {rt : JsRuntime} (genv : Environ).



Lemma tick_drains (s : Sys) :
  flushTimer (plugin s) = true ->
  pcmBuffer (plugin s) <> [] ->
  step genv Tick s =
  {| plugin := set_pcmBuffer [] (plugin s);
     inflight := inflight s ++ [pcmBuffer (plugin s)];
     sending := sending s; trace := trace s |}.
Proof.
  intros T B. unfold step, drain. rewrite T.
  destruct (pcmBuffer (plugin s)) as [|b bs]; [contradiction|reflexivity].
Qed.

Lemma recognized_degrades (w : PipelineEnv) :
  recognize_degrades genv w = true -> recognized genv w = "".
Proof.
  unfold recognize_degrades, recognized.
  destruct (truthy (OPENAI_KEY genv)); simpl; [|reflexivity].
  destruct (wavFile w) as [buf|e|e]; simpl; [|discriminate|discriminate].
  destruct (sttAnswer w) as [r|e|e]; simpl; [|discriminate|discriminate].
  destruct (resp_ok r); simpl; [discriminate|reflexivity].
Qed.

Lemma translated_not_ok (w : PipelineEnv) :
  answered_not_ok (translateAnswer w) = true ->
  translated genv w = recognized genv w.
Proof.
  unfold translated. intros H.
  destruct (recognized genv w) as [|c text]; [reflexivity|].
  destruct (translateAnswer w) as [r|e|e]; [|discriminate|discriminate].
  simpl in *. destruct (resp_ok r); [discriminate|reflexivity].
Qed.

(** C1 (amended). Take any chunk a flush has drained and whose pipeline run
    is in flight. If ffmpeg writes the WAV file and the file can be removed
    at the end, and if each of the three stages returns, be it with the
    answer of its service or after a failure it handles itself (the key is
    missing, or the service answers with a status that is not OK and a text
    that can be read), then the run produces audio and appends it to the
    audio waiting to be played; the run leaves the accumulation buffer and
    the flush timer as they are. The audio is the fallback tone whenever
    synthesis fails so, whatever recognition and translation did: when
    recognition fails so it gives the empty text, on which translation
    sends no request, and when translation fails so it hands the
    recognized text on. *)
Theorem handled_failures_enqueue_audio (s : Sys) (i : nat) (w : PipelineEnv)
    (chunkBuf : Buffer) :
  inflight s !! i = Some chunkBuf ->
  wavEnding w = Closed (Some 0%Z) ->
  unlinkResult w = Ok tt ->
  recognize_returns genv w = true ->
  translate_returns genv w = true ->
  synthesize_returns genv w = true ->
  let s' := step genv (PipelineSettles i w) s in
  outcome (pipeline genv w (plugin s) chunkBuf) = Ok (synthesized genv w) /\
  backlog s' = backlog s ++ [synthesized genv w] /\
  inflight s' = delete i (inflight s) /\
  pcmBuffer (plugin s') = pcmBuffer (plugin s) /\
  flushTimer (plugin s') = flushTimer (plugin s) /\
  (synthesize_degrades genv (ttsAnswer w) = true ->
   synthesized genv w = syntheticBeepPcm) /\
  (recognize_degrades genv w = true ->
   recognized genv w = "" /\
   fetch_count
     (libreTranslate genv (translateAnswer w) (recognized genv w)
        (targetLanguage (plugin s)) (translateUrl (plugin s))
        (translateApiKey (plugin s))) = 0%nat) /\
  (answered_not_ok (translateAnswer w) = true ->
   translated genv w = recognized genv w).
Proof.
  intros Hi Hwav Hunlink Hstt Htr Htts.
  pose proof (pipeline_returns genv w (plugin s) chunkBuf
                Hwav Hunlink Hstt Htr Htts) as Hr.
  split; [exact Hr|].
  destruct (settle_ok genv s i w chunkBuf _ Hi Hr) as (H1 & H2 & H3 & H4).
  split; [exact H1|]. split; [exact H2|]. split; [exact H3|].
  split; [exact H4|].
  split; [|split].
  - intros Hd. unfold synthesized. rewrite Hd. reflexivity.
  - intros Hd. rewrite (recognized_degrades w Hd).
    split; reflexivity.
  - apply translated_not_ok.
Qed.

(** C5 (amended). A tick that finds the buffer not empty hands exactly the
    buffered bytes to a new pipeline run and empties the buffer; nothing
    else in the state changes and no number is attached to the chunk. When
    the run of any chunk in flight ends with audio, that audio, a bare
    array of samples, is appended to the audio waiting to be played: the
    order of play is the order in which the runs end. *)
Theorem tick_and_settle_without_sequence_number (s : Sys) :
  flushTimer (plugin s) = true ->
  pcmBuffer (plugin s) <> [] ->
  step genv Tick s =
  {| plugin := set_pcmBuffer [] (plugin s);
     inflight := inflight s ++ [pcmBuffer (plugin s)];
     sending := sending s; trace := trace s |} /\
  forall (t : Sys) (i : nat) (w : PipelineEnv) (chunkBuf : Buffer)
         (pcm : Int16Array),
    inflight t !! i = Some chunkBuf ->
    outcome (pipeline genv w (plugin t) chunkBuf) = Ok pcm ->
    backlog (step genv (PipelineSettles i w) t) = backlog t ++ [pcm] /\
    inflight (step genv (PipelineSettles i w) t) = delete i (inflight t).
Proof.
  intros T B. split; [apply tick_drains; assumption|].
  intros t i w chunkBuf pcm Hi Hr.
  destruct (settle_ok genv t i w chunkBuf pcm Hi Hr) as (H1 & H2 & _).
  split; assumption.
Qed.


(** *** The consumer *)

Lemma step_preserves_one_consumer (e : Event) (s : Sys) :
  is_cleanup e = false -> one_consumer s -> one_consumer (step genv e s).
Proof.
  intros He H. unfold one_consumer in *.
  destruct e; try discriminate; unfold step.
  - unfold onJanusReady, startHlsReading. simpl.
    destruct (isStreaming (plugin s)); simpl; exact H.
  - destruct (ffmpegProcess (plugin s)); simpl; exact H.
  - unfold drain. destruct (flushTimer (plugin s)); [|exact H].
    destruct (pcmBuffer (plugin s)); simpl; exact H.
  - destruct (inflight s !! i); [|exact H].
    destruct (pipeline genv w (plugin s) l) as [t [pcm|err|err]];
      unfold flush_settle;
      [|simpl; rewrite app_nil_r; exact H|simpl; rewrite app_nil_r; exact H].
    unfold processTtsQueue, ttsQueue_push, consumer_loop.
    destruct (ttsProcessing (plugin s)) eqn:E; simpl; rewrite ?E; simpl;
      rewrite ?E.
    + rewrite app_nil_r. exact H.
    + destruct (sending s); [|simpl in H; lia].
      destruct (ttsQueue (plugin s)); simpl; lia.
  - destruct (sending s !! k) eqn:Hk; [|exact H].
    apply lookup_lt_Some in Hk.
    destruct (ttsProcessing (plugin s)) eqn:E; [|lia].
    unfold consumer_loop.
    destruct (ttsQueue (plugin s)); simpl; rewrite ?E;
      rewrite length_app, length_delete by (apply lookup_lt_is_Some; lia);
      simpl; lia.
  - destruct (sending s !! k) eqn:Hk; [|exact H].
    apply lookup_lt_Some in Hk. simpl.
    rewrite length_delete by (apply lookup_lt_is_Some; lia).
    destruct (ttsProcessing (plugin s)); lia.
  - destruct (ffmpegProcess (plugin s)); simpl; exact H.
  - destruct (ffmpegProcess (plugin s)); simpl; exact H.
Qed.

Lemma run_preserves_one_consumer (evs : list Event) (s : Sys) :
  no_cleanup evs = true -> one_consumer s -> one_consumer (run genv evs s).
Proof.
  revert s. induction evs as [|e evs IH]; intros s Hc H; [exact H|].
  simpl in Hc. apply andb_prop in Hc as [He Hc].
  change (run genv (e :: evs) s) with (run genv evs (step genv e s)).
  apply IH; [exact Hc|].
  apply step_preserves_one_consumer; [|exact H].
  destruct (is_cleanup e); [discriminate|reflexivity].
Qed.

Lemma cleanup_when_idle_one_consumer (s : Sys) :
  length (sending s) = 0%nat -> one_consumer (step genv Cleanup s).
Proof.
  intros H. unfold one_consumer, step, cleanup. simpl. rewrite H. lia.
Qed.

Lemma run_preserves_one_consumer_when_idle (evs : list Event) (s : Sys) :
  cleanup_only_when_idle genv evs s = true ->
  one_consumer s -> one_consumer (run genv evs s).
Proof.
  revert s. induction evs as [|e evs IH]; intros s Hc H; [exact H|].
  cbn [cleanup_only_when_idle] in Hc. apply andb_prop in Hc as [He Hc].
  change (run genv (e :: evs) s) with (run genv evs (step genv e s)).
  apply IH; [exact Hc|].
  destruct (is_cleanup e) eqn:Ee.
  - destruct e; try discriminate.
    apply cleanup_when_idle_one_consumer. apply Nat.eqb_eq. exact He.
  - apply step_preserves_one_consumer; assumption.
Qed.

(** What the in-progress flag does guarantee. In every state the relay
    reaches from a new plugin, as long as no call of [cleanup] falls while a
    consumer loop is suspended in a send, at most one consumer loop is
    alive, and only while the flag is set: at most one queue entry is being
    sent to Janus. *)
Theorem single_consumer_unless_cleanup_during_send
    (config : SpaceTranslatorRelayConfig) (evs : list Event) :
  cleanup_only_when_idle genv evs (init genv config) = true ->
  let s := run genv evs (init genv config) in
  one_consumer s /\ (length (sending s) <= 1)%nat.
Proof.
  intros Hc. cbv zeta.
  assert (H : one_consumer (run genv evs (init genv config))).
  { apply run_preserves_one_consumer_when_idle; [exact Hc|].
    unfold one_consumer. simpl. lia. }
  split; [exact H|]. unfold one_consumer in H.
  destruct (ttsProcessing _); lia.
Qed.
End RelayFacts.

(** ** The frame pacer *)

Lemma copy_samples_fill (h0 : Heap) (pcm fr : Int16Array) (rawPcm : loc)
    (offset n : nat) :
  h0 !! rawPcm = Some pcm ->
  copy_samples n (length h0) rawPcm offset (h0 ++ [fr])
  = h0 ++ [for_range n
             (fun i l => <[i := default 0%Z (pcm !! (offset + i)%nat)]> l) fr].
Proof.
  intros Hsrc. unfold copy_samples. induction n as [|n IH]; [reflexivity|].
  rewrite for_range_S, IH, for_range_S.
  unfold array_get, array_set.
  rewrite lookup_app_l by (eapply lookup_lt_Some, Hsrc).
  rewrite Hsrc. simpl.
  rewrite alter_app_r_alt by lia.
  rewrite Nat.sub_diag. reflexivity.
Qed.

Lemma map_zeros_beyond (g : nat -> Z) (lo d : nat) :
  (forall i, (lo <= i)%nat -> g i = 0%Z) ->
  map g (seq lo d) = replicate d 0%Z.
Proof.
  revert lo. induction d as [|d IH]; intros lo H; [reflexivity|].
  simpl. rewrite H by lia. f_equal. apply IH. intros i Hi. apply H. lia.
Qed.

Lemma frame_of_length (frameSize : nat) (pcm : Int16Array) (k : nat) :
  length (frame_of frameSize pcm k) = frameSize.
Proof. unfold frame_of. rewrite length_map, length_seq. reflexivity. Qed.

Lemma frame_of_lookup (frameSize : nat) (pcm : Int16Array) (k i : nat) :
  (i < frameSize)%nat ->
  frame_of frameSize pcm k !! i
  = Some (default 0%Z (pcm !! (k * frameSize + i)%nat)).
Proof.
  intros Hi. unfold frame_of. rewrite lookup_map, lookup_seq_lt by exact Hi.
  reflexivity.
Qed.

Lemma copy_full_frame (h0 : Heap) (pcm : Int16Array) (rawPcm : loc)
    (frameSize k : nat) :
  h0 !! rawPcm = Some pcm ->
  copy_samples frameSize (length h0) rawPcm (k * frameSize)
    (h0 ++ [replicate frameSize 0%Z])
  = h0 ++ [frame_of frameSize pcm k].
Proof.
  intros Hsrc. rewrite (copy_samples_fill _ pcm) by exact Hsrc.
  rewrite for_range_fill by (rewrite length_replicate; lia).
  rewrite drop_ge by (rewrite length_replicate; lia).
  rewrite app_nil_r. reflexivity.
Qed.

Lemma copy_pad_frame (h0 : Heap) (pcm : Int16Array) (rawPcm : loc)
    (frameSize k leftover : nat) :
  h0 !! rawPcm = Some pcm ->
  (leftover <= frameSize)%nat ->
  length pcm = (k * frameSize + leftover)%nat ->
  copy_samples leftover (length h0) rawPcm (k * frameSize)
    (h0 ++ [replicate frameSize 0%Z])
  = h0 ++ [frame_of frameSize pcm k].
Proof.
  intros Hsrc Hle Hlen. rewrite (copy_samples_fill _ pcm) by exact Hsrc.
  rewrite for_range_fill by (rewrite length_replicate; lia).
  rewrite drop_replicate. unfold frame_of.
  assert (E : seq 0 frameSize
              = seq 0 leftover ++ seq leftover (frameSize - leftover)).
  { rewrite <- seq_app. f_equal. lia. }
  rewrite E, map_app. do 3 f_equal.
  symmetry. apply map_zeros_beyond.
  intros i Hi. rewrite lookup_ge_None_2 by lia. reflexivity.
Qed.

Lemma paced_S (p : Plugin) (base first n : nat) :
  paced p base first (S n)
  = [PushLocalAudio (base + first)%nat (sampleRate p) (channels p);
     SetTimeout 10] ++ paced p base (S first) n.
Proof. reflexivity. Qed.

Lemma paced_snoc (p : Plugin) (base n : nat) :
  paced p base 0 (S n)
  = paced p base 0 n ++
    [PushLocalAudio (base + n)%nat (sampleRate p) (channels p); SetTimeout 10].
Proof.
  unfold paced. rewrite seq_S, flat_map_app. simpl. reflexivity.
Qed.

Lemma paced_pushes (p : Plugin) (base first n : nat) :
  List.filter is_push (paced p base first n)
  = map (fun i => PushLocalAudio (base + i)%nat (sampleRate p) (channels p))
      (seq first n).
Proof.
  revert first. induction n as [|n IH]; intros first; [reflexivity|].
  rewrite paced_S. simpl. f_equal. apply IH.
Qed.

Lemma paced_delays (p : Plugin) (base first n : nat) :
  length (List.filter is_delay (paced p base first n)) = n.
Proof.
  revert first. induction n as [|n IH]; intros first; [reflexivity|].
  rewrite paced_S. simpl. f_equal. apply IH.
Qed.

Lemma frame_count_nat (len frameSize : nat) :
  (0 < frameSize)%nat ->
  frame_count (Z.of_nat len) (Z.of_nat frameSize)
  = Z.of_nat (len / frameSize +
              (if (len mod frameSize =? 0)%nat then 0 else 1))%nat.
Proof.
  intros HF. unfold frame_count.
  pose proof (Nat.div_mod_eq len frameSize) as Hdm.
  pose proof (Nat.mod_upper_bound len frameSize ltac:(lia)) as Hr.
  set (q := (len / frameSize)%nat) in *.
  set (r := (len mod frameSize)%nat) in *.
  destruct (r =? 0)%nat eqn:E.
  - apply Nat.eqb_eq in E. symmetry.
    apply (Z.div_unique _ _ _ (Z.of_nat frameSize - 1)); lia.
  - apply Nat.eqb_neq in E. symmetry.
    apply (Z.div_unique _ _ _ (Z.of_nat r - 1)); lia.
Qed.

Section PacerFacts.
Context (p : Plugin) (h : Heap) (rawPcm : loc) (pcm : Int16Array).
Context (frameSize : nat).
Hypothesis frame_size : frameSizeSamples p = Z.of_nat frameSize.
Hypothesis frame_positive : (0 < frameSize)%nat.
Hypothesis source : h !! rawPcm = Some pcm.

Let full : nat := (length pcm / frameSize)%nat.

Lemma source_kept (frames : list Int16Array) :
  array_length (h ++ frames) rawPcm = Z.of_nat (length pcm).
Proof.
  unfold array_length.
  rewrite lookup_app_l by (eapply lookup_lt_Some, source).
  rewrite source. reflexivity.
Qed.

Lemma send_full_frames_runs (fuel k : nat) (st : PacerState) :
  heap st = h ++ map (frame_of frameSize pcm) (seq 0 k) ->
  (k * frameSize <= length pcm)%nat ->
  (full - k < fuel)%nat ->
  send_full_frames fuel p rawPcm (Z.of_nat frameSize)
    (Z.of_nat (k * frameSize)) st
  = Returned
      (Z.of_nat (full * frameSize),
       {| heap := h ++ map (frame_of frameSize pcm) (seq 0 full);
          out := out st ++ paced p (length h) k (full - k) |}).
Proof.
  revert k st. induction fuel as [|fuel IH]; intros k st Hheap Hk Hfuel;
    [lia|].
  assert (Hfull : (full * frameSize <= length pcm)%nat).
  { unfold full. rewrite Nat.mul_comm. apply Nat.Div0.mul_div_le. }
  assert (Hnext : (length pcm < (full + 1) * frameSize)%nat).
  { unfold full.
    pose proof (Nat.div_mod_eq (length pcm) frameSize).
    pose proof (Nat.mod_upper_bound (length pcm) frameSize ltac:(lia)).
    nia. }
  simpl. rewrite Hheap, source_kept.
  destruct (Z.of_nat (k * frameSize) + Z.of_nat frameSize
            <=? Z.of_nat (length pcm))%Z eqn:Hcmp.
  - apply Z.leb_le in Hcmp.
    assert (Hlt : (k < full)%nat) by nia.
    unfold new_Int16Array.
    destruct (Z.of_nat frameSize <? 0)%Z eqn:Hneg;
      [apply Z.ltb_lt in Hneg; lia|].
    rewrite !Nat2Z.id.
    rewrite (copy_full_frame _ pcm)
      by (rewrite lookup_app_l by (eapply lookup_lt_Some, source);
          exact source).
    replace (Z.of_nat (k * frameSize) + Z.of_nat frameSize)%Z
      with (Z.of_nat (S k * frameSize)) by lia.
    rewrite IH; cbn [heap out].
    + rewrite length_app, length_map, length_seq, <- app_assoc.
      replace (full - k)%nat with (S (full - S k)) by lia.
      rewrite paced_S. reflexivity.
    + rewrite seq_S, map_app, app_assoc. reflexivity.
    + lia.
    + lia.
  - apply Z.leb_gt in Hcmp.
    assert (Hkf : k = full) by nia.
    subst k. rewrite Nat.sub_diag. unfold paced. simpl.
    rewrite app_nil_r, <- Hheap. destruct st. reflexivity.
Qed.

Lemma sendTtsPcmToJanus_runs (fuel : nat) (j : JanusClient) :
  janus p = Some j ->
  (full < fuel)%nat ->
  let n := (full + if (length pcm mod frameSize =? 0)%nat then 0 else 1)%nat in
  sendTtsPcmToJanus fuel p h rawPcm
  = Returned
      {| heap := h ++ map (frame_of frameSize pcm) (seq 0 n);
         out := paced p (length h) 0 n |}.
Proof.
  intros Hj Hfuel. cbv zeta. unfold sendTtsPcmToJanus.
  rewrite Hj, frame_size.
  assert (Hrun := send_full_frames_runs fuel 0 {| heap := h; out := [] |}).
  change (Z.of_nat (0 * frameSize)) with 0%Z in Hrun.
  rewrite Hrun; [|simpl; rewrite app_nil_r; reflexivity|lia|lia].
  clear Hrun. cbn [heap out]. rewrite source_kept, Nat.sub_0_r. simpl app.
  pose proof (Nat.div_mod_eq (length pcm) frameSize) as Hdm.
  pose proof (Nat.mod_upper_bound (length pcm) frameSize ltac:(lia)) as Hr.
  fold full in Hdm.
  destruct (length pcm mod frameSize =? 0)%nat eqn:E.
  - apply Nat.eqb_eq in E.
    destruct ((0 <? Z.of_nat (length pcm) - Z.of_nat (full * frameSize)) &&
              (Z.of_nat (length pcm) - Z.of_nat (full * frameSize)
               <? Z.of_nat frameSize))%Z eqn:C.
    + apply andb_prop in C as [C _]. apply Z.ltb_lt in C. lia.
    + rewrite Nat.add_0_r. reflexivity.
  - apply Nat.eqb_neq in E.
    destruct ((0 <? Z.of_nat (length pcm) - Z.of_nat (full * frameSize)) &&
              (Z.of_nat (length pcm) - Z.of_nat (full * frameSize)
               <? Z.of_nat frameSize))%Z eqn:C.
    + unfold new_Int16Array.
      destruct (Z.of_nat frameSize <? 0)%Z eqn:Hneg;
        [apply Z.ltb_lt in Hneg; lia|].
      replace (Z.to_nat (Z.of_nat (length pcm) - Z.of_nat (full * frameSize)))
        with (length pcm mod frameSize)%nat by lia.
      rewrite !Nat2Z.id.
      rewrite (copy_pad_frame _ pcm)
        by (try rewrite lookup_app_l by (eapply lookup_lt_Some, source);
            try exact source; lia).
      rewrite length_app, length_map, length_seq.
      replace (full + 1)%nat with (S full) by lia.
      rewrite seq_S, map_app, paced_snoc, <- app_assoc. reflexivity.
    + apply andb_false_iff in C as [C|C];
        [apply Z.ltb_ge in C|apply Z.ltb_ge in C]; lia.
Qed.
End PacerFacts.

Lemma frames_lookup (h : Heap) (frameSize : nat) (pcm : Int16Array) (n k : nat) :
  (k < n)%nat ->
  (h ++ map (frame_of frameSize pcm) (seq 0 n)) !! (length h + k)%nat
  = Some (frame_of frameSize pcm k).
Proof.
  intros Hk. rewrite lookup_app_r by lia.
  replace (length h + k - length h)%nat with k by lia.
  rewrite lookup_map, lookup_seq_lt by exact Hk. reflexivity.
Qed.

Lemma samples_pushed_paced (p : Plugin) (h : Heap) (frameSize : nat)
    (pcm : Int16Array) (n first m : nat) :
  (first + m <= n)%nat ->
  samples_pushed (h ++ map (frame_of frameSize pcm) (seq 0 n))
    (paced p (length h) first m) = (m * frameSize)%nat.
Proof.
  revert first. induction m as [|m IH]; intros first Hm; [reflexivity|].
  rewrite paced_S. simpl.
  rewrite frames_lookup by lia. simpl.
  rewrite frame_of_length, IH by lia. reflexivity.
Qed.

(** C3. With a Janus client attached and a frame size
    [F = floor(sampleRate * 0.01) * channels], that is
    [sampleRate / 100 * channels] for an integral sample rate, that is
    positive, the pacer cuts frames of [F] samples: given an array of [L]
    samples, it returns after it has pushed exactly [ceil(L / F)] frames, in
    order, each followed by its 10 ms wait. Every frame is a newly
    allocated array of exactly [F] samples, at a location that is neither
    the source's nor that of another frame; sample [i] of frame [k] is
    sample [k * F + i] of the source, and 0 beyond the end of the source.
    The source is left as it was and a later write to it changes no frame.
    The samples pushed are [ceil(L / F) * F] in all. *)
Theorem pacer_emits_padded_frames (fuel : nat) (p : Plugin) (j : JanusClient)
    (h : Heap) (rawPcm : loc) (pcm : Int16Array) :
  janus p = Some j ->
  (0 < sampleRate p / 100 * channels p)%Z ->
  h !! rawPcm = Some pcm ->
  (Z.of_nat (length pcm) / (sampleRate p / 100 * channels p)
   < Z.of_nat fuel)%Z ->
  let F := Z.to_nat (sampleRate p / 100 * channels p) in
  let n :=
    Z.to_nat (frame_count (Z.of_nat (length pcm))
                (sampleRate p / 100 * channels p)) in
  frameSizeSamples p = Z.of_nat F /\
  exists st : PacerState,
    sendTtsPcmToJanus fuel p h rawPcm = Returned st /\
    out st = paced p (length h) 0 n /\
    List.filter is_push (out st)
    = map (fun k => PushLocalAudio (length h + k)%nat (sampleRate p) (channels p))
        (seq 0 n) /\
    length (List.filter is_delay (out st)) = n /\
    (forall k : nat, (k < n)%nat ->
       heap st !! (length h + k)%nat = Some (frame_of F pcm k) /\
       length (frame_of F pcm k) = F /\
       (length h + k)%nat <> rawPcm /\
       h !! (length h + k)%nat = None /\
       forall (i : nat) (v : Z),
         array_set (heap st) rawPcm i v !! (length h + k)%nat
         = Some (frame_of F pcm k)) /\
    (forall k i : nat, (i < F)%nat ->
       frame_of F pcm k !! i = Some (default 0%Z (pcm !! (k * F + i)%nat))) /\
    heap st !! rawPcm = Some pcm /\
    samples_pushed (heap st) (out st) = (n * F)%nat.
Proof.
  intros Hj HF Hsrc Hfuel. cbv zeta.
  change (sampleRate p / 100 * channels p)%Z with (frameSizeSamples p) in *.
  set (F := Z.to_nat (frameSizeSamples p)).
  assert (HFz : frameSizeSamples p = Z.of_nat F) by (unfold F; lia).
  assert (HFpos : (0 < F)%nat) by lia.
  assert (Hfull : (length pcm / F < fuel)%nat).
  { rewrite HFz, <- Nat2Z.inj_div in Hfuel. lia. }
  split; [exact HFz|].
  rewrite HFz, frame_count_nat, Nat2Z.id by exact HFpos.
  set (n := (length pcm / F + _)%nat).
  pose proof (lookup_lt_Some _ _ _ Hsrc) as Hloc.
  eexists. split.
  { apply (sendTtsPcmToJanus_runs p h rawPcm pcm F HFz HFpos Hsrc fuel j Hj Hfull). }
  cbn [heap out]. fold n.
  split; [reflexivity|].
  split; [apply paced_pushes|].
  split; [apply paced_delays|].
  split.
  { intros k Hk. split; [apply frames_lookup, Hk|].
    split; [apply frame_of_length|].
    split; [lia|].
    split; [apply lookup_ge_None_2; lia|].
    intros i v. unfold array_set.
    rewrite list_lookup_alter_ne by lia. apply frames_lookup, Hk. }
  split; [intros k i Hi; apply frame_of_lookup, Hi|].
  split; [rewrite lookup_app_l by exact Hloc; exact Hsrc|].
  apply samples_pushed_paced. lia.
Qed.

(** C8 (amended). When no Janus client is attached the pacer logs one warning
    and returns at once, whatever the audio: nothing is pushed, no wait is
    started and the store is untouched. *)
Theorem no_sink_returns_at_once (fuel : nat) (p : Plugin) (h : Heap)
    (rawPcm : loc) :
  janus p = None ->
  exists st : PacerState,
    sendTtsPcmToJanus fuel p h rawPcm = Returned st /\
    out st =
      [Logger Warn "[HlsTranslationPlugin] sendTtsPcmToJanus => no Janus client"] /\
    heap st = h /\
    List.filter is_push (out st) = [] /\
    List.filter is_delay (out st) = [] /\
    length (List.filter is_warning (out st)) = 1%nat.
Proof.
  intros Hj. unfold sendTtsPcmToJanus. rewrite Hj.
  eexists. split; [reflexivity|]. simpl. repeat split.
Qed.

(** A frame size of zero keeps the first loop of the pacer running for
    ever: whatever the fuel, the call has not returned. *)
Lemma pacer_diverges_on_zero_frame_size (fuel : nat) (p : Plugin)
    (j : JanusClient) (h : Heap) (rawPcm : loc) :
  janus p = Some j ->
  frameSizeSamples p = 0%Z ->
  sendTtsPcmToJanus fuel p h rawPcm = Diverged.
Proof.
  intros Hj HF. unfold sendTtsPcmToJanus. rewrite Hj, HF.
  assert (H : forall st, send_full_frames fuel p rawPcm 0 0 st = Diverged).
  { induction fuel as [|fuel IH]; intros st; [reflexivity|].
    cbn [send_full_frames]. change (0 + 0)%Z with 0%Z.
    destruct (0 <=? array_length (heap st) rawPcm)%Z eqn:C.
    - unfold new_Int16Array. change (0 <? 0)%Z with false. cbv iota.
      apply IH.
    - apply Z.leb_gt in C. unfold array_length in C. lia. }
  rewrite H. reflexivity.
Qed.

(** ** More on the frame pacer *)

Lemma window_take_pad (l : Int16Array) (frameSize : nat) :
  map (fun i => default 0%Z (l !! i)) (seq 0 frameSize)
  = take frameSize l ++ replicate (frameSize - length l) 0%Z.
Proof.
  revert l. induction frameSize as [|n IH]; intros l; [reflexivity|].
  cbn [seq map]. rewrite <- seq_shift, map_map.
  destruct l as [|x l].
  - rewrite (map_zeros_beyond (fun i => default 0%Z (([] : list Z) !! S i)))
      by reflexivity.
    reflexivity.
  - change (map (fun i => default 0%Z ((x :: l) !! S i)) (seq 0 n))
      with (map (fun i => default 0%Z (l !! i)) (seq 0 n)).
    rewrite IH. reflexivity.
Qed.

Lemma frame_of_first (frameSize : nat) (pcm : Int16Array) :
  frame_of frameSize pcm 0
  = take frameSize pcm ++ replicate (frameSize - length pcm) 0%Z.
Proof. unfold frame_of. simpl. apply window_take_pad. Qed.

Lemma frame_of_next (frameSize : nat) (pcm : Int16Array) (k : nat) :
  frame_of frameSize pcm (S k) = frame_of frameSize (drop frameSize pcm) k.
Proof.
  unfold frame_of. apply map_ext. intros i.
  rewrite lookup_drop. do 2 f_equal. lia.
Qed.

Lemma concat_frames (frameSize n : nat) (pcm : Int16Array) :
  (length pcm <= n * frameSize)%nat ->
  concat (map (frame_of frameSize pcm) (seq 0 n))
  = pcm ++ replicate (n * frameSize - length pcm) 0%Z.
Proof.
  revert pcm. induction n as [|n IH]; intros pcm Hlen.
  - destruct pcm; [reflexivity|simpl in Hlen; lia].
  - cbn [seq map concat]. rewrite <- seq_shift, map_map.
    rewrite (map_ext _ (frame_of frameSize (drop frameSize pcm)))
      by (intros k; apply frame_of_next).
    rewrite IH by (rewrite length_drop; lia).
    rewrite frame_of_first, length_drop, <- app_assoc.
    destruct (le_lt_dec frameSize (length pcm)) as [Hge|Hlt].
    + replace (frameSize - length pcm)%nat with 0%nat by lia. simpl.
      rewrite app_assoc, take_drop. f_equal. f_equal. lia.
    + rewrite take_ge, drop_ge by lia. simpl.
      rewrite <- replicate_add. f_equal. f_equal. lia.
Qed.

Lemma pushed_frames_paced (p : Plugin) (h : Heap) (frameSize : nat)
    (pcm : Int16Array) (n first m : nat) :
  (first + m <= n)%nat ->
  pushed_frames (h ++ map (frame_of frameSize pcm) (seq 0 n))
    (paced p (length h) first m)
  = map (frame_of frameSize pcm) (seq first m).
Proof.
  revert first. induction m as [|m IH]; intros first Hm; [reflexivity|].
  rewrite paced_S. simpl.
  rewrite frames_lookup by lia. simpl. f_equal. apply IH. lia.
Qed.

(** X1. With a Janus client attached and a positive frame size, the frames
    the pacer hands to Janus, put end to end in the order they were pushed,
    are the source samples followed by fewer than a frame of zeros, and by
    none when the length of the source is a multiple of the frame size:
    nothing is lost, repeated or reordered. *)
Theorem pacer_frames_concatenate (fuel : nat) (p : Plugin) (j : JanusClient)
    (h : Heap) (rawPcm : loc) (pcm : Int16Array) :
  janus p = Some j ->
  (0 < frameSizeSamples p)%Z ->
  h !! rawPcm = Some pcm ->
  (Z.of_nat (length pcm) / frameSizeSamples p < Z.of_nat fuel)%Z ->
  exists (st : PacerState) (pad : nat),
    sendTtsPcmToJanus fuel p h rawPcm = Returned st /\
    concat (pushed_frames (heap st) (out st)) = pcm ++ replicate pad 0%Z /\
    (Z.of_nat pad < frameSizeSamples p)%Z /\
    ((Z.of_nat (length pcm) mod frameSizeSamples p = 0)%Z -> pad = 0%nat).
Proof.
  intros Hj HF Hsrc Hfuel.
  set (F := Z.to_nat (frameSizeSamples p)).
  assert (HFz : frameSizeSamples p = Z.of_nat F) by (unfold F; lia).
  assert (HFpos : (0 < F)%nat) by lia.
  assert (Hfull : (length pcm / F < fuel)%nat).
  { rewrite HFz, <- Nat2Z.inj_div in Hfuel. lia. }
  pose proof (Nat.div_mod_eq (length pcm) F) as Hdm.
  pose proof (Nat.mod_upper_bound (length pcm) F ltac:(lia)) as Hr.
  set (n := (length pcm / F +
             if (length pcm mod F =? 0)%nat then 0 else 1)%nat).
  assert (Hn : (length pcm <= n * F /\ n * F - length pcm < F)%nat).
  { unfold n. destruct (length pcm mod F =? 0)%nat eqn:E.
    - apply Nat.eqb_eq in E. nia.
    - apply Nat.eqb_neq in E. nia. }
  exists {| heap := h ++ map (frame_of F pcm) (seq 0 n);
            out := paced p (length h) 0 n |}, (n * F - length pcm)%nat.
  split.
  { apply (sendTtsPcmToJanus_runs p h rawPcm pcm F HFz HFpos Hsrc fuel j Hj Hfull). }
  cbn [heap out]. split.
  { rewrite pushed_frames_paced by lia. apply concat_frames. lia. }
  split; [lia|].
  intros Hmod. rewrite HFz, <- Nat2Z.inj_mod in Hmod.
  unfold n. replace (length pcm mod F)%nat with 0%nat in * by lia.
  simpl. nia.
Qed.

(** X2. With a Janus client attached, a configured sample rate below 100
    (so that [floor(sampleRate * 0.01)] is 0) or a channel count of 0 makes
    the frame size 0, and the first loop of the pacer then never ends: the
    call has not returned after any number of iterations, whatever the
    audio, even none. *)
Theorem pacer_never_returns_on_zero_frame_size (fuel : nat) (p : Plugin)
    (j : JanusClient) (h : Heap) (rawPcm : loc) :
  janus p = Some j ->
  (0 <= sampleRate p < 100)%Z \/ channels p = 0%Z ->
  sendTtsPcmToJanus fuel p h rawPcm = Diverged.
Proof.
  intros Hj Hcfg. apply (pacer_diverges_on_zero_frame_size fuel p j); [exact Hj|].
  unfold frameSizeSamples. destruct Hcfg as [Hsr|Hch].
  - rewrite Z.div_small by exact Hsr. reflexivity.
  - rewrite Hch. apply Z.mul_0_r.
Qed.

(** X3. With a Janus client attached, a negative frame size (a negative
    channel count, say) makes the pacer throw in the first iteration of its
    loop, whatever the audio: the allocation of the first frame raises a
    [RangeError] whose message names the negative length. *)
Theorem pacer_throws_on_negative_frame_size (fuel : nat) (p : Plugin)
    (j : JanusClient) (h : Heap) (rawPcm : loc) :
  janus p = Some j ->
  (sampleRate p / 100 * channels p < 0)%Z ->
  sendTtsPcmToJanus (S fuel) p h rawPcm
  = Raised ("RangeError: Invalid typed array length: " +:+
            pretty (sampleRate p / 100 * channels p)%Z).
Proof.
  intros Hj HF.
  change (sampleRate p / 100 * channels p)%Z with (frameSizeSamples p) in *.
  unfold sendTtsPcmToJanus. rewrite Hj.
  cbn [send_full_frames heap]. unfold array_length.
  destruct (0 + frameSizeSamples p
            <=? Z.of_nat (length (default [] (h !! rawPcm))))%Z eqn:C;
    [|apply Z.leb_gt in C; lia].
  unfold new_Int16Array.
  destruct (frameSizeSamples p <? 0)%Z eqn:N;
    [reflexivity|apply Z.ltb_ge in N; lia].
Qed.

(** ** More on the relay *)

Section RelayMore.
Context {rt : JsRuntime} (genv : Environ).

Lemma run_cons (e : Event) (evs : list Event) (s : Sys) :
  run genv (e :: evs) s = run genv evs (step genv e s).
Proof. reflexivity. Qed.

Lemma played_cons (e : Event) (evs : list Event) (s : Sys) :
  played genv (e :: evs) s
  = played genv [e] s ++ played genv evs (step genv e s).
Proof. cbn [played]. rewrite app_nil_r. reflexivity. Qed.

Lemma enqueued_cons (e : Event) (evs : list Event) (s : Sys) :
  enqueued genv (e :: evs) s
  = enqueued genv [e] s ++ enqueued genv evs (step genv e s).
Proof. cbn [enqueued]. rewrite app_nil_r. reflexivity. Qed.

(** *** The queue is first in, first out *)



(** *** A thrown send stalls the consumer *)

Lemma stalled_step (e : Event) (s : Sys) :
  is_cleanup e = false ->
  sending s = [] ->
  ttsProcessing (plugin s) = true ->
  sending (step genv e s) = [] /\
  ttsProcessing (plugin (step genv e s)) = true /\
  played genv [e] s = [] /\
  ttsQueue (plugin (step genv e s)) = ttsQueue (plugin s) ++ enqueued genv [e] s.
Proof.
  intros Hc Hs Hf.
  destruct e; try discriminate; cbn [played enqueued]; rewrite ?app_nil_r.
  - unfold step, onJanusReady, startHlsReading. simpl.
    destruct (isStreaming (plugin s)); simpl; rewrite ?app_nil_r; auto.
  - unfold step. destruct (ffmpegProcess (plugin s)); simpl; rewrite ?app_nil_r; auto.
  - unfold step, drain. destruct (flushTimer (plugin s)); [|rewrite ?app_nil_r; auto].
    destruct (pcmBuffer (plugin s)); simpl; rewrite ?app_nil_r; auto.
  - destruct (inflight s !! i) as [chunkBuf|] eqn:Hi.
    + destruct (outcome (pipeline genv w (plugin s) chunkBuf)) as [pcm|err|err] eqn:Hr.
      * unfold step. rewrite Hi.
        rewrite (js_eta (pipeline genv w (plugin s) chunkBuf)), Hr.
        unfold flush_settle, processTtsQueue, ttsQueue_push. simpl.
        rewrite Hf. simpl. rewrite Hs, ?app_nil_r. auto.
      * rewrite (settle_throw genv s i w chunkBuf err Hi Hr). simpl. rewrite ?app_nil_r. auto.
      * rewrite (settle_uncaught genv s i w chunkBuf err Hi Hr). simpl. rewrite ?app_nil_r. auto.
    + unfold step. rewrite Hi, ?app_nil_r. auto.
  - unfold step. rewrite Hs. simpl. rewrite Hs, ?app_nil_r. auto.
  - unfold step. rewrite Hs. simpl. rewrite ?app_nil_r. auto.
  - unfold step. destruct (ffmpegProcess (plugin s)); simpl; rewrite ?app_nil_r; auto.
  - unfold step. destruct (ffmpegProcess (plugin s)); simpl; rewrite ?app_nil_r; auto.
Qed.

Lemma stalled_run (evs : list Event) (s : Sys) :
  no_cleanup evs = true ->
  sending s = [] ->
  ttsProcessing (plugin s) = true ->
  sending (run genv evs s) = [] /\
  ttsProcessing (plugin (run genv evs s)) = true /\
  played genv evs s = [] /\
  ttsQueue (plugin (run genv evs s)) = ttsQueue (plugin s) ++ enqueued genv evs s.
Proof.
  revert s. induction evs as [|e evs IH]; intros s Hc Hs Hf.
  - simpl. rewrite app_nil_r. auto.
  - simpl in Hc. apply andb_prop in Hc as [He Hc].
    apply negb_true_iff in He.
    destruct (stalled_step e s He Hs Hf) as (Hs1 & Hf1 & Hp1 & Hq1).
    destruct (IH (step genv e s) Hc Hs1 Hf1) as (Hs2 & Hf2 & Hp2 & Hq2).
    rewrite run_cons, (played_cons e evs), (enqueued_cons e evs).
    rewrite Hp1, Hp2, Hq2, Hq1, <- app_assoc. auto.
Qed.

(** X5. When a call of the frame pacer throws while a consumer loop waits
    for it, the in-progress flag is never cleared: until [cleanup], whatever
    happens next, no queue entry is handed to the pacer any more and nothing
    is played; the audio of every run that ends piles up in the queue. *)
Theorem consumer_stalls_after_pacer_exception (evs : list Event) (s : Sys)
    (k : nat) (err : string) :
  one_consumer s ->
  is_Some (sending s !! k) ->
  no_cleanup evs = true ->
  let s0 := step genv (SendThrows k err) s in
  let s' := run genv evs s0 in
  sending s' = [] /\
  ttsProcessing (plugin s') = true /\
  played genv evs s0 = [] /\
  ttsQueue (plugin s') = ttsQueue (plugin s) ++ enqueued genv evs s0.
Proof.
  intros Hone [x Hk] Hc. cbv zeta.
  unfold one_consumer in Hone.
  pose proof (lookup_lt_Some _ _ _ Hk) as Hlt.
  destruct (ttsProcessing (plugin s)) eqn:E; [|lia].
  assert (Hs0 : step genv (SendThrows k err) s =
     {| plugin := plugin s; inflight := inflight s; sending := [];
        trace := trace s ++
          [Logger Error
             ("[HlsTranslationPlugin] processTtsQueue => error " +:+ err)] |}).
  { unfold step. rewrite Hk.
    destruct (sending s) as [|y [|z rest]]; simpl in Hlt, Hone; try lia.
    assert (k = 0%nat) as -> by lia. reflexivity. }
  rewrite Hs0.
  exact (stalled_run evs
           {| plugin := plugin s; inflight := inflight s; sending := [];
              trace := trace s ++
                [Logger Error
                   ("[HlsTranslationPlugin] processTtsQueue => error " +:+ err)] |}
           Hc eq_refl E).
Qed.

(** *** [cleanup] and the runs in flight *)

Lemma cleanup_same_settings (p : Plugin) : same_settings (fst (cleanup p)) p.
Proof.
  unfold cleanup, same_settings. destruct (ffmpegProcess p) as [[|]|];
    simpl; destruct (flushTimer p); simpl; repeat split.
Qed.

Lemma cleanup_resets (p : Plugin) :
  ttsQueue (fst (cleanup p)) = [] /\
  ttsProcessing (fst (cleanup p)) = false /\
  pcmBuffer (fst (cleanup p)) = [] /\
  janus (fst (cleanup p)) = janus p.
Proof.
  unfold cleanup. destruct (ffmpegProcess p) as [[|]|];
    simpl; destruct (flushTimer p); simpl; repeat split.
Qed.

(** X6. [cleanup] cancels no pipeline run: when a run that was in flight at
    [cleanup] ends with audio afterwards, that audio is handed to a new
    consumer loop at once, next to whatever an earlier loop is still
    sending, and the Janus client is still attached. *)
Theorem cleanup_does_not_cancel_runs (s : Sys) (i : nat) (w : PipelineEnv)
    (chunkBuf : Buffer) (pcm : Int16Array) :
  inflight s !! i = Some chunkBuf ->
  outcome (pipeline genv w (plugin s) chunkBuf) = Ok pcm ->
  let s' := run genv [Cleanup; PipelineSettles i w] s in
  sending s' = sending s ++ [pcm] /\
  ttsQueue (plugin s') = [] /\
  ttsProcessing (plugin s') = true /\
  janus (plugin s') = janus (plugin s) /\
  inflight s' = delete i (inflight s).
Proof.
  intros Hi Hr. cbv zeta.
  rewrite run_cons.
  assert (Hc : step genv Cleanup s =
     {| plugin := fst (cleanup (plugin s)); inflight := inflight s;
        sending := sending s; trace := trace s ++ snd (cleanup (plugin s)) |}).
  { unfold step. destruct (cleanup (plugin s)). reflexivity. }
  rewrite Hc. set (s1 := {| plugin := fst (cleanup (plugin s)) |}).
  change (run genv [PipelineSettles i w] s1)
    with (step genv (PipelineSettles i w) s1).
  destruct (cleanup_resets (plugin s)) as (Hq & Hf & _ & Hj).
  unfold step. cbn [plugin inflight sending trace s1]. rewrite Hi.
  rewrite (pipeline_same_settings genv w _ (plugin s) chunkBuf
             (cleanup_same_settings (plugin s))).
  rewrite (js_eta (pipeline genv w (plugin s) chunkBuf)), Hr.
  unfold flush_settle, processTtsQueue, ttsQueue_push, consumer_loop.
  cbn [ttsProcessing set_ttsQueue]. rewrite Hf.
  cbn [ttsQueue set_ttsProcessing set_ttsQueue]. rewrite Hq.
  cbn [app plugin inflight sending janus ttsQueue ttsProcessing
       set_ttsQueue set_ttsProcessing option_list].
  rewrite Hj. auto.
Qed.

(** *** Bytes between the decoder and the pipeline *)

(** X7. While audio arrives and the timer fires, with no run ending: the
    chunks handed to the pipeline so far, in order, followed by what the
    buffer holds, are the chunks and the buffer of the start followed by
    all the bytes received since, in order. No byte is lost, repeated or
    moved between the decoder and the pipeline. *)
Theorem no_byte_lost_before_the_pipeline (evs : list Event) (s : Sys) :
  ffmpegProcess (plugin s) <> None ->
  feed_only evs = true ->
  let s' := run genv evs s in
  concat (inflight s') ++ pcmBuffer (plugin s')
  = concat (inflight s) ++ pcmBuffer (plugin s) ++ received evs.
Proof.
  revert s. induction evs as [|e evs IH]; intros s Hf Hfeed; cbv zeta.
  - simpl. rewrite app_nil_r. reflexivity.
  - simpl in Hfeed. apply andb_prop in Hfeed as [He Hfeed].
    rewrite run_cons. destruct e; try discriminate.
    + assert (Hs : step genv (Data chunk) s =
                {| plugin := append chunk (plugin s); inflight := inflight s;
                   sending := sending s; trace := trace s |}).
      { unfold step. destruct (ffmpegProcess (plugin s)); [reflexivity|].
        contradiction. }
      rewrite Hs.
      specialize (IH {| plugin := append chunk (plugin s);
                        inflight := inflight s; sending := sending s;
                        trace := trace s |} Hf Hfeed).
      cbv zeta in IH. rewrite IH. simpl. rewrite <- !app_assoc. reflexivity.
    + assert (Hs : ffmpegProcess (plugin (step genv Tick s)) <> None /\
                   concat (inflight (step genv Tick s)) ++
                   pcmBuffer (plugin (step genv Tick s))
                   = concat (inflight s) ++ pcmBuffer (plugin s)).
      { unfold step, drain. destruct (flushTimer (plugin s)); [|auto].
        destruct (pcmBuffer (plugin s)) as [|b bs] eqn:E; simpl.
        - rewrite E. auto.
        - split; [exact Hf|]. rewrite concat_app. simpl.
          rewrite !app_nil_r. reflexivity. }
      destruct Hs as [Hf' Hc].
      specialize (IH (step genv Tick s) Hf' Hfeed). cbv zeta in IH.
      rewrite IH, app_assoc, Hc. simpl. rewrite <- app_assoc. reflexivity.
Qed.

Lemma step_keeps_chunks_nonempty (e : Event) (s : Sys) :
  Forall (fun chunkBuf : Buffer => chunkBuf <> []) (inflight s) ->
  Forall (fun chunkBuf : Buffer => chunkBuf <> []) (inflight (step genv e s)).
Proof.
  intros H. destruct e; unfold step.
  - destruct (onJanusReady j (plugin s)). exact H.
  - destruct (ffmpegProcess (plugin s)); exact H.
  - unfold drain. destruct (flushTimer (plugin s)); [|exact H].
    destruct (pcmBuffer (plugin s)) as [|b bs] eqn:E; simpl; [exact H|].
    apply Forall_app. split; [exact H|]. constructor; [discriminate|constructor].
  - destruct (inflight s !! i); [|exact H].
    destruct (flush_settle _ _) as [[p started] t]. simpl.
    apply Forall_delete, H.
  - destruct (sending s !! k); [|exact H].
    destruct (consumer_loop (plugin s)). exact H.
  - destruct (sending s !! k); exact H.
  - destruct (ffmpegProcess (plugin s)); exact H.
  - destruct (ffmpegProcess (plugin s)); exact H.
  - destruct (cleanup (plugin s)). exact H.
Qed.

(** X8. In every state the relay reaches from a new plugin, through any
    events, every chunk whose pipeline run is in flight is non-empty: ffmpeg
    is never asked to write a WAV file from an empty chunk, and no request
    is made for one. *)
Theorem pipeline_never_runs_on_empty_chunk
    (config : SpaceTranslatorRelayConfig) (evs : list Event) :
  Forall (fun chunkBuf : Buffer => chunkBuf <> [])
    (inflight (run genv evs (init genv config))).
Proof.
  assert (H : forall s,
            Forall (fun chunkBuf : Buffer => chunkBuf <> []) (inflight s) ->
            Forall (fun chunkBuf : Buffer => chunkBuf <> [])
              (inflight (run genv evs s))).
  { induction evs as [|e evs IH]; intros s Hs; [exact Hs|].
    rewrite run_cons. apply IH, step_keeps_chunks_nonempty, Hs. }
  apply H. constructor.
Qed.

(** X9. [onJanusReady] attaches the client, sets the timer and leaves the
    plugin streaming; it spawns ffmpeg on the HLS URL exactly when the plugin
    was not streaming, and a second call right after the first spawns
    nothing and keeps the process. *)
Theorem janus_ready_spawns_ffmpeg_once (j j' : JanusClient) (p : Plugin) :
  let p1 := fst (onJanusReady j p) in
  let p2 := fst (onJanusReady j' p1) in
  janus p1 = Some j /\ isStreaming p1 = true /\ flushTimer p1 = true /\
  List.filter is_spawn (snd (onJanusReady j p))
  = (if isStreaming p then []
     else [Spawn "ffmpeg"
             ["-i"; hlsUrl p; "-f"; "s16le"; "-ar"; pretty (sampleRate p);
              "-ac"; pretty (channels p); "pipe:1"] []]) /\
  List.filter is_spawn (snd (onJanusReady j' p1)) = [] /\
  janus p2 = Some j' /\
  ffmpegProcess p2 = ffmpegProcess p1 /\
  pcmBuffer p2 = pcmBuffer p /\ ttsQueue p2 = ttsQueue p.
Proof.
  cbv zeta. unfold onJanusReady, startHlsReading. simpl.
  destruct (isStreaming p) eqn:E; simpl; rewrite ?E; simpl; repeat split.
Qed.
End RelayMore.

(** ** More on the pipeline *)

Lemma effects_bind {A B} (m : Js A) (k : A -> Js B) :
  effects (bind m k)
  = effects m ++ match outcome m with
                 | Ok a => effects (k a)
                 | Throw _ | Uncaught _ => []
                 end.
Proof.
  destruct m as [t [a|e|e]]; simpl.
  - destruct (k a). reflexivity.
  - symmetry. apply app_nil_r.
  - symmetry. apply app_nil_r.
Qed.

Lemma outcome_bind {A B} (m : Js A) (k : A -> Js B) :
  outcome (bind m k)
  = match outcome m with
    | Ok a => outcome (k a)
    | Throw e => Throw e
    | Uncaught e => Uncaught e
    end.
Proof.
  destruct m as [t [a|e|e]]; simpl; [destruct (k a)| |]; reflexivity.
Qed.

Lemma fetched_urls_app (t t' : list Effect) :
  fetched_urls (t ++ t') = fetched_urls t ++ fetched_urls t'.
Proof. apply flat_map_app. Qed.

Lemma stage_bound_bind {A B} (urls urls' : list string) (m : Js A)
    (k : A -> Js B) :
  stage_bound urls (effects m) ->
  (forall a, outcome m = Ok a -> stage_bound urls' (effects (k a))) ->
  stage_bound (urls ++ urls') (effects (bind m k)).
Proof.
  intros [Hs Hu] Hk. rewrite effects_bind. unfold stage_bound.
  rewrite fetched_urls_app, existsb_app, Hu.
  destruct (outcome m) as [a|e|e].
  - destruct (Hk a eq_refl) as [Hs' Hu']. split; [|exact Hu'].
    apply sublist_app; assumption.
  - split; [|reflexivity]. apply sublist_app; [exact Hs|apply sublist_nil_l].
  - split; [|reflexivity]. apply sublist_app; [exact Hs|apply sublist_nil_l].
Qed.

Section PipelineMore.
Context {rt : JsRuntime} (genv : Environ).

Lemma convertPcmToWav_effects clock ending p chunkBuf :
  effects (convertPcmToWav clock ending p chunkBuf)
  = [Spawn "ffmpeg"
       ["-f"; "s16le"; "-ar"; pretty (sampleRate p); "-ac";
        pretty (channels p); "-i"; "pipe:0"; "-y"; wav_path clock] chunkBuf].
Proof.
  unfold convertPcmToWav. destruct ending as [[[|c|c]|]|e|e]; reflexivity.
Qed.

Lemma convertPcmToWav_path clock ending p chunkBuf wavPath :
  outcome (convertPcmToWav clock ending p chunkBuf) = Ok wavPath ->
  wavPath = wav_path clock /\ ending = Closed (Some 0%Z).
Proof.
  unfold convertPcmToWav. destruct ending as [[[|c|c]|]|e|e]; simpl;
    intros H; try discriminate H.
  apply Ok_inj in H. auto.
Qed.

Lemma openAiStt_bound file answer wavFile language :
  stage_bound [stt_url] (effects (openAiStt genv file answer wavFile language)).
Proof.
  unfold openAiStt, stage_bound. cbv zeta.
  destruct (truthy (OPENAI_KEY genv)); simpl;
    [|split; [apply sublist_nil_l|reflexivity]].
  destruct file as [buf|e|e]; simpl;
    [|split; [apply sublist_nil_l|reflexivity]
     |split; [apply sublist_nil_l|reflexivity]].
  destruct answer as [r|e|e]; simpl;
    [|split; [reflexivity|reflexivity]|split; [reflexivity|reflexivity]].
  destruct (resp_ok r); simpl.
  - destruct (resp_json r); simpl; split; reflexivity.
  - destruct (resp_text r); simpl; split; reflexivity.
Qed.

Lemma libreTranslate_bound answer text targetLang translateUrl translateApiKey :
  stage_bound [translateUrl]
    (effects (libreTranslate genv answer text targetLang translateUrl
                translateApiKey)).
Proof.
  unfold libreTranslate, stage_bound. cbv zeta.
  destruct text as [|c text]; simpl;
    [split; [apply sublist_nil_l|reflexivity]|].
  destruct (negb (includes translateUrl "localhost") && _);
    destruct answer as [r|e|e]; simpl;
    try destruct (resp_ok r); simpl;
    try destruct (resp_text r); simpl;
    try destruct (resp_json r); simpl; split; reflexivity.
Qed.

Lemma convertMp3ToPcm_effects ending rawData mp3Buffer outRate outChannels :
  effects (convertMp3ToPcm ending rawData mp3Buffer outRate outChannels)
  = [Spawn "ffmpeg"
       ["-i"; "pipe:0"; "-f"; "s16le"; "-ar"; pretty outRate;
        "-ac"; pretty (default 1%Z outChannels); "pipe:1"] mp3Buffer].
Proof.
  unfold convertMp3ToPcm. destruct ending as [[[|c|c]|]|e|e]; reflexivity.
Qed.

Lemma elevenLabsTts_bound answer ending rawData text voiceId :
  stage_bound [tts_url (default "21m00Tcm4TlvDq8ikWAM" voiceId)]
    (effects (elevenLabsTts genv answer ending rawData text voiceId)).
Proof.
  unfold elevenLabsTts, stage_bound. cbv zeta.
  destruct (truthy (ELEVENLABS_KEY genv)); simpl;
    [|split; [apply sublist_nil_l|reflexivity]].
  destruct answer as [r|e|e]; simpl;
    [|split; reflexivity|split; reflexivity].
  destruct (resp_ok r); simpl.
  - destruct (resp_arrayBuffer r) as [mp3|e|e]; simpl;
      [|split; reflexivity|split; reflexivity].
    rewrite (js_eta (convertMp3ToPcm ending rawData mp3 48000 None)).
    rewrite convertMp3ToPcm_effects. simpl. split; reflexivity.
  - destruct (resp_text r); simpl; split; reflexivity.
Qed.

Lemma stages_bound (w : PipelineEnv) (p : Plugin) (wavPath : string) :
  stage_bound (service_urls p)
    (effects
       (recognizedText <-
          openAiStt genv (wavFile w) (sttAnswer w) wavPath
            (Some (sttLanguage p)) ;;
        translatedText <-
          libreTranslate genv (translateAnswer w) recognizedText
            (targetLanguage p) (translateUrl p) (translateApiKey p) ;;
        elevenLabsTts genv (ttsAnswer w) (mp3Ending w) (mp3RawData w)
          translatedText (Some (ttsVoiceId p)))).
Proof.
  apply (stage_bound_bind [stt_url] [translateUrl p; tts_url (ttsVoiceId p)]);
    [apply openAiStt_bound|]. intros recognizedText _.
  apply (stage_bound_bind [translateUrl p] [tts_url (ttsVoiceId p)]);
    [apply libreTranslate_bound|]. intros translatedText _.
  apply (elevenLabsTts_bound _ _ _ _ (Some (ttsVoiceId p))).
Qed.

(** The pipeline is its three stages between the WAV conversion and the
    removal of the WAV file. *)
Lemma pipeline_shape (w : PipelineEnv) (p : Plugin) (chunkBuf : Buffer) :
  pipeline genv w p chunkBuf
  = (wavPath <- convertPcmToWav (now w) (wavEnding w) p chunkBuf ;;
     perform (Logger Info
       ("[HlsTranslationPlugin] flush => created WAV at " +:+ wavPath)) ;;;
     ttsPcm <-
       (recognizedText <-
          openAiStt genv (wavFile w) (sttAnswer w) wavPath
            (Some (sttLanguage p)) ;;
        translatedText <-
          libreTranslate genv (translateAnswer w) recognizedText
            (targetLanguage p) (translateUrl p) (translateApiKey p) ;;
        elevenLabsTts genv (ttsAnswer w) (mp3Ending w) (mp3RawData w)
          translatedText (Some (ttsVoiceId p))) ;;
     (perform (Unlink wavPath) ;;; settle (unlinkResult w)) ;;;
     ret ttsPcm).
Proof.
  unfold pipeline.
  destruct (convertPcmToWav (now w) (wavEnding w) p chunkBuf)
    as [t1 [wavPath|e1|e1]]; [|reflexivity|reflexivity].
  simpl.
  destruct (openAiStt genv (wavFile w) (sttAnswer w) wavPath
              (Some (sttLanguage p))) as [t2 [heard|e2|e2]];
    [|reflexivity|reflexivity].
  simpl.
  destruct (libreTranslate genv (translateAnswer w) heard (targetLanguage p)
              (translateUrl p) (translateApiKey p)) as [t3 [said|e3|e3]];
    [|reflexivity|reflexivity].
  simpl.
  destruct (elevenLabsTts genv (ttsAnswer w) (mp3Ending w) (mp3RawData w)
              said (Some (ttsVoiceId p))) as [t4 [pcm|e4|e4]];
    [|reflexivity|reflexivity].
  simpl. destruct (unlinkResult w); simpl; rewrite <- ?app_assoc; reflexivity.
Qed.

(** X10. In one run of the pipeline the requests go to the speech
    recognition endpoint, the translation endpoint and the synthesis
    endpoint of the configured voice, in that order, each at most once:
    no stage is retried and none runs before the one before it. *)
Theorem requests_follow_stage_order (w : PipelineEnv) (p : Plugin)
    (chunkBuf : Buffer) :
  fetched_urls (effects (pipeline genv w p chunkBuf))
  `sublist_of` service_urls p.
Proof.
  rewrite pipeline_shape.
  rewrite effects_bind, fetched_urls_app, convertPcmToWav_effects.
  cbn [fetched_urls flat_map app].
  destruct (outcome (convertPcmToWav (now w) (wavEnding w) p chunkBuf))
    as [wavPath|e|e]; [|apply sublist_nil_l|apply sublist_nil_l].
  rewrite effects_bind, fetched_urls_app.
  cbn [perform effects outcome fst snd fetched_urls flat_map app].
  rewrite effects_bind, fetched_urls_app.
  rewrite <- (app_nil_r (service_urls p)).
  apply sublist_app; [apply stages_bound|].
  destruct (outcome _) as [pcm|e|e]; [|apply sublist_nil_l|apply sublist_nil_l].
  destruct (unlinkResult w); simpl; apply sublist_nil_l.
Qed.

(** X11. The WAV file in /tmp is removed only at the very end of a run that
    came through all its stages. When the run returns audio, removing the
    file written for the chunk is the last thing it did, and it did it once;
    when the run throws although the removal itself would have worked,
    nothing was removed: the file of a failed run stays behind. *)
Theorem wav_file_removed_only_on_success (w : PipelineEnv) (p : Plugin)
    (chunkBuf : Buffer) :
  is_ok (unlinkResult w) = true ->
  let r := pipeline genv w p chunkBuf in
  (is_ok (outcome r) = false -> existsb is_unlink (effects r) = false) /\
  (is_ok (outcome r) = true ->
   exists t, effects r = t ++ [Unlink (wav_path (now w))] /\
             existsb is_unlink t = false).
Proof.
  intros Hu. cbv zeta. rewrite pipeline_shape.
  rewrite outcome_bind, effects_bind, convertPcmToWav_effects.
  destruct (outcome (convertPcmToWav (now w) (wavEnding w) p chunkBuf))
    as [wavPath|e|e] eqn:E1;
    [|split; [reflexivity|discriminate]|split; [reflexivity|discriminate]].
  apply convertPcmToWav_path in E1 as [-> _].
  rewrite outcome_bind, effects_bind. simpl outcome at 1. simpl effects at 1.
  cbv iota beta.
  rewrite outcome_bind, effects_bind.
  destruct (stages_bound w p (wav_path (now w))) as [_ Hstages].
  destruct (outcome _) as [pcm|e|e] eqn:E2.
  - destruct (unlinkResult w) as [[]|e|e];
      [|discriminate Hu|discriminate Hu]. simpl.
    split; [discriminate|]. intros _.
    eexists (_ :: _ :: _). split; [reflexivity|]. simpl. exact Hstages.
  - split; [|discriminate]. intros _.
    simpl. rewrite app_nil_r. exact Hstages.
  - split; [|discriminate]. intros _.
    simpl. rewrite app_nil_r. exact Hstages.
Qed.
End PipelineMore.

(** ** More on the stages *)

Lemma readInt16LE_range (buf : Buffer) (off : nat) :
  (-32768 <= readInt16LE buf off <= 32767)%Z.
Proof.
  unfold readInt16LE.
  pose proof (Byte.to_N_bounded (default x00 (buf !! off))) as Hlo.
  pose proof (Byte.to_N_bounded (default x00 (buf !! S off))) as Hhi.
  cbv zeta.
  destruct (_ <? 32768)%Z eqn:C;
    [apply Z.ltb_lt in C|apply Z.ltb_ge in C]; lia.
Qed.

Lemma readInt16LE_bytes (buf : Buffer) (off : nat) (lo hi : byte) :
  buf !! off = Some lo ->
  buf !! S off = Some hi ->
  (readInt16LE buf off mod 256 = Z.of_N (Byte.to_N lo))%Z /\
  ((readInt16LE buf off / 256) mod 256 = Z.of_N (Byte.to_N hi))%Z.
Proof.
  intros Hlo Hhi. unfold readInt16LE. rewrite Hlo, Hhi. simpl default.
  pose proof (Byte.to_N_bounded lo) as Blo.
  pose proof (Byte.to_N_bounded hi) as Bhi.
  cbv zeta.
  destruct (_ <? 32768)%Z eqn:C;
    [apply Z.ltb_lt in C|apply Z.ltb_ge in C];
    split; Z.div_mod_to_equations; lia.
Qed.


Lemma pcm_of_bytes_loop (rawData : Buffer) :
  (let arr : Int16Array := replicate (length rawData / 2) 0%Z in
   for_range (length arr)
     (fun i arr => <[i := readInt16LE rawData (i * 2)]> arr) arr)
  = pcm_of_bytes rawData.
Proof. cbv zeta. apply for_range_fill_all. Qed.

Section StagesMore.
Context {rt : JsRuntime} (genv : Environ).


(** X13. Every sample [convertMp3ToPcm] produces is a signed 16-bit
    integer made of two consecutive bytes of ffmpeg's output, low byte
    first: the sample lies between -32768 and 32767 and the two bytes can be
    read back from it. *)
Theorem decoded_sample_is_little_endian_int16 (rawData : Buffer) (i : nat)
    (v : Z) :
  pcm_of_bytes rawData !! i = Some v ->
  (-32768 <= v <= 32767)%Z /\
  exists lo hi : byte,
    rawData !! (2 * i)%nat = Some lo /\
    rawData !! (2 * i + 1)%nat = Some hi /\
    (v mod 256 = Z.of_N (Byte.to_N lo))%Z /\
    ((v / 256) mod 256 = Z.of_N (Byte.to_N hi))%Z.
Proof.
  intros Hv. unfold pcm_of_bytes in Hv. rewrite lookup_map in Hv.
  destruct (seq 0 (length rawData / 2) !! i) as [k|] eqn:Hk; [|discriminate].
  apply lookup_seq in Hk as [-> Hi]. simpl in Hv. apply Some_inj in Hv.
  subst v. split; [apply readInt16LE_range|].
  pose proof (Nat.div_mod_eq (length rawData) 2) as Hdm.
  pose proof (Nat.mod_upper_bound (length rawData) 2 ltac:(lia)) as Hr.
  destruct (lookup_lt_is_Some_2 rawData (i * 2)) as [lo Hlo]; [lia|].
  destruct (lookup_lt_is_Some_2 rawData (S (i * 2))) as [hi Hhi]; [lia|].
  exists lo, hi.
  replace (2 * i)%nat with (i * 2)%nat by lia.
  replace (i * 2 + 1)%nat with (S (i * 2)) by lia.
  split; [exact Hlo|]. split; [exact Hhi|].
  apply readInt16LE_bytes; assumption.
Qed.

(** *** Translation requests *)

Lemma effective_key_or_else (translateApiKey : option string) :
  (if nonempty (or_else translateApiKey (LIBRETRANSLATE_API_KEY_ENV genv))
   then Some (or_else translateApiKey (LIBRETRANSLATE_API_KEY_ENV genv))
   else None)
  = effective_key genv translateApiKey.
Proof.
  unfold effective_key, LIBRETRANSLATE_API_KEY_ENV.
  destruct translateApiKey as [[|c s]|];
    destruct (env_LIBRETRANSLATE_API_KEY genv) as [[|c' s']|]; reflexivity.
Qed.

Lemma libreTranslate_effects answer c text targetLang translateUrl
    translateApiKey :
  exists (req : Request) (tail : list Effect),
    effects (libreTranslate genv answer (String c text) targetLang translateUrl
               translateApiKey)
    = (if remote_without_key genv translateUrl translateApiKey
       then [Console Warn
               "[libreTranslate] WARNING: Using a non-localhost endpoint but no API key found."]
       else []) ++ Fetch translateUrl req :: tail /\
    List.filter is_fetch tail = [] /\
    existsb is_warning tail = false /\
    json_field "q" req = Some (JStr (String c text)) /\
    json_field "source" req = Some (JStr "auto") /\
    json_field "target" req = Some (JStr targetLang) /\
    json_field "format" req = Some (JStr "text") /\
    json_field "api_key" req = JStr <$> effective_key genv translateApiKey.
Proof.
  rewrite <- effective_key_or_else, <- warn_condition.
  unfold libreTranslate. cbv zeta. cbn [nonempty negb].
  set (k := or_else translateApiKey (LIBRETRANSLATE_API_KEY_ENV genv)).
  destruct (negb (includes translateUrl "localhost")); simpl;
    destruct (nonempty k); simpl;
    destruct answer as [r|e|e]; simpl;
    try destruct (resp_ok r); simpl;
    try destruct (resp_text r); simpl;
    try destruct (resp_json r); simpl;
    eexists; eexists; (split; [reflexivity|]); repeat split.
Qed.

(** X14. For a text that is not empty [libreTranslate] sends exactly one
    request; its JSON body carries the text as [q], "auto" as source, the
    target language and the format "text", and an [api_key] exactly when a
    key is available: the key of the plugin configuration when it is set
    and not empty, else the key of the environment when it is set and not
    empty. *)
Theorem translation_request_carries_effective_key (answer : Result Response)
    (text targetLang translateUrl : string)
    (translateApiKey : option string) :
  text <> "" ->
  exists req : Request,
    List.filter is_fetch
      (effects (libreTranslate genv answer text targetLang translateUrl
                  translateApiKey))
    = [Fetch translateUrl req] /\
    json_field "q" req = Some (JStr text) /\
    json_field "source" req = Some (JStr "auto") /\
    json_field "target" req = Some (JStr targetLang) /\
    json_field "format" req = Some (JStr "text") /\
    json_field "api_key" req = JStr <$> effective_key genv translateApiKey.
Proof.
  intros H. destruct text as [|c text]; [contradiction|].
  destruct (libreTranslate_effects answer c text targetLang translateUrl
              translateApiKey)
    as (req & tail & He & Hf & _ & Hq & Hs & Ht & Hfm & Hk).
  exists req. rewrite He, List.filter_app. simpl. rewrite Hf.
  destruct (remote_without_key genv translateUrl translateApiKey);
    simpl; repeat split; assumption.
Qed.

(** X15. A plugin constructed without a translation URL, in an environment
    that sets none either, talks to the local default endpoint, and
    [libreTranslate] then never logs the warning about a missing API key,
    whatever the text, the keys and the answer. *)
Theorem default_endpoint_never_warns (config : SpaceTranslatorRelayConfig)
    (answer : Result Response) (text : string) :
  truthy (cfg_translateUrl config) = false ->
  truthy (env_LIBRETRANSLATE_URL genv) = false ->
  let p := new_plugin genv config in
  translateUrl p = "http://localhost:5000/translate" /\
  existsb is_warning
    (effects (libreTranslate genv answer text (targetLanguage p)
                (translateUrl p) (translateApiKey p))) = false.
Proof.
  intros Hc He. cbv zeta.
  assert (Hu : translateUrl (new_plugin genv config)
               = "http://localhost:5000/translate").
  { unfold new_plugin, LIBRETRANSLATE_URL_DEFAULT, or_else. simpl.
    rewrite Hc, He. reflexivity. }
  split; [exact Hu|]. rewrite Hu.
  destruct text as [|c text]; [reflexivity|].
  destruct (libreTranslate_effects answer c text
              (targetLanguage (new_plugin genv config))
              "http://localhost:5000/translate"
              (translateApiKey (new_plugin genv config)))
    as (req & tail & Heff & _ & Hw & _).
  rewrite Heff.
  assert (Hr : remote_without_key genv "http://localhost:5000/translate"
                 (translateApiKey (new_plugin genv config)) = false)
    by reflexivity.
  rewrite Hr. simpl. exact Hw.
Qed.
End StagesMore.

Lemma fetched_urls_no_fetch (t : list Effect) :
  List.filter is_fetch t = [] -> fetched_urls t = [].
Proof.
  induction t as [|e t IH]; [reflexivity|].
  destruct e; simpl; try exact IH. discriminate.
Qed.

Section SuccessfulRun.
Context {rt : JsRuntime} (genv : Environ).

Lemma openAiStt_answers file answer wavPath language heard :
  truthy (OPENAI_KEY genv) = true ->
  is_ok file = true ->
  answered_json answer = Some heard ->
  exists req,
    openAiStt genv file answer wavPath language
    = ([ReadFile wavPath; Fetch stt_url req], Ok (js_trim heard)).
Proof.
  intros Hk Hf Ha. unfold openAiStt. cbv zeta. rewrite Hk.
  destruct file as [buf|e|e]; [|discriminate|discriminate].
  destruct answer as [r|e|e]; [|discriminate|discriminate]. simpl in Ha.
  destruct (resp_ok r) eqn:Hok; [|discriminate].
  destruct (resp_json r) as [s|e|e] eqn:Hj; [|discriminate|discriminate].
  apply Some_inj in Ha. subst s.
  simpl. rewrite Hok, Hj. simpl. eexists. reflexivity.
Qed.

Lemma libreTranslate_answers answer c text targetLang translateUrl
    translateApiKey said :
  answered_json answer = Some said ->
  outcome (libreTranslate genv answer (String c text) targetLang translateUrl
             translateApiKey) = Ok said.
Proof.
  intros Ha. unfold libreTranslate. cbv zeta.
  destruct answer as [r|e|e]; [|discriminate|discriminate]. simpl in Ha.
  destruct (resp_ok r) eqn:Hok; [|discriminate].
  destruct (resp_json r) as [s|e|e] eqn:Hj; [|discriminate|discriminate].
  apply Some_inj in Ha. subst s. simpl.
  destruct (negb (includes translateUrl "localhost") && _);
    simpl; rewrite Hok, Hj; reflexivity.
Qed.

Lemma elevenLabsTts_answers answer ending rawData text voiceId mp3 :
  truthy (ELEVENLABS_KEY genv) = true ->
  answered_bytes answer = Some mp3 ->
  exited_cleanly ending = true ->
  exists req,
    elevenLabsTts genv answer ending rawData text voiceId
    = ([Console Plain ("[elevenLabsTts] Request => " +:+ text);
        Fetch (tts_url (default "21m00Tcm4TlvDq8ikWAM" voiceId)) req;
        Spawn "ffmpeg"
          ["-i"; "pipe:0"; "-f"; "s16le"; "-ar"; "48000"; "-ac"; "1";
           "pipe:1"] mp3],
       Ok (pcm_of_bytes rawData)) /\
    json_field "text" req = Some (JStr text).
Proof.
  intros Hk Ha He. unfold elevenLabsTts. cbv zeta. rewrite Hk.
  destruct answer as [r|e|e]; [|discriminate|discriminate]. simpl in Ha.
  destruct (resp_ok r) eqn:Hok; [|discriminate].
  destruct (resp_arrayBuffer r) as [b|e|e] eqn:Hb; [|discriminate|discriminate].
  apply Some_inj in Ha. subst b.
  destruct ending as [[[|c|c]|]|e|e]; try discriminate.
  simpl. rewrite Hok, Hb. simpl.
  rewrite <- (pcm_of_bytes_loop rawData).
  eexists. split; reflexivity.
Qed.

(** X16. When both keys are set, ffmpeg and the file system work and the
    three services answer, a run returns the audio ffmpeg decoded from the
    synthesized MP3, and each stage is handed what the stage before it
    returned: translation is asked for the trimmed recognized text and
    synthesis for the translated text. When the trimmed recognized text is
    empty, translation is skipped and synthesis is still requested, for the
    empty text. The MP3 is always converted at 48000 Hz mono, whatever the
    plugin is configured for, and the WAV file is removed last. *)
Theorem successful_run_hands_text_along (w : PipelineEnv) (p : Plugin)
    (chunkBuf : Buffer) :
  services_answer genv w = true ->
  let r := pipeline genv w p chunkBuf in
  let heard := js_trim (default "" (answered_json (sttAnswer w))) in
  let said :=
    if nonempty heard then default "" (answered_json (translateAnswer w))
    else "" in
  outcome r = Ok (pcm_of_bytes (mp3RawData w)) /\
  fetched_urls (effects r)
  = (if nonempty heard then service_urls p
     else [stt_url; tts_url (ttsVoiceId p)]) /\
  (exists req,
     In (Fetch (tts_url (ttsVoiceId p)) req) (effects r) /\
     json_field "text" req = Some (JStr said)) /\
  (nonempty heard = true ->
   exists req,
     In (Fetch (translateUrl p) req) (effects r) /\
     json_field "q" req = Some (JStr heard) /\
     json_field "target" req = Some (JStr (targetLanguage p))) /\
  (exists mp3,
     answered_bytes (ttsAnswer w) = Some mp3 /\
     In (Spawn "ffmpeg"
           ["-i"; "pipe:0"; "-f"; "s16le"; "-ar"; "48000"; "-ac"; "1";
            "pipe:1"] mp3) (effects r)) /\
  last (effects r) = Some (Unlink (wav_path (now w))).
Proof.
  unfold services_answer. intros H.
  repeat (apply andb_prop in H as [H ?]).
  destruct (answered_json (sttAnswer w)) as [heard0|] eqn:Hstt; [|discriminate].
  destruct (answered_json (translateAnswer w)) as [said0|] eqn:Htr;
    [|discriminate].
  destruct (answered_bytes (ttsAnswer w)) as [mp3|] eqn:Htts; [|discriminate].
  destruct (wavEnding w) as [[[|c|c]|]|e|e] eqn:Hwav; try discriminate.
  destruct (unlinkResult w) as [[]|e|e] eqn:Hun; [|discriminate|discriminate].
  cbv zeta. simpl default.
  destruct (openAiStt_answers (wavFile w) (sttAnswer w)
              (wav_path (now w)) (Some (sttLanguage p)) heard0)
    as [req1 E2]; try assumption.
  assert (E3 : exists t3,
     libreTranslate genv (translateAnswer w) (js_trim heard0)
       (targetLanguage p) (translateUrl p) (translateApiKey p)
     = (t3, Ok (if nonempty (js_trim heard0) then said0 else "")) /\
     fetched_urls t3
     = (if nonempty (js_trim heard0) then [translateUrl p] else []) /\
     (nonempty (js_trim heard0) = true ->
      exists req,
        In (Fetch (translateUrl p) req) t3 /\
        json_field "q" req = Some (JStr (js_trim heard0)) /\
        json_field "target" req = Some (JStr (targetLanguage p)))).
  { destruct (js_trim heard0) as [|c text] eqn:Hh.
    - exists []. split; [reflexivity|]. split; [reflexivity|]. discriminate.
    - destruct (libreTranslate_effects genv (translateAnswer w) c text
                  (targetLanguage p) (translateUrl p) (translateApiKey p))
        as (req & tail & He & Hf & _ & Hq & _ & Ht & _).
      eexists. split.
      + rewrite (js_eta (libreTranslate _ _ _ _ _ _)).
        rewrite (libreTranslate_answers _ _ _ _ _ _ said0 Htr). reflexivity.
      + rewrite He, fetched_urls_app. simpl.
        rewrite (fetched_urls_no_fetch tail Hf).
        split.
        * destruct (remote_without_key _ _ _); reflexivity.
        * intros _. exists req. split; [|split; assumption].
          apply in_or_app. right. left. reflexivity. }
  destruct E3 as (t3 & E3 & Hf3 & Hq3).
  destruct (elevenLabsTts_answers (ttsAnswer w) (mp3Ending w) (mp3RawData w)
              (if nonempty (js_trim heard0) then said0 else "")
              (Some (ttsVoiceId p)) mp3) as (req3 & E4 & Htext);
    try assumption.
  assert (Er : pipeline genv w p chunkBuf
     = ([Spawn "ffmpeg"
           ["-f"; "s16le"; "-ar"; pretty (sampleRate p); "-ac";
            pretty (channels p); "-i"; "pipe:0"; "-y"; wav_path (now w)]
           chunkBuf;
         Logger Info
           ("[HlsTranslationPlugin] flush => created WAV at " +:+
            wav_path (now w));
         ReadFile (wav_path (now w)); Fetch stt_url req1] ++ t3 ++
        [Console Plain
           ("[elevenLabsTts] Request => " +:+
            (if nonempty (js_trim heard0) then said0 else ""));
         Fetch (tts_url (ttsVoiceId p)) req3;
         Spawn "ffmpeg"
           ["-i"; "pipe:0"; "-f"; "s16le"; "-ar"; "48000"; "-ac"; "1";
            "pipe:1"] mp3;
         Unlink (wav_path (now w))],
        Ok (pcm_of_bytes (mp3RawData w)))).
  { unfold pipeline. rewrite Hwav, Hun.
    unfold convertPcmToWav. cbv zeta.
    change ("/tmp/" +:+ "hls_chunk_" +:+ pretty (now w) +:+ ".wav")
      with (wav_path (now w)).
    cbn [bind perform ret throw settle app].
    rewrite E2. cbn [bind app]. rewrite E3. cbn [bind app].
    rewrite E4. cbn [bind perform ret settle app].
    reflexivity. }
  rewrite Er. cbn [outcome effects fst snd].
  split; [reflexivity|].
  split.
  { rewrite !fetched_urls_app, Hf3.
    destruct (nonempty (js_trim heard0)); reflexivity. }
  split.
  { exists req3. split; [|exact Htext].
    apply in_or_app. right. apply in_or_app. right. right. left. reflexivity. }
  split.
  { intros Hne. destruct (Hq3 Hne) as (req & Hin & Hq & Ht).
    exists req. split; [|split; assumption].
    apply in_or_app. right. apply in_or_app. left. exact Hin. }
  split.
  { exists mp3. split; [reflexivity|].
    apply in_or_app. right. apply in_or_app. right.
    right. right. left. reflexivity. }
  rewrite !app_assoc.
  change [Console Plain
            ("[elevenLabsTts] Request => " +:+
             (if nonempty (js_trim heard0) then said0 else ""));
          Fetch (tts_url (ttsVoiceId p)) req3;
          Spawn "ffmpeg"
            ["-i"; "pipe:0"; "-f"; "s16le"; "-ar"; "48000"; "-ac"; "1";
             "pipe:1"] mp3;
          Unlink (wav_path (now w))]
    with ([Console Plain
             ("[elevenLabsTts] Request => " +:+
              (if nonempty (js_trim heard0) then said0 else ""));
           Fetch (tts_url (ttsVoiceId p)) req3;
           Spawn "ffmpeg"
             ["-i"; "pipe:0"; "-f"; "s16le"; "-ar"; "48000"; "-ac"; "1";
              "pipe:1"] mp3] ++ [Unlink (wav_path (now w))]).
  rewrite app_assoc. apply last_snoc.
Qed.
End SuccessfulRun.

(** ** When a run returns

    The conditions under which the stages return are not only sufficient:
    a run of the pipeline returns audio exactly when ffmpeg writes the WAV
    file, each stage answers or fails in a way it handles itself, and the
    file can be removed. Every other failure ends the run without audio. *)

Lemma is_ok_bind {A B} (m : Js A) (k : A -> Js B) :
  is_ok (outcome (bind m k))
  = match outcome m with
    | Ok a => is_ok (outcome (k a))
    | Throw _ | Uncaught _ => false
    end.
Proof.
  destruct m as [t [a|e|e]]; simpl; [destruct (k a)| |]; reflexivity.
Qed.

Section ReturnsExactly.
Context {rt : JsRuntime} (genv : Environ).

Lemma openAiStt_is_ok (w : PipelineEnv) wavPath language :
  is_ok (outcome (openAiStt genv (wavFile w) (sttAnswer w) wavPath language))
  = recognize_returns genv w.
Proof.
  unfold recognize_returns, handled, openAiStt. cbv zeta.
  destruct (truthy (OPENAI_KEY genv)); simpl; [|reflexivity].
  destruct (wavFile w) as [buf|e|e]; simpl; [|reflexivity|reflexivity].
  destruct (sttAnswer w) as [r|e|e]; simpl; [|reflexivity|reflexivity].
  destruct (resp_ok r); simpl.
  - destruct (resp_json r); reflexivity.
  - destruct (resp_text r); reflexivity.
Qed.

Lemma libreTranslate_is_ok (w : PipelineEnv) targetLang translateUrl
    translateApiKey :
  is_ok (outcome (libreTranslate genv (translateAnswer w) (recognized genv w)
                    targetLang translateUrl translateApiKey))
  = translate_returns genv w.
Proof.
  unfold translate_returns, handled.
  destruct (recognized genv w) as [|c text]; [reflexivity|].
  unfold libreTranslate. cbv zeta. cbn [nonempty negb orb].
  destruct (negb (includes translateUrl "localhost") && _);
    destruct (translateAnswer w) as [r|e|e]; simpl; try reflexivity;
    destruct (resp_ok r); simpl;
    try (destruct (resp_json r); reflexivity);
    destruct (resp_text r); reflexivity.
Qed.

Lemma elevenLabsTts_is_ok (w : PipelineEnv) text voiceId :
  is_ok (outcome (elevenLabsTts genv (ttsAnswer w) (mp3Ending w)
                    (mp3RawData w) text voiceId))
  = synthesize_returns genv w.
Proof.
  destruct (synthesize_returns genv w) eqn:H.
  - rewrite (elevenLabsTts_returns genv w text voiceId H). reflexivity.
  - unfold synthesize_returns, synthesize_degrades in H.
    apply orb_false_elim in H as [Hd H].
    apply orb_false_elim in Hd as [Hk Hd]. apply negb_false_iff in Hk.
    unfold elevenLabsTts. cbv zeta. rewrite Hk.
    destruct (ttsAnswer w) as [r|e|e]; [|reflexivity|reflexivity].
    simpl in Hd, H.
    destruct (resp_ok r) eqn:Hok.
    + destruct (resp_arrayBuffer r) as [b|e|e] eqn:Hb;
        simpl; rewrite Hok, Hb; [|reflexivity|reflexivity].
      simpl in H.
      destruct (mp3Ending w) as [[[|c|c]|]|e|e]; try discriminate H;
        reflexivity.
    + simpl in Hd.
      destruct (resp_text r) as [t|e|e] eqn:Ht; [discriminate Hd| |];
        simpl; rewrite Hok, Ht; reflexivity.
Qed.

Lemma pipeline_returns_exactly (w : PipelineEnv) (p : Plugin)
    (chunkBuf : Buffer) :
  is_ok (outcome (pipeline genv w p chunkBuf))
  = exited_cleanly (wavEnding w) && recognize_returns genv w &&
    translate_returns genv w && synthesize_returns genv w &&
    is_ok (unlinkResult w).
Proof.
  unfold pipeline. rewrite is_ok_bind.
  destruct (wavEnding w) as [[[|c|c]|]|e|e]; try reflexivity.
  rewrite convertPcmToWav_ok. cbn [exited_cleanly andb].
  rewrite is_ok_bind. cbn [perform outcome snd].
  rewrite is_ok_bind.
  destruct (recognize_returns genv w) eqn:Hr.
  - rewrite (openAiStt_returns genv w _ _ Hr). cbn [andb].
    rewrite is_ok_bind.
    destruct (translate_returns genv w) eqn:Ht.
    + rewrite (libreTranslate_returns genv w _ _ _ Ht). cbn [andb].
      rewrite is_ok_bind.
      destruct (synthesize_returns genv w) eqn:Hs.
      * rewrite (elevenLabsTts_returns genv w _ _ Hs). cbn [andb].
        destruct (unlinkResult w) as [[]|e|e]; reflexivity.
      * pose proof (elevenLabsTts_is_ok w (translated genv w)
                      (Some (ttsVoiceId p))) as E.
        rewrite Hs in E.
        destruct (outcome (elevenLabsTts _ _ _ _ _ _));
          [discriminate E|reflexivity|reflexivity].
    + pose proof (libreTranslate_is_ok w (targetLanguage p) (translateUrl p)
                    (translateApiKey p)) as E.
      rewrite Ht in E.
      destruct (outcome (libreTranslate _ _ _ _ _ _));
        [discriminate E|reflexivity|reflexivity].
  - pose proof (openAiStt_is_ok w
                  ("/tmp/" +:+ "hls_chunk_" +:+ pretty (now w) +:+ ".wav")
                  (Some (sttLanguage p))) as E.
    rewrite Hr in E.
    destruct (outcome (openAiStt _ _ _ _ _));
      [discriminate E|reflexivity|reflexivity].
Qed.
End ReturnsExactly.

(** ** The model at work *)

(** The end-to-end scenario: a chunk recognized as "hello", translated to
    "bonjour" and synthesized is the only entry handed to the consumer. *)
Example fair_run_enqueues_audio :
  let s :=
    @run reference_runtime all_keys
      [JanusReady (Janus 1); Data [x01; x02]; Tick;
       PipelineSettles 0 fair_world]
      (init all_keys demo_config) in
  sending s = [[1; -2]%Z] /\ ttsQueue (plugin s) = [] /\
  ttsProcessing (plugin s) = true /\ inflight s = [] /\
  pcmBuffer (plugin s) = [].
Proof. vm_compute. repeat split. Qed.

Example tone_first_samples :
  map (exact_tone_sample 8000 440 48000) [0; 1; 2; 27]%nat
  = [0; 460; 919; 7999]%Z.
Proof. vm_compute. reflexivity. Qed.

Example readInt16LE_negative : readInt16LE [xfe; xff] 0 = (-2)%Z.
Proof. reflexivity. Qed.

Example trim_hello : ascii_trim "  hello world  " = "hello world".
Proof. reflexivity. Qed.

(** ffmpeg is gone before it has read the chunk: the write to its standard
    input fails, and [ff.stdin] has no "error" listener. The run ends as an
    exception that nobody catches: nothing is logged by the plugin, nothing
    is queued, the process exits. *)
Example broken_pipe_ends_the_process :
  let s := @run reference_runtime all_keys
             [JanusReady (Janus 1); Data [x01; x02]; Tick]
             (init all_keys demo_config) in
  let s' := @step reference_runtime all_keys (PipelineSettles 0 broken_pipe) s in
  outcome (@pipeline reference_runtime all_keys broken_pipe (plugin s)
             [x01; x02])
  = Uncaught "Error: write EPIPE" /\
  running s = true /\ running s' = false /\
  last (trace s') = Some (Exit "Error: write EPIPE") /\
  backlog s' = [] /\
  List.filter (fun e => match e with Logger Error _ => true | _ => false end)
    (trace s') = [].
Proof. vm_compute. repeat split. Qed.

(** ** Where the specification and the program part *)

(** C1, counterexample. Every credential is configured, ffmpeg and the file
    system work, and every request is rejected by the network: the run
    throws at the first request, nothing is produced and nothing reaches the
    playback queue. *)
Lemma offline_run_enqueues_nothing :
  let p := new_plugin all_keys demo_config in
  let s := @run reference_runtime all_keys
             [JanusReady (Janus 1); Data [x01; x02]; Tick]
             (init all_keys demo_config) in
  let s' := @step reference_runtime all_keys (PipelineSettles 0 offline_world) s in
  (call_fails (OPENAI_KEY all_keys) (sttAnswer offline_world) = true /\
   request_fails (translateAnswer offline_world) = true /\
   call_fails (ELEVENLABS_KEY all_keys) (ttsAnswer offline_world) = true) /\
  inflight s = [[x01; x02]] /\
  outcome (@pipeline reference_runtime all_keys offline_world p [x01; x02])
  = Throw "TypeError: fetch failed" /\
  backlog s' = [] /\ inflight s' = [] /\
  ~ (forall (genv : Environ) (w : PipelineEnv) (q : Plugin) (chunkBuf : Buffer),
       wavEnding w = Closed (Some 0%Z) ->
       is_ok (wavFile w) = true ->
       unlinkResult w = Ok tt ->
       call_fails (OPENAI_KEY genv) (sttAnswer w) = true ->
       request_fails (translateAnswer w) = true ->
       call_fails (ELEVENLABS_KEY genv) (ttsAnswer w) = true ->
       exists pcm,
         outcome (@pipeline reference_runtime genv w q chunkBuf) = Ok pcm).
Proof.
  cbv zeta. split; [repeat split|]. split; [reflexivity|].
  split; [reflexivity|]. split; [reflexivity|]. split; [reflexivity|].
  intros H.
  destruct (H all_keys offline_world (new_plugin all_keys demo_config)
              [x01; x02]) as [pcm Hpcm]; try reflexivity.
  rewrite (pipeline_stt_rejected all_keys offline_world _ _
             "TypeError: fetch failed") in Hpcm by reflexivity.
  discriminate Hpcm.
Qed.

(** C2. The program at the failing input. A consumer loop is sending the
    audio of a first chunk, the in-progress flag set, when [cleanup] is
    called: the flag is cleared although the loop is still suspended in its
    send. The run of the second chunk, which [cleanup] did not cancel, then
    ends, finds the flag cleared and starts a second loop: two entries are
    being sent to Janus at once, where the comments of the program say the
    queue is there so that outputs do not overlap. *)
Lemma cleanup_allows_second_consumer :
  let before := two_ticks ++ [PipelineSettles 0 fair_world] in
  let s0 := @run reference_runtime all_keys before (init all_keys demo_config) in
  let s1 := @step reference_runtime all_keys Cleanup s0 in
  let s2 := @step reference_runtime all_keys (PipelineSettles 0 late_world) s1 in
  (sending s0 = [[1; -2]]%Z /\ ttsProcessing (plugin s0) = true /\
   inflight s0 = [[x03; x04]] /\ one_consumer s0) /\
  (sending s1 = [[1; -2]]%Z /\ ttsProcessing (plugin s1) = false /\
   inflight s1 = [[x03; x04]] /\ ~ one_consumer s1) /\
  s2 = @run reference_runtime all_keys
         (before ++ [Cleanup; PipelineSettles 0 late_world])
         (init all_keys demo_config) /\
  sending s2 = [[1; -2]; [3]]%Z /\
  ~ (length (sending s2) <= 1)%nat /\
  ~ (forall evs' : list Event,
       (length (sending (@run reference_runtime all_keys evs'
                           (init all_keys demo_config))) <= 1)%nat).
Proof.
  cbv zeta.
  split.
  { split; [vm_compute; reflexivity|]. split; [vm_compute; reflexivity|].
    split; [vm_compute; reflexivity|]. unfold one_consumer. vm_compute. lia. }
  split.
  { split; [vm_compute; reflexivity|]. split; [vm_compute; reflexivity|].
    split; [vm_compute; reflexivity|]. unfold one_consumer. vm_compute. lia. }
  split; [vm_compute; reflexivity|].
  split; [vm_compute; reflexivity|].
  split; [vm_compute; lia|].
  intros H.
  specialize (H (two_ticks ++ [PipelineSettles 0 fair_world; Cleanup;
                               PipelineSettles 0 late_world])).
  vm_compute in H. lia.
Qed.

(** C5, counterexample. Two ticks drain two chunks; what is in flight is the
    bare bytes of each. Both runs end with the same audio: the entry made for
    the first chunk and the entry made for the second are equal, so no
    sequence number 0 can be read off the one and 1 off the other. And when
    the run of the second chunk ends first, its audio is played first. *)
Lemma queue_entries_carry_no_sequence_number :
  let s := @run reference_runtime all_keys two_ticks (init all_keys demo_config) in
  let s0 := @step reference_runtime all_keys (PipelineSettles 0 fair_world) s in
  let s1 := @step reference_runtime all_keys (PipelineSettles 0 fair_world) s0 in
  inflight s = [[x01; x02]; [x03; x04]] /\
  backlog s0 = [[1; -2]%Z] /\ inflight s0 = [[x03; x04]] /\
  backlog s1 = [[1; -2]; [1; -2]]%Z /\
  ~ (exists seq_of : Int16Array -> nat,
       (seq_of <$> backlog s1) = [0; 1]%nat) /\
  backlog (@run reference_runtime all_keys
             [PipelineSettles 1 late_world; PipelineSettles 0 fair_world] s)
  = [[3]; [1; -2]]%Z.
Proof.
  cbv zeta. split; [reflexivity|]. split; [vm_compute; reflexivity|].
  split; [vm_compute; reflexivity|]. split; [vm_compute; reflexivity|].
  split; [|vm_compute; reflexivity].
  intros [seq_of H]. vm_compute in H.
  injection H as H0 H1. rewrite H0 in H1. discriminate H1.
Qed.

(** C6, counterexample. The plugin is configured for 16000 Hz and no
    ElevenLabs key is set: the fallback has 24000 samples, the 500 ms of a
    48000 Hz tone, not the 8000 samples of 500 ms at 16000 Hz. *)
Lemma fallback_tone_ignores_configured_rate :
  let p := new_plugin no_keys config_16k in
  sampleRate p = 16000%Z /\
  outcome (@elevenLabsTts reference_runtime no_keys network_error
             (Closed (Some 0%Z)) [] "bonjour" (Some (ttsVoiceId p)))
  = Ok (@syntheticBeepPcm reference_runtime) /\
  Z.of_nat (length (@syntheticBeepPcm reference_runtime)) = 24000%Z /\
  (sampleRate p * 500 / 1000 = 8000)%Z /\
  ~ (forall (rt : JsRuntime) (genv : Environ) (q : Plugin)
            (answer : Result Response) (text : string),
       call_fails (ELEVENLABS_KEY genv) answer = true ->
       exists pcm,
         outcome (elevenLabsTts genv answer (Closed (Some 0%Z)) [] text
                    (Some (ttsVoiceId q))) = Ok pcm /\
         Z.of_nat (length pcm) = (sampleRate q * 500 / 1000)%Z).
Proof.
  cbv zeta. split; [reflexivity|]. split; [reflexivity|].
  split; [apply syntheticBeepPcm_length|]. split; [reflexivity|].
  intros H.
  destruct (H reference_runtime no_keys (new_plugin no_keys config_16k)
              network_error "bonjour" eq_refl) as (pcm & Hpcm & Hlen).
  rewrite (elevenLabsTts_degrades no_keys) in Hpcm by reflexivity.
  apply Ok_inj in Hpcm. subst pcm.
  rewrite syntheticBeepPcm_length in Hlen.
  change (24000 = 8000)%Z in Hlen. discriminate Hlen.
Qed.

(** C7, counterexample. The translation request for "hello" is rejected by
    the network: [libreTranslate] throws instead of returning "hello", the
    run of the chunk ends in the handler and its audio is never queued. *)
Lemma rejected_translation_drops_chunk :
  let p := new_plugin all_keys demo_config in
  let s := @run reference_runtime all_keys
             [JanusReady (Janus 1); Data [x01; x02]; Tick]
             (init all_keys demo_config) in
  let s' := @step reference_runtime all_keys
              (PipelineSettles 0 translation_down) s in
  request_fails network_error = true /\
  outcome (libreTranslate all_keys network_error "hello" "fr"
             "http://localhost:5000/translate" None)
  = Throw "TypeError: fetch failed" /\
  outcome (@pipeline reference_runtime all_keys translation_down p [x01; x02])
  = Throw "TypeError: fetch failed" /\
  backlog s' = [] /\ inflight s' = [] /\
  ~ (forall (genv : Environ) (answer : Result Response)
            (text targetLang translateUrl : string)
            (translateApiKey : option string),
       request_fails answer = true ->
       outcome (libreTranslate genv answer text targetLang translateUrl
                  translateApiKey) = Ok text).
Proof.
  cbv zeta. split; [reflexivity|]. split; [reflexivity|].
  split; [vm_compute; reflexivity|]. split; [vm_compute; reflexivity|].
  split; [vm_compute; reflexivity|].
  intros H.
  specialize (H all_keys network_error "hello" "fr"
                "http://localhost:5000/translate" None eq_refl).
  discriminate H.
Qed.

(** C8, counterexample. No Janus client is attached and the audio is 2000
    samples, five frames at 48 kHz mono: the pacer returns with one warning
    and without a single wait, where five were due. *)
Lemma no_sink_no_pacing :
  let p := new_plugin all_keys demo_config in
  janus p = None /\
  frame_count (Z.of_nat (length ramp)) (frameSizeSamples p) = 5%Z /\
  sendTtsPcmToJanus 5 p [ramp] 0
  = Returned
      {| heap := [ramp];
         out := [Logger Warn
           "[HlsTranslationPlugin] sendTtsPcmToJanus => no Janus client"] |} /\
  ~ (forall (fuel : nat) (q : Plugin) (h : Heap) (rawPcm : loc)
            (pcm : Int16Array),
       janus q = None ->
       (0 < frameSizeSamples q)%Z ->
       h !! rawPcm = Some pcm ->
       (Z.of_nat (length pcm) / frameSizeSamples q < Z.of_nat fuel)%Z ->
       exists st,
         sendTtsPcmToJanus fuel q h rawPcm = Returned st /\
         Z.of_nat (length (List.filter is_delay (out st)))
         = frame_count (Z.of_nat (length pcm)) (frameSizeSamples q)).
Proof.
  cbv zeta. split; [reflexivity|]. split; [vm_compute; reflexivity|].
  split; [reflexivity|].
  intros H.
  destruct (H 5%nat (new_plugin all_keys demo_config) [ramp] 0%nat ramp)
    as (st & Hst & Hdelays);
    [reflexivity|reflexivity|reflexivity|vm_compute; reflexivity|].
  injection Hst as <-. vm_compute in Hdelays. discriminate Hdelays.
Qed.

(** C9, counterexample. The endpoint is remote and no key is configured, but
    the text is empty: [libreTranslate] returns before the test, nothing is
    logged and no request is sent. *)
Lemma empty_text_is_not_warned :
  let call :=
    libreTranslate no_keys (answer_json "bonjour") "" "fr"
      "https://libretranslate.com/translate" None in
  remote_without_key no_keys "https://libretranslate.com/translate" None = true /\
  existsb is_warning (effects call) = false /\
  fetch_count call = 0%nat /\
  ~ (forall (genv : Environ) (answer : Result Response)
            (text targetLang translateUrl : string)
            (translateApiKey : option string),
       existsb is_warning
         (effects (libreTranslate genv answer text targetLang translateUrl
                     translateApiKey))
       = remote_without_key genv translateUrl translateApiKey).
Proof.
  cbv zeta. split; [reflexivity|]. split; [reflexivity|].
  split; [reflexivity|].
  intros H.
  specialize (H no_keys (answer_json "bonjour") "" "fr"
                "https://libretranslate.com/translate" None).
  discriminate H.
Qed.

(** ** The theorems at concrete inputs *)

(** C1 at work: every key is set; recognition answers "hello", translation
    is refused with 403 and synthesis with 401. The chunk drained by the
    tick ends as the fallback tone in the audio waiting to be played. *)
Lemma handled_failures_enqueue_audio_witness :
  let s := @run reference_runtime all_keys
             [JanusReady (Janus 1); Data [x01; x02]; Tick]
             (init all_keys demo_config) in
  let w := refused_after_recognition in
  inflight s !! 0%nat = Some [x01; x02] /\
  wavEnding w = Closed (Some 0%Z) /\
  unlinkResult w = Ok tt /\
  recognize_returns all_keys w = true /\
  @translate_returns reference_runtime all_keys w = true /\
  synthesize_returns all_keys w = true /\
  (recognize_degrades all_keys w = false /\
   @recognized reference_runtime all_keys w = "hello" /\
   @translated reference_runtime all_keys w = "hello") /\
  outcome (@pipeline reference_runtime all_keys w (plugin s) [x01; x02])
  = Ok (@syntheticBeepPcm reference_runtime) /\
  backlog (@step reference_runtime all_keys (PipelineSettles 0 w) s)
  = backlog s ++ [@syntheticBeepPcm reference_runtime].
Proof.
  cbv zeta.
  set (s := @run reference_runtime all_keys
              [JanusReady (Janus 1); Data [x01; x02]; Tick]
              (init all_keys demo_config)).
  assert (H1 : inflight s !! 0%nat = Some [x01; x02]) by reflexivity.
  assert (H2 : wavEnding refused_after_recognition = Closed (Some 0%Z))
    by reflexivity.
  assert (H3 : unlinkResult refused_after_recognition = Ok tt) by reflexivity.
  assert (H4 : recognize_returns all_keys refused_after_recognition = true)
    by reflexivity.
  assert (H5 : @translate_returns reference_runtime all_keys
                 refused_after_recognition = true) by reflexivity.
  assert (H6 : synthesize_returns all_keys refused_after_recognition = true)
    by reflexivity.
  split; [exact H1|]. split; [exact H2|]. split; [exact H3|].
  split; [exact H4|]. split; [exact H5|]. split; [exact H6|].
  split; [repeat split|].
  destruct (@handled_failures_enqueue_audio reference_runtime all_keys s 0%nat
              refused_after_recognition [x01; x02] H1 H2 H3 H4 H5 H6)
    as (Hr & Hb & _ & _ & _ & Hd & _).
  rewrite <- (Hd eq_refl). split; [exact Hr|exact Hb].
Defined.

(** The invariant at work: a cleanup while nothing is being sent, a new
    start, two runs that end one after the other, the first send returns;
    one consumer at most all along. *)
Lemma single_consumer_unless_cleanup_during_send_witness :
  let evs :=
    two_ticks ++ [Cleanup; JanusReady (Janus 1);
                  PipelineSettles 0 fair_world; PipelineSettles 0 late_world;
                  SendReturns 0] in
  no_cleanup evs = false /\
  @cleanup_only_when_idle reference_runtime all_keys evs
    (init all_keys demo_config) = true /\
  one_consumer (@run reference_runtime all_keys evs (init all_keys demo_config)) /\
  (length (sending (@run reference_runtime all_keys evs
                      (init all_keys demo_config))) <= 1)%nat.
Proof.
  cbv zeta. split; [reflexivity|].
  assert (H : @cleanup_only_when_idle reference_runtime all_keys
                (two_ticks ++ [Cleanup; JanusReady (Janus 1);
                               PipelineSettles 0 fair_world;
                               PipelineSettles 0 late_world; SendReturns 0])
                (init all_keys demo_config) = true)
    by (vm_compute; reflexivity).
  split; [exact H|].
  exact (@single_consumer_unless_cleanup_during_send reference_runtime all_keys
           demo_config
           (two_ticks ++ [Cleanup; JanusReady (Janus 1);
                          PipelineSettles 0 fair_world;
                          PipelineSettles 0 late_world; SendReturns 0])
           H).
Defined.

(** C3 at work: at 44100 Hz stereo the frame is 441 * 2 = 882 samples, and
    2000 samples are three frames, two full and one padded from its 237th
    sample on. *)
Lemma pacer_emits_padded_frames_witness :
  janus cd_plugin = Some (Janus 1) /\
  (0 < sampleRate cd_plugin / 100 * channels cd_plugin)%Z /\
  [ramp] !! 0%nat = Some ramp /\
  (Z.of_nat (length ramp) / (sampleRate cd_plugin / 100 * channels cd_plugin)
   < Z.of_nat 3)%Z /\
  frameSizeSamples cd_plugin = 882%Z /\
  exists st : PacerState,
    sendTtsPcmToJanus 3 cd_plugin [ramp] 0 = Returned st /\
    out st = paced cd_plugin 1 0 3 /\
    heap st !! 3%nat = Some (frame_of 882 ramp 2) /\
    frame_of 882 ramp 2 !! 235%nat = Some 2000%Z /\
    frame_of 882 ramp 2 !! 236%nat = Some 0%Z /\
    samples_pushed (heap st) (out st) = (3 * 882)%nat.
Proof.
  assert (H1 : janus cd_plugin = Some (Janus 1)) by reflexivity.
  assert (H2 : (0 < sampleRate cd_plugin / 100 * channels cd_plugin)%Z)
    by reflexivity.
  assert (H3 : [ramp] !! 0%nat = Some ramp) by reflexivity.
  assert (H4 : (Z.of_nat (length ramp) /
                (sampleRate cd_plugin / 100 * channels cd_plugin)
                < Z.of_nat 3)%Z) by (vm_compute; reflexivity).
  split; [exact H1|]. split; [exact H2|]. split; [exact H3|].
  split; [exact H4|].
  destruct (pacer_emits_padded_frames 3 cd_plugin (Janus 1) [ramp] 0%nat
              ramp H1 H2 H3 H4)
    as (HF & st & Hrun & Hout & _ & _ & Hframes & _ & _ & Hsamples).
  split; [exact HF|].
  exists st. split; [exact Hrun|]. split; [exact Hout|].
  split; [exact (proj1 (Hframes 2%nat ltac:(vm_compute; lia)))|].
  split; [vm_compute; reflexivity|]. split; [vm_compute; reflexivity|].
  exact Hsamples.
Defined.

(** C5 at work: a tick on a buffer of two bytes. *)
Lemma tick_and_settle_witness :
  let s := @run reference_runtime all_keys
             [JanusReady (Janus 1); Data [x01; x02]]
             (init all_keys demo_config) in
  flushTimer (plugin s) = true /\
  pcmBuffer (plugin s) <> [] /\
  inflight (@step reference_runtime all_keys Tick s) = [[x01; x02]] /\
  pcmBuffer (plugin (@step reference_runtime all_keys Tick s)) = [].
Proof.
  cbv zeta.
  set (s := @run reference_runtime all_keys
              [JanusReady (Janus 1); Data [x01; x02]]
              (init all_keys demo_config)).
  assert (H1 : flushTimer (plugin s) = true) by reflexivity.
  assert (H2 : pcmBuffer (plugin s) <> []) by (vm_compute; discriminate).
  split; [exact H1|]. split; [exact H2|].
  rewrite (proj1 (@tick_and_settle_without_sequence_number reference_runtime
                    all_keys s H1 H2)).
  split; reflexivity.
Defined.

(** C6 at work: the key is set and ElevenLabs answers 401. *)
Lemma fallback_tone_fixed_rate_witness :
  synthesize_degrades all_keys (answer_error "401 Unauthorized") = true /\
  outcome (@elevenLabsTts reference_runtime all_keys
             (answer_error "401 Unauthorized") (Closed (Some 0%Z)) []
             "bonjour" None)
  = Ok (@syntheticBeepPcm reference_runtime) /\
  Z.of_nat (length (@syntheticBeepPcm reference_runtime)) = 24000%Z.
Proof.
  split; [reflexivity|].
  destruct (@fallback_tone_fixed_rate reference_runtime all_keys
              (answer_error "401 Unauthorized") (Closed (Some 0%Z)) []
              "bonjour" None eq_refl) as (H1 & H2 & _).
  split; [exact H1|exact H2].
Defined.

(** C7 at work: LibreTranslate answers 403 to the request for "hello". *)
Lemma translate_empty_or_not_ok_witness :
  answered_not_ok (answer_error "403 Forbidden") = true /\
  libreTranslate all_keys network_error "" "fr"
    "http://localhost:5000/translate" None = ([], Ok "") /\
  outcome (libreTranslate all_keys (answer_error "403 Forbidden") "hello" "fr"
             "http://localhost:5000/translate" None) = Ok "hello".
Proof.
  split; [reflexivity|].
  destruct (translate_empty_or_not_ok all_keys network_error
              (answer_error "403 Forbidden") "hello" "fr"
              "http://localhost:5000/translate" None eq_refl)
    as (H1 & _ & H2 & _).
  split; [exact H1|exact H2].
Defined.

(** C8 at work: 2000 samples and no Janus client. *)
Lemma no_sink_returns_at_once_witness :
  janus (new_plugin all_keys demo_config) = None /\
  exists st : PacerState,
    sendTtsPcmToJanus 0 (new_plugin all_keys demo_config) [ramp] 0
    = Returned st /\
    List.filter is_delay (out st) = [] /\ heap st = [ramp].
Proof.
  split; [reflexivity|].
  destruct (no_sink_returns_at_once 0 (new_plugin all_keys demo_config)
              [ramp] 0%nat eq_refl)
    as (st & Hrun & _ & Hheap & _ & Hdelay & _).
  exists st. split; [exact Hrun|]. split; [exact Hdelay|exact Hheap].
Defined.

(** C9 at work: a remote endpoint, no key anywhere and a text to
    translate. *)
Lemma translate_warns_witness :
  let call :=
    libreTranslate no_keys (answer_json "bonjour") "hello" "fr"
      "https://libretranslate.com/translate" None in
  "hello" <> "" /\
  existsb is_warning (effects call) = true /\
  fetch_count call = 1%nat.
Proof.
  cbv zeta.
  assert (H : "hello" <> "") by discriminate.
  split; [exact H|].
  destruct (translate_warns_iff_remote_without_key no_keys
              (answer_json "bonjour") "hello" "fr"
              "https://libretranslate.com/translate" None H)
    as (H1 & H2 & _).
  split; [exact H1|exact H2].
Defined.


(** ** The further theorems at concrete inputs *)

(** X1 at work: 2000 samples in frames of 480. *)
Lemma pacer_frames_concatenate_witness :
  janus attached_plugin = Some (Janus 1) /\
  (0 < frameSizeSamples attached_plugin)%Z /\
  [ramp] !! 0%nat = Some ramp /\
  (Z.of_nat (length ramp) / frameSizeSamples attached_plugin < Z.of_nat 5)%Z /\
  exists (st : PacerState) (pad : nat),
    sendTtsPcmToJanus 5 attached_plugin [ramp] 0 = Returned st /\
    concat (pushed_frames (heap st) (out st)) = ramp ++ replicate pad 0%Z /\
    (Z.of_nat pad < 480)%Z.
Proof.
  assert (H1 : janus attached_plugin = Some (Janus 1)) by reflexivity.
  assert (H2 : (0 < frameSizeSamples attached_plugin)%Z) by reflexivity.
  assert (H3 : [ramp] !! 0%nat = Some ramp) by reflexivity.
  assert (H4 : (Z.of_nat (length ramp) / frameSizeSamples attached_plugin
                < Z.of_nat 5)%Z) by (vm_compute; reflexivity).
  split; [exact H1|]. split; [exact H2|]. split; [exact H3|].
  split; [exact H4|].
  destruct (pacer_frames_concatenate 5 attached_plugin (Janus 1) [ramp] 0%nat
              ramp H1 H2 H3 H4) as (st & pad & Hrun & Hcat & Hpad & _).
  exists st, pad. split; [exact Hrun|]. split; [exact Hcat|exact Hpad].
Defined.

(** X2 at work: a plugin configured for 50 Hz. *)
Lemma pacer_never_returns_witness :
  let p := set_janus (Some (Janus 1)) (new_plugin all_keys config_low_rate) in
  janus p = Some (Janus 1) /\
  ((0 <= sampleRate p < 100)%Z \/ channels p = 0%Z) /\
  sendTtsPcmToJanus 1000 p [ramp] 0 = Diverged.
Proof.
  cbv zeta.
  assert (H1 : janus (set_janus (Some (Janus 1))
                        (new_plugin all_keys config_low_rate))
               = Some (Janus 1)) by reflexivity.
  assert (H2 : (0 <= sampleRate (set_janus (Some (Janus 1))
                                   (new_plugin all_keys config_low_rate))
                < 100)%Z \/
               channels (set_janus (Some (Janus 1))
                           (new_plugin all_keys config_low_rate)) = 0%Z)
    by (left; simpl; lia).
  split; [exact H1|]. split; [exact H2|].
  exact (pacer_never_returns_on_zero_frame_size 1000 _ (Janus 1) [ramp] 0%nat
           H1 H2).
Defined.

(** X3 at work: a plugin configured with -1 channels. *)
Lemma pacer_throws_witness :
  let p :=
    set_janus (Some (Janus 1)) (new_plugin all_keys config_negative_channels) in
  janus p = Some (Janus 1) /\
  (sampleRate p / 100 * channels p < 0)%Z /\
  sendTtsPcmToJanus 1 p [ramp] 0
  = Raised "RangeError: Invalid typed array length: -480".
Proof.
  cbv zeta.
  assert (H1 : janus (set_janus (Some (Janus 1))
                        (new_plugin all_keys config_negative_channels))
               = Some (Janus 1)) by reflexivity.
  assert (H2 : (sampleRate
                  (set_janus (Some (Janus 1))
                     (new_plugin all_keys config_negative_channels)) / 100 *
                channels
                  (set_janus (Some (Janus 1))
                     (new_plugin all_keys config_negative_channels)) < 0)%Z)
    by reflexivity.
  split; [exact H1|]. split; [exact H2|].
  exact (pacer_throws_on_negative_frame_size 0 _ (Janus 1) [ramp] 0%nat H1 H2).
Defined.


(** X5 at work: the send of the first audio throws; the second run ends and
    nothing is sent any more. *)
Lemma consumer_stalls_witness :
  let s := @run reference_runtime all_keys first_audio_sending
             (init all_keys demo_config) in
  let evs := [PipelineSettles 0 late_world; SendReturns 0; Tick] in
  let s0 := @step reference_runtime all_keys (SendThrows 0 "Error") s in
  one_consumer s /\
  is_Some (sending s !! 0%nat) /\
  no_cleanup evs = true /\
  sending (@run reference_runtime all_keys evs s0) = [] /\
  ttsProcessing (plugin (@run reference_runtime all_keys evs s0)) = true.
Proof.
  cbv zeta.
  set (s := @run reference_runtime all_keys first_audio_sending
              (init all_keys demo_config)).
  assert (H1 : one_consumer s) by (unfold one_consumer; vm_compute; lia).
  assert (H2 : is_Some (sending s !! 0%nat)) by (eexists; reflexivity).
  assert (H3 : no_cleanup [PipelineSettles 0 late_world; SendReturns 0; Tick]
               = true) by reflexivity.
  split; [exact H1|]. split; [exact H2|]. split; [exact H3|].
  destruct (@consumer_stalls_after_pacer_exception reference_runtime all_keys
              [PipelineSettles 0 late_world; SendReturns 0; Tick] s 0%nat
              "Error" H1 H2 H3) as (Hs & Hf & _).
  split; [exact Hs|exact Hf].
Defined.

(** X6 at work: [cleanup] while the first audio is being sent and the second
    run is in flight. *)
Lemma cleanup_does_not_cancel_witness :
  let s := @run reference_runtime all_keys first_audio_sending
             (init all_keys demo_config) in
  inflight s !! 0%nat = Some [x03; x04] /\
  outcome (@pipeline reference_runtime all_keys late_world (plugin s)
             [x03; x04]) = Ok [3%Z] /\
  sending (@run reference_runtime all_keys
             [Cleanup; PipelineSettles 0 late_world] s)
  = sending s ++ [[3%Z]].
Proof.
  cbv zeta.
  set (s := @run reference_runtime all_keys first_audio_sending
              (init all_keys demo_config)).
  assert (H1 : inflight s !! 0%nat = Some [x03; x04]) by reflexivity.
  assert (H2 : outcome (@pipeline reference_runtime all_keys late_world
                          (plugin s) [x03; x04]) = Ok [3%Z])
    by reflexivity.
  split; [exact H1|]. split; [exact H2|].
  exact (proj1 (@cleanup_does_not_cancel_runs reference_runtime all_keys s
                  0%nat late_world [x03; x04] [3%Z] H1 H2)).
Defined.

(** X7 at work: five bytes arrive around two ticks. *)
Lemma no_byte_lost_witness :
  let s := @run reference_runtime all_keys [JanusReady (Janus 1)]
             (init all_keys demo_config) in
  let evs := [Data [x01]; Tick; Data [x02; x03]; Data [x04]; Tick;
              Data [x05]] in
  ffmpegProcess (plugin s) <> None /\
  feed_only evs = true /\
  concat (inflight (@run reference_runtime all_keys evs s)) ++
  pcmBuffer (plugin (@run reference_runtime all_keys evs s))
  = [x01; x02; x03; x04; x05].
Proof.
  cbv zeta.
  set (s := @run reference_runtime all_keys [JanusReady (Janus 1)]
              (init all_keys demo_config)).
  assert (H1 : ffmpegProcess (plugin s) <> None) by (vm_compute; discriminate).
  assert (H2 : feed_only [Data [x01]; Tick; Data [x02; x03]; Data [x04]; Tick;
                          Data [x05]] = true) by reflexivity.
  split; [exact H1|]. split; [exact H2|].
  exact (@no_byte_lost_before_the_pipeline reference_runtime all_keys _ s
           H1 H2).
Defined.

(** X11 at work: the translation request is rejected; the WAV file stays. *)
Lemma wav_file_left_behind_witness :
  let r := @pipeline reference_runtime all_keys translation_down
             (new_plugin all_keys demo_config) [x01; x02] in
  is_ok (unlinkResult translation_down) = true /\
  is_ok (outcome r) = false /\
  existsb is_unlink (effects r) = false.
Proof.
  cbv zeta.
  assert (H1 : is_ok (unlinkResult translation_down) = true) by reflexivity.
  assert (H2 : is_ok (outcome (@pipeline reference_runtime all_keys
                                 translation_down
                                 (new_plugin all_keys demo_config)
                                 [x01; x02])) = false) by reflexivity.
  split; [exact H1|]. split; [exact H2|].
  exact (proj1 (@wav_file_removed_only_on_success reference_runtime all_keys
                  translation_down (new_plugin all_keys demo_config)
                  [x01; x02] H1) H2).
Defined.

(** X13 at work: the bytes fe ff are the sample -2. *)
Lemma decoded_sample_witness :
  pcm_of_bytes [x01; x00; xfe; xff] !! 1%nat = Some (-2)%Z /\
  (-32768 <= -2 <= 32767)%Z /\
  exists lo hi : byte,
    [x01; x00; xfe; xff] !! 2%nat = Some lo /\
    [x01; x00; xfe; xff] !! 3%nat = Some hi /\
    ((-2) mod 256 = Z.of_N (Byte.to_N lo))%Z /\
    (((-2) / 256) mod 256 = Z.of_N (Byte.to_N hi))%Z.
Proof.
  assert (H : pcm_of_bytes [x01; x00; xfe; xff] !! 1%nat = Some (-2)%Z)
    by reflexivity.
  split; [exact H|].
  exact (decoded_sample_is_little_endian_int16 [x01; x00; xfe; xff] 1%nat
           (-2)%Z H).
Defined.

(** X14 at work: the key of the configuration wins over the one of the
    environment. *)
Lemma translation_request_witness :
  let genv :=
    {| env_OPENAI_API_KEY := None; env_ELEVENLABS_API_KEY := None;
       env_LIBRETRANSLATE_URL := None;
       env_LIBRETRANSLATE_API_KEY := Some "env-key" |} in
  "hello" <> "" /\
  exists req : Request,
    List.filter is_fetch
      (effects (libreTranslate genv (answer_json "bonjour") "hello" "fr"
                  "https://libretranslate.com/translate" (Some "cfg-key")))
    = [Fetch "https://libretranslate.com/translate" req] /\
    json_field "api_key" req = Some (JStr "cfg-key").
Proof.
  cbv zeta.
  assert (H : "hello" <> "") by discriminate.
  split; [exact H|].
  destruct (translation_request_carries_effective_key
              {| env_OPENAI_API_KEY := None; env_ELEVENLABS_API_KEY := None;
                 env_LIBRETRANSLATE_URL := None;
                 env_LIBRETRANSLATE_API_KEY := Some "env-key" |}
              (answer_json "bonjour") "hello" "fr"
              "https://libretranslate.com/translate" (Some "cfg-key") H)
    as (req & Hf & _ & _ & _ & _ & Hk).
  exists req. split; [exact Hf|exact Hk].
Defined.

(** X15 at work: the default configuration. *)
Lemma default_endpoint_witness :
  truthy (cfg_translateUrl demo_config) = false /\
  truthy (env_LIBRETRANSLATE_URL no_keys) = false /\
  existsb is_warning
    (effects (libreTranslate no_keys network_error "hello"
                (targetLanguage (new_plugin no_keys demo_config))
                (translateUrl (new_plugin no_keys demo_config))
                (translateApiKey (new_plugin no_keys demo_config)))) = false.
Proof.
  split; [reflexivity|]. split; [reflexivity|].
  exact (proj2 (default_endpoint_never_warns no_keys demo_config network_error
                  "hello" eq_refl eq_refl)).
Defined.

(** X16 at work: "hello" becomes "bonjour" becomes two samples. *)
Lemma successful_run_witness :
  let r := @pipeline reference_runtime all_keys fair_world
             (new_plugin all_keys demo_config) [x01; x02] in
  services_answer all_keys fair_world = true /\
  outcome r = Ok [1; -2]%Z /\
  fetched_urls (effects r)
  = service_urls (new_plugin all_keys demo_config).
Proof.
  cbv zeta.
  assert (H : services_answer all_keys fair_world = true) by reflexivity.
  split; [exact H|].
  destruct (@successful_run_hands_text_along reference_runtime all_keys
              fair_world (new_plugin all_keys demo_config) [x01; x02] H)
    as (Hr & Hf & _).
  split; [exact Hr|exact Hf].
Defined.
